(** * SmartMoneyService: detection and copy-trading engine

    A shallow embedding of the trade-detection and auto-copy-trading
    logic of [SmartMoneyService] (services/smart-money-service.ts):

    - the seen-hash dedup window ([seenTxHashes], a JavaScript [Set]);
    - the polling detector ([pollTargetWallets], [startPolling]);
    - the pending-transaction detector ([handleMempoolMessage]);
    - the price helpers ([clamp], [roundToTick], [calculateLimitPrice])
      and the split-order planner ([createSplitOrders]);
    - the per-event handler of [startAutoCopyTrading];
    - [unsubscribe] of [subscribeSmartMoneyTrades].

    Conventions of the embedding.

    - A JavaScript [number] is an exact rational ([Q]); results are
      compared with [==].  The rounding of binary64 arithmetic and the
      values [NaN] and [Infinity] are not represented; where the source
      can divide by zero the theorems assume the divisor is not zero.
    - A [Set<string>] is the list of its elements in insertion order,
      without duplicates (JavaScript sets iterate in insertion order).
    - A call that may throw returns a [Res]; [try]/[catch], early
      [return] and the mutation of [stats] are written in a small
      state-and-exception monad.
    - Wall-clock readings ([Date.now()]) are inputs of the functions. *)

From Stdlib Require Import String Ascii Bool Arith ZArith QArith Qround
  Qminmax Qabs Lqa Lia Permutation Sorted List.
Import ListNotations.

Close Scope Q_scope.
Local Open Scope nat_scope.
Local Open Scope list_scope.

(** ** JavaScript sets of strings, in insertion order *)

Module JsSet.

Definition t := list string.

Definition empty : t := [].

(** [set.has(x)] *)
Definition has (x : string) (s : t) : bool := existsb (String.eqb x) s.

(** [set.add(x)]: appended at the end unless already a member. *)
Definition add (x : string) (s : t) : t :=
  if has x s then s else s ++ [x].

(** [set.delete(x)] *)
Definition delete (x : string) (s : t) : t :=
  filter (fun y => negb (String.eqb y x)) s.

(** [set.size] *)
Definition size (s : t) : nat := length s.

(** [Array.from(set)] *)
Definition toArray (s : t) : list string := s.

End JsSet.

(** ** The seen-hash dedup window

    Both detectors run the same statements after a hash is added
    (startPolling, lines 920-924; handleMempoolMessage, lines 1052-1056):
<<
    if (this.seenTxHashes.size > 1000) {
      const toRemove = Array.from(this.seenTxHashes).slice(0, 500);
      toRemove.forEach(hash => this.seenTxHashes.delete(hash));
    }
>> *)

Module DedupWindow.

Definition CEILING : nat := 1000.
Definition EVICT : nat := 500.

(** [arr.slice(0, n)] *)
Definition slice0 (n : nat) (l : list string) : list string := firstn n l.

Definition prune (w : JsSet.t) : JsSet.t :=
  if CEILING <? JsSet.size w then
    let toRemove := slice0 EVICT (JsSet.toArray w) in
    fold_left (fun acc hash => JsSet.delete hash acc) toRemove w
  else w.

(** [seenTxHashes.add(hash)] followed by the pruning statement. *)
Definition mark (hash : string) (w : JsSet.t) : JsSet.t :=
  prune (JsSet.add hash w).

(** Marking a sequence of hashes, oldest first. *)
Definition markAll (hs : list string) (w : JsSet.t) : JsSet.t :=
  fold_left (fun acc h => mark h acc) hs w.

(** The representation invariant of the window. *)
Definition wf (w : JsSet.t) : Prop := NoDup w /\ length w <= CEILING.


End DedupWindow.

(** ** Numbers, strings and exceptions *)

Module JsMath.

Local Open Scope Q_scope.

(** [Math.max], [Math.min] *)
Definition max (a b : Q) : Q := Qmax a b.
Definition min (a b : Q) : Q := Qmin a b.

(** [Math.floor] *)
Definition floor (x : Q) : Q := inject_Z (Qfloor x).

(** [Math.round]: the nearest integer, halves towards plus infinity. *)
Definition round (x : Q) : Q := inject_Z (Qfloor (x + (1 # 2))).

(** [a < b] and [a > b] *)
Definition ltb (a b : Q) : bool := negb (Qle_bool b a).
Definition gtb (a b : Q) : bool := ltb b a.

(** A count used as a number. *)
Definition ofNat (n : nat) : Q := inject_Z (Z.of_nat n).

End JsMath.

Module JsString.

Definition lowerAscii (c : ascii) : ascii :=
  let n := nat_of_ascii c in
  if (65 <=? n) && (n <=? 90) then ascii_of_nat (n + 32) else c.

(** [s.toLowerCase()], on the ASCII letters addresses are made of. *)
Fixpoint toLowerCase (s : string) : string :=
  match s with
  | EmptyString => EmptyString
  | String c r => String (lowerAscii c) (toLowerCase r)
  end.

(** [arr.includes(x)] *)
Definition includes (x : string) (l : list string) : bool :=
  existsb (String.eqb x) l.

(** Truthiness of an optional string field: absent and [''] are falsy. *)
Definition truthy (o : option string) : bool :=
  match o with
  | Some s => negb (String.eqb s EmptyString)
  | None => false
  end.

End JsString.

(** Values thrown in the service. *)
Inductive Exn : Type :=
| SplitCountExceedsMaximum (splitCount : nat)
| SplitSizeBelowMinimum (sizePerOrder totalSize : Q) (effectiveSplitCount : nat)
| Thrown (message : string).

(** The outcome of a call that may throw. *)
Inductive Res (A : Type) : Type :=
| Ok (a : A)
| Throw (e : Exn).
Arguments Ok {A} a.
Arguments Throw {A} e.

Inductive Side : Type := BUY | SELL.

Definition Side_eqb (a b : Side) : bool :=
  match a, b with
  | BUY, BUY | SELL, SELL => true
  | _, _ => false
  end.

Inductive LimitOrderType : Type := GTC | GTD.
Inductive MarketOrderType : Type := FOK | FAK.

(** ** Price helpers and the split-order planner *)

Module Pricing.

Local Open Scope Q_scope.

Definition MIN_PRICE : Q := 1 # 100.
Definition MAX_PRICE : Q := 99 # 100.

(** [clamp(value, min, max)], line 2931 *)
Definition clamp (value min max : Q) : Q :=
  JsMath.max min (JsMath.min max value).

(** [roundToTick(price)], line 2924 *)
Definition roundToTick (price : Q) : Q :=
  JsMath.round (price * 100) / 100.

(** [calculateLimitPrice(side, detectedPrice, offset)], line 2848 *)
Definition calculateLimitPrice (side : Side) (detectedPrice offset : Q) : Q :=
  let raw :=
    match side with
    | BUY => detectedPrice + offset
    | SELL => detectedPrice - offset
    end in
  roundToTick (clamp raw MIN_PRICE MAX_PRICE).

(** The market-mode price of [startAutoCopyTrading], lines 1468-1470 *)
Definition slippagePrice (side : Side) (price maxSlippage : Q) : Q :=
  match side with
  | BUY => price * (1 + maxSlippage)
  | SELL => price * (1 - maxSlippage)
  end.

End Pricing.

Module SplitPlanner.

Import Pricing.
Local Open Scope Q_scope.

Record SplitParams : Type := {
  sp_tokenId : string;
  sp_side : Side;
  sp_basePrice : Q;
  sp_totalSize : Q;
  sp_splitCount : nat;
  sp_splitSpread : Q;
  sp_limitPriceOffset : Q;
  sp_orderType : option LimitOrderType
}.

Record LimitOrder : Type := {
  lo_tokenId : string;
  lo_side : Side;
  lo_price : Q;
  lo_size : Q;
  lo_orderType : LimitOrderType
}.

Definition MAX_SPLIT : nat := 15.
Definition MIN_SHARES : Q := 5.

(** [Math.floor(totalSize / n)] *)
Definition sizeFor (totalSize : Q) (n : nat) : Q :=
  JsMath.floor (totalSize / JsMath.ofNat n).

(** The loop of lines 2883-2885:
<<
    while (effectiveSplitCount > 1 &&
           Math.floor(totalSize / effectiveSplitCount) < MIN_SHARES)
      effectiveSplitCount--;
>> *)
Fixpoint reduceSplitCount (totalSize : Q) (n : nat) : nat :=
  match n with
  | S (S _ as m) =>
      if JsMath.ltb (sizeFor totalSize n) MIN_SHARES
      then reduceSplitCount totalSize m
      else n
  | _ => n
  end.

(** The price of child [i], lines 2906-2907 *)
Definition childPrice (side : Side) (baseLimitPrice splitSpread : Q) (i : nat) : Q :=
  let priceOffset :=
    match side with
    | BUY => JsMath.ofNat i * splitSpread
    | SELL => - JsMath.ofNat i * splitSpread
    end in
  roundToTick (clamp (baseLimitPrice + priceOffset) MIN_PRICE MAX_PRICE).

(** The loop of lines 2904-2916: [count] more children from index [i]. *)
Fixpoint pushOrders (p : SplitParams) (baseLimitPrice sizePerOrder : Q)
    (count i : nat) : list LimitOrder :=
  match count with
  | O => []
  | S count' =>
      {| lo_tokenId := sp_tokenId p;
         lo_side := sp_side p;
         lo_price := childPrice (sp_side p) baseLimitPrice (sp_splitSpread p) i;
         lo_size := sizePerOrder;
         lo_orderType := match sp_orderType p with Some t => t | None => GTC end |}
      :: pushOrders p baseLimitPrice sizePerOrder count' (S i)
  end.

(** [createSplitOrders(params)], line 2857.  The method is private and
    its only call passes [splitCount > 1]. *)
Definition createSplitOrders (p : SplitParams) : Res (list LimitOrder) :=
  if MAX_SPLIT <? sp_splitCount p then
    Throw (SplitCountExceedsMaximum (sp_splitCount p))
  else
    let effectiveSplitCount := reduceSplitCount (sp_totalSize p) (sp_splitCount p) in
    let sizePerOrder := sizeFor (sp_totalSize p) effectiveSplitCount in
    if JsMath.ltb sizePerOrder MIN_SHARES then
      Throw (SplitSizeBelowMinimum sizePerOrder (sp_totalSize p) effectiveSplitCount)
    else
      let baseLimitPrice :=
        calculateLimitPrice (sp_side p) (sp_basePrice p) (sp_limitPriceOffset p) in
      Ok (pushOrders p baseLimitPrice sizePerOrder effectiveSplitCount 0).


End SplitPlanner.

(** ** Trades, activities and the state of the service *)

Inductive DetectionSource : Type := Polling | Mempool.

(** [SmartMoneyTrade], line 123.  [smartMoneyInfo], a cache lookup, is
    left out. *)
Record SmartMoneyTrade : Type := {
  traderAddress : string;
  traderName : option string;
  conditionId : option string;
  marketSlug : option string;
  side : Side;
  size : Q;
  price : Q;
  tokenId : option string;
  outcome : option string;
  txHash : option string;
  timestamp : Z;
  isSmartMoney : bool;
  detectedAt : option Z;
  detectionSource : option DetectionSource
}.

(** A record of the trade-history query (the fields the service reads). *)
Record Activity : Type := {
  a_proxyWallet : option string;
  a_name : option string;
  a_conditionId : option string;
  a_slug : option string;
  a_side : Side;
  a_size : Q;
  a_price : Q;
  a_asset : option string;
  a_outcome : option string;
  a_transactionHash : string;
  a_timestamp : Z
}.

(** Registered handlers are closures; they are told apart by a number. *)
Definition HandlerId := nat.

Inductive SysEffect : Type :=
| ClearInterval (timer : nat)
| CloseSocket (socket : nat).

(** The fields of [SmartMoneyService] the detectors use, lines 783-792,
    and two ghost fields: the handler invocations made so far and the
    timers and sockets released so far. *)
Record Service : Type := {
  pollIntervalId : option nat;
  lastCheckTimestamp : Z;
  seenTxHashes : JsSet.t;
  tradeHandlers : list HandlerId;
  targetWallets : list string;
  mempoolWs : option nat;
  mempoolTargetAddresses : JsSet.t;
  smartMoneySet : JsSet.t;
  invoked : list (HandlerId * SmartMoneyTrade);
  released : list SysEffect
}.

Definition with_seenTxHashes (w : JsSet.t) (s : Service) : Service :=
  {| pollIntervalId := pollIntervalId s;
     lastCheckTimestamp := lastCheckTimestamp s;
     seenTxHashes := w;
     tradeHandlers := tradeHandlers s;
     targetWallets := targetWallets s;
     mempoolWs := mempoolWs s;
     mempoolTargetAddresses := mempoolTargetAddresses s;
     smartMoneySet := smartMoneySet s;
     invoked := invoked s;
     released := released s |}.

Definition with_lastCheckTimestamp (t : Z) (s : Service) : Service :=
  {| pollIntervalId := pollIntervalId s;
     lastCheckTimestamp := t;
     seenTxHashes := seenTxHashes s;
     tradeHandlers := tradeHandlers s;
     targetWallets := targetWallets s;
     mempoolWs := mempoolWs s;
     mempoolTargetAddresses := mempoolTargetAddresses s;
     smartMoneySet := smartMoneySet s;
     invoked := invoked s;
     released := released s |}.

(** The loop over the handlers, lines 935-941 and 1116-1122: every
    registered handler is called with the trade, in registration order;
    what a handler throws is caught and logged. *)
Definition notifyHandlers (trade : SmartMoneyTrade) (s : Service) : Service :=
  {| pollIntervalId := pollIntervalId s;
     lastCheckTimestamp := lastCheckTimestamp s;
     seenTxHashes := seenTxHashes s;
     tradeHandlers := tradeHandlers s;
     targetWallets := targetWallets s;
     mempoolWs := mempoolWs s;
     mempoolTargetAddresses := mempoolTargetAddresses s;
     smartMoneySet := smartMoneySet s;
     invoked := invoked s ++ map (fun h => (h, trade)) (tradeHandlers s);
     released := released s |}.



(** ** The polling detector *)

Module PollingDetector.

Local Open Scope Z_scope.

Definition OVERLAP_SECONDS : Z := 10.

(** One request of the trade-history query: wallet and start time
    (the other options are constants). *)
Definition Request : Type := string * Z.

(** The order of the result: newest first. *)
Definition newerFirst (a b : Activity) : Prop := a_timestamp b <= a_timestamp a.

(** Insertion in a list sorted by timestamp, newest first; equal
    timestamps keep their order. *)
Fixpoint insertDesc (a : Activity) (l : list Activity) : list Activity :=
  match l with
  | [] => [a]
  | b :: r =>
      if a_timestamp b <=? a_timestamp a then a :: l
      else b :: insertDesc a r
  end.

(** [arr.sort((a, b) => b.timestamp - a.timestamp)] (a stable sort) *)
Definition sortByTimestampDesc (l : list Activity) : list Activity :=
  fold_right insertDesc [] l.

(** The request of one wallet inside [Promise.all], lines 832-845:
    what the query throws is caught and replaced by [[]]. *)
Definition fetchWallet (getActivity : string -> Z -> Res (list Activity))
    (start : Z) (wallet : string) : list Activity :=
  match getActivity wallet start with
  | Ok activities => activities
  | Throw _ => []
  end.

(** [pollTargetWallets()], line 821; [now] is
    [Math.floor(Date.now() / 1000)].  Returns the new state, the
    requests issued and the activities. *)
Definition pollTargetWallets (getActivity : string -> Z -> Res (list Activity))
    (now : Z) (s : Service) : Service * list Request * list Activity :=
  match targetWallets s with
  | [] => (s, [], [])
  | _ =>
      let start := lastCheckTimestamp s in
      let requests := map (fun wallet => (wallet, start)) (targetWallets s) in
      let results := map (fetchWallet getActivity start) (targetWallets s) in
      (with_lastCheckTimestamp (Z.max start (now - OVERLAP_SECONDS)) s,
       requests,
       sortByTimestampDesc (concat results))
  end.

(** [activityToSmartMoneyTrade(activity)], line 867 *)
Definition activityToSmartMoneyTrade (s : Service) (activity : Activity)
    : option SmartMoneyTrade :=
  let traderAddress := option_map JsString.toLowerCase (a_proxyWallet activity) in
  match traderAddress with
  | Some addr =>
      if JsString.truthy traderAddress then
        Some {| traderAddress := addr;
                traderName := a_name activity;
                conditionId := a_conditionId activity;
                marketSlug := a_slug activity;
                side := a_side activity;
                size := a_size activity;
                price := a_price activity;
                tokenId := a_asset activity;
                outcome := a_outcome activity;
                txHash := Some (a_transactionHash activity);
                timestamp := a_timestamp activity;
                isSmartMoney := JsSet.has addr (smartMoneySet s);
                detectedAt := None;
                detectionSource := None |}
      else None
  | None => None
  end.

(** [trade.detectedAt = Date.now(); trade.detectionSource = 'polling'] *)
Definition stampPolling (nowMs : Z) (t : SmartMoneyTrade) : SmartMoneyTrade :=
  {| traderAddress := traderAddress t;
     traderName := traderName t;
     conditionId := conditionId t;
     marketSlug := marketSlug t;
     side := side t;
     size := size t;
     price := price t;
     tokenId := tokenId t;
     outcome := outcome t;
     txHash := txHash t;
     timestamp := timestamp t;
     isSmartMoney := isSmartMoney t;
     detectedAt := Some nowMs;
     detectionSource := Some Polling |}.

(** The body of the loop over the activities of a tick, lines 913-942. *)
Definition processActivity (nowMs : Z) (s : Service) (activity : Activity) : Service :=
  if JsSet.has (a_transactionHash activity) (seenTxHashes s) then s
  else
    let s1 := with_seenTxHashes
                (DedupWindow.mark (a_transactionHash activity) (seenTxHashes s)) s in
    match activityToSmartMoneyTrade s1 activity with
    | None => s1
    | Some trade => notifyHandlers (stampPolling nowMs trade) s1
    end.

(** The timer callback of [startPolling], lines 910-943. *)
Definition pollTick (getActivity : string -> Z -> Res (list Activity))
    (now nowMs : Z) (s : Service) : Service :=
  let '(s1, _, activities) := pollTargetWallets getActivity now s in
  fold_left (processActivity nowMs) activities s1.




End PollingDetector.

(** ** The pending-transaction detector *)

Module OrderSide.
(** Modelled from the spec: the side flag of a decoded order
    (utils/calldata-decoder.ts is not part of the sources read here);
    the service compares it with [OrderSide.BUY] only. *)
Inductive t : Type := BUY | SELL.
End OrderSide.

(** Modelled from the spec: the order descriptor and the decoded
    settlement of utils/calldata-decoder.ts, with the fields the service
    reads; amounts are the raw integers of the calldata. *)
Record DecodedOrder : Type := {
  o_maker : string;
  o_signer : string;
  o_tokenId : string;
  o_side : OrderSide.t;
  o_makerAmount : Z;
  o_takerAmount : Z
}.

Record DecodedMatchOrders : Type := {
  takerOrder : DecodedOrder;
  makerOrders : list DecodedOrder
}.

(** A transaction object of the pending-transaction feed. *)
Record PendingTx : Type := {
  tx_to : option string;
  tx_input : option string;
  tx_hash : option string
}.

(** A message of the feed once parsed: [msg.id], [msg.result] and
    [msg.params?.result]. *)
Record RpcMessage : Type := {
  msg_id : option Z;
  msg_result : option string;
  msg_params_result : option PendingTx
}.

Section MempoolDetector.

(** The imports from utils/calldata-decoder.ts. *)
Variable ROUTER_ADDRESSES : JsSet.t.
Variable MATCH_ORDERS_SELECTOR : string.
Variable decodeMatchOrdersCalldata : string -> option DecodedMatchOrders.
Variable extractTraderAddresses : DecodedMatchOrders -> list string.

Local Open Scope Q_scope.

(** Lines 1060-1067: the order of the tracked trader. *)
Definition findTargetOrder (decoded : DecodedMatchOrders) (targetTrader : string)
    : DecodedOrder :=
  let taker := takerOrder decoded in
  if negb (String.eqb (o_maker taker) targetTrader)
     && negb (String.eqb (o_signer taker) targetTrader)
  then
    match find (fun o => String.eqb (o_maker o) targetTrader
                         || String.eqb (o_signer o) targetTrader)
               (makerOrders decoded) with
    | Some makerOrder => makerOrder
    | None => taker
    end
  else taker.

(** Lines 1076-1087: price and size from the two amounts. *)
Definition derivePriceSize (targetOrder : DecodedOrder) : Q * Q :=
  let makerAmt := inject_Z (o_makerAmount targetOrder) / 1000000 in
  let takerAmt := inject_Z (o_takerAmount targetOrder) / 1000000 in
  match o_side targetOrder with
  | OrderSide.BUY => (makerAmt / takerAmt, takerAmt)
  | OrderSide.SELL => (takerAmt / makerAmt, makerAmt)
  end.

(** Lines 1101-1114: the trade built from the order. *)
Definition mempoolTrade (s : Service) (now : Z) (tx : PendingTx)
    (targetTrader : string) (targetOrder : DecodedOrder) : SmartMoneyTrade :=
  let '(price, size) := derivePriceSize targetOrder in
  {| traderAddress := targetTrader;
     traderName := None;
     conditionId := None;
     marketSlug := None;
     side := match o_side targetOrder with
             | OrderSide.BUY => BUY
             | OrderSide.SELL => SELL
             end;
     size := size;
     price := price;
     tokenId := Some (o_tokenId targetOrder);
     outcome := None;
     txHash := tx_hash tx;
     timestamp := now;
     isSmartMoney := JsSet.has targetTrader (smartMoneySet s);
     detectedAt := Some now;
     detectionSource := Some Mempool |}.

(** Lines 1048-1122: the dedup on [tx.hash], then the trade and the
    handlers.
<<
    if (tx.hash && this.seenTxHashes.has(tx.hash)) return;
    if (tx.hash) { this.seenTxHashes.add(tx.hash); /* prune */ }
>> *)
Definition dedupAndDispatch (tx : PendingTx) (decoded : DecodedMatchOrders)
    (targetTrader : string) (now : Z) (s : Service) : Service :=
  let hash := match tx_hash tx with Some h => h | None => EmptyString end in
  if JsString.truthy (tx_hash tx) && JsSet.has hash (seenTxHashes s) then s
  else
    let s1 :=
      if JsString.truthy (tx_hash tx)
      then with_seenTxHashes (DedupWindow.mark hash (seenTxHashes s)) s
      else s in
    let targetOrder := findTargetOrder decoded targetTrader in
    notifyHandlers (mempoolTrade s1 now tx targetTrader targetOrder) s1.

(** Lines 1023-1046: the envelope, the two cheap filters, the decode
    and the match against the tracked addresses.  [data] is [None]
    when [JSON.parse] throws.  The result is the transaction, its
    decoded settlement and the tracked trader found in it. *)
Definition matchTrackedSettlement (s : Service) (data : option RpcMessage)
    : option (PendingTx * DecodedMatchOrders * string) :=
  match data with
  | None => None
  | Some msg =>
      if match msg_id msg with
         | Some 1%Z => JsString.truthy (msg_result msg)
         | _ => false
         end
      then None
      else
        match msg_params_result msg with
        | None => None
        | Some tx =>
            match tx_to tx with
            | None => None
            | Some to =>
                if negb (JsString.truthy (tx_to tx))
                   || negb (JsSet.has (JsString.toLowerCase to) ROUTER_ADDRESSES)
                then None
                else
                  match tx_input tx with
                  | None => None
                  | Some input =>
                      if negb (JsString.truthy (tx_input tx))
                         || negb (String.prefix MATCH_ORDERS_SELECTOR input)
                      then None
                      else
                        match decodeMatchOrdersCalldata input with
                        | None => None
                        | Some decoded =>
                            let traders := extractTraderAddresses decoded in
                            match find (fun addr =>
                                          JsSet.has addr (mempoolTargetAddresses s))
                                       traders with
                            | None => None
                            | Some targetTrader =>
                                if negb (JsString.truthy (Some targetTrader)) then None
                                else Some (tx, decoded, targetTrader)
                            end
                        end
                  end
            end
        end
  end.

(** [handleMempoolMessage(data)], line 1019; [now] is [Date.now()].
    Every [return] of lines 1023-1046 leaves the state as it is. *)
Definition handleMempoolMessage (data : option RpcMessage) (now : Z) (s : Service)
    : Service :=
  match matchTrackedSettlement s data with
  | None => s
  | Some (tx, decoded, targetTrader) => dedupAndDispatch tx decoded targetTrader now s
  end.

(** *** The two detectors feeding the same window and handlers *)

Inductive Delivery : Type :=
| FromPolling (nowMs : Z) (activity : Activity)
| FromMempool (now : Z) (data : option RpcMessage).

Definition deliver (s : Service) (d : Delivery) : Service :=
  match d with
  | FromPolling nowMs activity => PollingDetector.processActivity nowMs s activity
  | FromMempool now data => handleMempoolMessage data now s
  end.

Definition deliverAll (ds : list Delivery) (s : Service) : Service :=
  fold_left deliver ds s.


End MempoolDetector.

(** ** Subscriptions *)

Module Subscription.

(** [stopPolling()], line 950 *)
Definition stopPolling (s : Service) : Service :=
  match pollIntervalId s with
  | Some timer =>
      {| pollIntervalId := None;
         lastCheckTimestamp := lastCheckTimestamp s;
         seenTxHashes := seenTxHashes s;
         tradeHandlers := tradeHandlers s;
         targetWallets := targetWallets s;
         mempoolWs := mempoolWs s;
         mempoolTargetAddresses := mempoolTargetAddresses s;
         smartMoneySet := smartMoneySet s;
         invoked := invoked s;
         released := released s ++ [ClearInterval timer] |}
  | None => s
  end.

(** [stopMempoolMonitor()], line 1131 *)
Definition stopMempoolMonitor (s : Service) : Service :=
  match mempoolWs s with
  | Some socket =>
      {| pollIntervalId := pollIntervalId s;
         lastCheckTimestamp := lastCheckTimestamp s;
         seenTxHashes := seenTxHashes s;
         tradeHandlers := tradeHandlers s;
         targetWallets := targetWallets s;
         mempoolWs := None;
         mempoolTargetAddresses := mempoolTargetAddresses s;
         smartMoneySet := smartMoneySet s;
         invoked := invoked s;
         released := released s ++ [CloseSocket socket] |}
  | None => s
  end.

(** [this.tradeHandlers.delete(filteredHandler)] *)
Definition deleteHandler (h : HandlerId) (s : Service) : Service :=
  {| pollIntervalId := pollIntervalId s;
     lastCheckTimestamp := lastCheckTimestamp s;
     seenTxHashes := seenTxHashes s;
     tradeHandlers := filter (fun h' => negb (Nat.eqb h' h)) (tradeHandlers s);
     targetWallets := targetWallets s;
     mempoolWs := mempoolWs s;
     mempoolTargetAddresses := mempoolTargetAddresses s;
     smartMoneySet := smartMoneySet s;
     invoked := invoked s;
     released := released s |}.

(** The three assignments of lines 1289-1291. *)
Definition clearTracking (s : Service) : Service :=
  {| pollIntervalId := pollIntervalId s;
     lastCheckTimestamp := lastCheckTimestamp s;
     seenTxHashes := JsSet.empty;
     tradeHandlers := tradeHandlers s;
     targetWallets := [];
     mempoolWs := mempoolWs s;
     mempoolTargetAddresses := JsSet.empty;
     smartMoneySet := smartMoneySet s;
     invoked := invoked s;
     released := released s |}.

(** The [unsubscribe] closure returned by [subscribeSmartMoneyTrades],
    lines 1282-1293, for the subscriber whose handler is [h]. *)
Definition unsubscribe (h : HandlerId) (s : Service) : Service :=
  let s1 := deleteHandler h s in
  if Nat.eqb (length (tradeHandlers s1)) 0 then
    clearTracking (stopMempoolMonitor (stopPolling s1))
  else s1.

End Subscription.

(** ** The per-event handler of an auto-copy session *)

Module CopyTrading.

Import SplitPlanner.
Local Open Scope Q_scope.

Inductive OrderType : Type := OT_FOK | OT_FAK | OT_GTC | OT_GTD.
Inductive OrderMode : Type := MarketMode | LimitMode.
Inductive AssetClass : Type := COLLATERAL | CONDITIONAL.

Record OrderResult : Type := {
  success : bool;
  orderId : option string;
  errorMsg : option Exn
}.

Record MarketOrderParams : Type := {
  mo_tokenId : string;
  mo_side : Side;
  mo_amount : Q;
  mo_price : Q;
  mo_orderType : MarketOrderType
}.

(** The handle of the external order manager: its id, and whether
    registering the fill and reject callbacks on it throws. *)
Record OrderHandle : Type := {
  h_orderId : string;
  h_register : Res unit
}.

(** [AutoCopyTradingStats] *)
Record Stats : Type := {
  tradesDetected : nat;
  tradesExecuted : nat;
  tradesSkipped : nat;
  tradesFailed : nat;
  totalUsdcSpent : Q;
  filteredByPrice : nat
}.

(** [AutoCopyTradingOptions]: the fields the handler reads.  An absent
    field is [None]; callbacks return a [Res]. *)
Record Options : Type := {
  opt_sizeScale : option Q;
  opt_maxSizePerTrade : option Q;
  opt_maxSlippage : option Q;
  opt_orderType : option OrderType;
  opt_minTradeSize : option Q;
  opt_sideFilter : option Side;
  opt_delay : option Q;
  opt_dryRun : option bool;
  opt_orderMode : option OrderMode;
  opt_limitPriceOffset : option Q;
  opt_splitCount : option nat;
  opt_splitSpread : option Q;
  opt_retryCount : option nat;
  opt_retryDelay : option Q;
  opt_priceRange : option (Q * Q);
  opt_sellFullPosition : bool;
  opt_tradeFilter : option (SmartMoneyTrade -> Res bool);
  opt_preOrderCheck : option (SmartMoneyTrade -> Res bool);
  opt_orderManager : option (LimitOrder -> Res OrderHandle);
  opt_onOrderPlaced : option (OrderHandle -> Res unit);
  opt_onTrade : option (SmartMoneyTrade -> OrderResult -> Res unit);
  opt_onError : option (Exn -> Res unit)
}.

(** The exchange client.  [getBalanceAllowance] gives
    [parseFloat(balance)]; the placement calls take the number of the
    attempt, so that a retry may meet another answer. *)
Record TradingService : Type := {
  getBalanceAllowance : AssetClass -> option string -> Res Q;
  createMarketOrder : nat -> MarketOrderParams -> Res OrderResult;
  createLimitOrder : nat -> LimitOrder -> Res OrderResult;
  createBatchOrders : nat -> list LimitOrder -> Res OrderResult
}.

(** What the handler does to the outside, in order. *)
Inductive Effect : Type :=
| Sleep (ms : Q)
| BalanceQuery (assetClass : AssetClass) (token : option string)
| PreOrderCheck
| PlaceMarketOrder (attempt : nat) (params : MarketOrderParams)
| PlaceLimitOrder (attempt : nat) (params : LimitOrder)
| PlaceBatchOrders (attempt : nat) (orders : list LimitOrder)
| ManagerPlaceOrder (params : LimitOrder)
| NotifyOrderPlaced (handleId : string)
| NotifyTrade (result : OrderResult)
| NotifyError (error : Exn).

Definition isOrder (e : Effect) : bool :=
  match e with
  | PlaceMarketOrder _ _ | PlaceLimitOrder _ _ | PlaceBatchOrders _ _
  | ManagerPlaceOrder _ => true
  | _ => false
  end.

(** *** The monad: mutable [stats], the effects, [throw] and [return] *)

Record Run : Type := { stats : Stats; effects : list Effect }.

Inductive Flow (A : Type) : Type :=
| Next (a : A)        (* falls through to the next statement *)
| Returned            (* a [return;] of the handler *)
| Raised (e : Exn).   (* a throw not caught yet *)
Arguments Next {A} a.
Arguments Returned {A}.
Arguments Raised {A} e.

Definition M (A : Type) : Type := Run -> Run * Flow A.

Definition ret {A} (a : A) : M A := fun r => (r, Next a).

Definition bind {A B} (m : M A) (k : A -> M B) : M B :=
  fun r =>
    match m r with
    | (r', Next a) => k a r'
    | (r', Returned) => (r', Returned)
    | (r', Raised e) => (r', Raised e)
    end.

Definition returnNow {A} : M A := fun r => (r, Returned).

Definition raise {A} (e : Exn) : M A := fun r => (r, Raised e).

(** [try { m } catch (e) { h e }]; a [return] inside [m] leaves the
    handler. *)
Definition tryCatch {A} (m : M A) (h : Exn -> M A) : M A :=
  fun r =>
    match m r with
    | (r', Raised e) => h e r'
    | other => other
    end.

Definition call {A} (x : Res A) : M A :=
  match x with
  | Ok a => ret a
  | Throw e => raise e
  end.

Definition emit (e : Effect) : M unit :=
  fun r => ({| stats := stats r; effects := effects r ++ [e] |}, Next tt).

Definition update (f : Stats -> Stats) : M unit :=
  fun r => ({| stats := f (stats r); effects := effects r |}, Next tt).

Notation "x <- m ;; k" := (bind m (fun x => k))
  (at level 61, m at next level, right associativity).
Notation "m ;;; k" := (bind m (fun _ => k))
  (at level 61, right associativity).

Definition detected (s : Stats) : Stats :=
  {| tradesDetected := S (tradesDetected s);
     tradesExecuted := tradesExecuted s;
     tradesSkipped := tradesSkipped s;
     tradesFailed := tradesFailed s;
     totalUsdcSpent := totalUsdcSpent s;
     filteredByPrice := filteredByPrice s |}.

Definition skipped (s : Stats) : Stats :=
  {| tradesDetected := tradesDetected s;
     tradesExecuted := tradesExecuted s;
     tradesSkipped := S (tradesSkipped s);
     tradesFailed := tradesFailed s;
     totalUsdcSpent := totalUsdcSpent s;
     filteredByPrice := filteredByPrice s |}.

Definition failed (s : Stats) : Stats :=
  {| tradesDetected := tradesDetected s;
     tradesExecuted := tradesExecuted s;
     tradesSkipped := tradesSkipped s;
     tradesFailed := S (tradesFailed s);
     totalUsdcSpent := totalUsdcSpent s;
     filteredByPrice := filteredByPrice s |}.

Definition priceFiltered (s : Stats) : Stats :=
  {| tradesDetected := tradesDetected s;
     tradesExecuted := tradesExecuted s;
     tradesSkipped := tradesSkipped s;
     tradesFailed := tradesFailed s;
     totalUsdcSpent := totalUsdcSpent s;
     filteredByPrice := S (filteredByPrice s) |}.

Definition executed (usdcAmount : Q) (s : Stats) : Stats :=
  {| tradesDetected := tradesDetected s;
     tradesExecuted := S (tradesExecuted s);
     tradesSkipped := tradesSkipped s;
     tradesFailed := tradesFailed s;
     totalUsdcSpent := totalUsdcSpent s + usdcAmount;
     filteredByPrice := filteredByPrice s |}.

(** [stats.tradesSkipped++; return;] *)
Definition skip {A} : M A := update skipped ;;; returnNow.

(** *** Sizing, lines 1418-1427 *)

Definition MIN_SHARES : Q := 5.
Definition MIN_ORDER_SIZE : Q := 1.

(** The pair [(copySize, copyValue)] after the cap. *)
Definition copySizing (tradeSize tradePrice sizeScale maxSizePerTrade : Q) : Q * Q :=
  let copySize := JsMath.max MIN_SHARES (tradeSize * sizeScale) in
  let copyValue := copySize * tradePrice in
  if JsMath.gtb copyValue maxSizePerTrade
  then (maxSizePerTrade / tradePrice, maxSizePerTrade)
  else (copySize, copyValue).

(** *** The handler, lines 1381-1618 *)

Section Handler.

Variable options : Options.
Variable tradingService : TradingService.
(** The lowercased target list built when the session starts. *)
Variable targetAddresses : list string.

Definition orDefault {A} (o : option A) (d : A) : A :=
  match o with Some a => a | None => d end.

(** Lines 1357-1377 *)
Definition sizeScale : Q := orDefault (opt_sizeScale options) (1 # 10).
Definition maxSizePerTrade : Q := orDefault (opt_maxSizePerTrade options) 50.
Definition maxSlippage : Q := orDefault (opt_maxSlippage options) (3 # 100).
Definition orderType : OrderType := orDefault (opt_orderType options) OT_FOK.
Definition minTradeSize : Q := orDefault (opt_minTradeSize options) 10.
Definition sideFilter : option Side := opt_sideFilter options.
Definition delay : Q := orDefault (opt_delay options) 0.
Definition dryRun : bool := orDefault (opt_dryRun options) false.
Definition limitOrderType : LimitOrderType :=
  match orderType with OT_GTD => GTD | _ => GTC end.
Definition marketOrderType : MarketOrderType :=
  match orderType with OT_FAK => FAK | _ => FOK end.
Definition orderMode : OrderMode :=
  orDefault (opt_orderMode options)
    (match orderType with OT_GTC | OT_GTD => LimitMode | _ => MarketMode end).
Definition limitPriceOffset : Q := orDefault (opt_limitPriceOffset options) (1 # 100).
Definition splitCount : nat := orDefault (opt_splitCount options) 1%nat.
Definition splitSpread : Q := orDefault (opt_splitSpread options) (1 # 1000).
Definition retryCount : nat := orDefault (opt_retryCount options) 3%nat.
Definition retryDelay : Q := orDefault (opt_retryDelay options) 1000.

(** Lines 1386-1416: the target check and the filters. *)
Definition filters (trade : SmartMoneyTrade) : M unit :=
  (if negb (JsString.includes (JsString.toLowerCase (traderAddress trade))
                              targetAddresses)
   then returnNow else ret tt) ;;;
  let tradeValue := size trade * price trade in
  (if JsMath.ltb tradeValue minTradeSize then skip else ret tt) ;;;
  (match sideFilter with
   | Some wanted => if negb (Side_eqb (side trade) wanted) then skip else ret tt
   | None => ret tt
   end) ;;;
  (match opt_priceRange options with
   | Some (min, max) =>
       if JsMath.ltb (price trade) min || JsMath.gtb (price trade) max
       then update skipped ;;; update priceFiltered ;;; returnNow
       else ret tt
   | None => ret tt
   end) ;;;
  (match opt_tradeFilter options with
   | Some tradeFilter =>
       keep <- call (tradeFilter trade) ;;
       if negb keep then skip else ret tt
   | None => ret tt
   end).

(** Lines 1449-1465: the full-position override of a SELL copy. *)
Definition fullPositionOverride (trade : SmartMoneyTrade) (token : string)
    (sizing : Q * Q) : M (Q * Q) :=
  if negb dryRun && Side_eqb (side trade) SELL && opt_sellFullPosition options then
    tryCatch
      (emit (BalanceQuery CONDITIONAL (Some token)) ;;;
       tokenBalance <- call (getBalanceAllowance tradingService CONDITIONAL (Some token)) ;;
       let availableShares := tokenBalance / 1000000 in
       if JsMath.ltb availableShares MIN_SHARES then skip
       else ret (availableShares, availableShares * price trade))
      (fun _ => ret sizing)
  else ret sizing.

(** Lines 1475-1487: the collateral check of a BUY copy. *)
Definition balancePreCheck (trade : SmartMoneyTrade) (usdcAmount : Q) : M unit :=
  if negb dryRun && Side_eqb (side trade) BUY then
    tryCatch
      (emit (BalanceQuery COLLATERAL None) ;;;
       balance <- call (getBalanceAllowance tradingService COLLATERAL None) ;;
       let availableUsdc := balance / 1000000 in
       if JsMath.ltb availableUsdc usdcAmount then skip else ret tt)
      (fun _ => ret tt)
  else ret tt.

(** Lines 1490-1501 *)
Definition preOrderCheck (trade : SmartMoneyTrade) : M unit :=
  match opt_preOrderCheck options with
  | Some check =>
      tryCatch
        (emit PreOrderCheck ;;;
         shouldProceed <- call (check trade) ;;
         if negb shouldProceed then skip else ret tt)
        (fun _ => ret tt)
  | None => ret tt
  end.

(** One iteration of the loop of lines 1517-1593, before the retry
    test: the result, and whether the iteration ended in [break]. *)
Definition placeOnce (trade : SmartMoneyTrade) (token : string)
    (copySize usdcAmount : Q) (attempt : nat) : M (OrderResult * bool) :=
  match orderMode with
  | LimitMode =>
      let limitPrice :=
        Pricing.calculateLimitPrice (side trade) (price trade) limitPriceOffset in
      let single :=
        {| lo_tokenId := token; lo_side := side trade; lo_price := limitPrice;
           lo_size := copySize; lo_orderType := limitOrderType |} in
      match opt_orderManager options, Nat.eqb splitCount 1 with
      | Some placeOrder, true =>
          emit (ManagerPlaceOrder single) ;;;
          handle <- call (placeOrder single) ;;
          (match opt_onOrderPlaced options with
           | Some onOrderPlaced =>
               emit (NotifyOrderPlaced (h_orderId handle)) ;;;
               call (onOrderPlaced handle)
           | None => ret tt
           end) ;;;
          call (h_register handle) ;;;
          ret ({| success := true; orderId := Some (h_orderId handle);
                  errorMsg := None |}, true)
      | _, _ =>
          if (1 <? splitCount)%nat then
            result <-
              tryCatch
                (orders <- call (createSplitOrders
                                   {| sp_tokenId := token;
                                      sp_side := side trade;
                                      sp_basePrice := price trade;
                                      sp_totalSize := copySize;
                                      sp_splitCount := splitCount;
                                      sp_splitSpread := splitSpread;
                                      sp_limitPriceOffset := limitPriceOffset;
                                      sp_orderType := Some limitOrderType |}) ;;
                 emit (PlaceBatchOrders attempt orders) ;;;
                 call (createBatchOrders tradingService attempt orders))
                (fun error =>
                   ret {| success := false; orderId := None;
                          errorMsg := Some error |}) ;;
            ret (result, false)
          else
            emit (PlaceLimitOrder attempt single) ;;;
            result <- call (createLimitOrder tradingService attempt single) ;;
            ret (result, false)
      end
  | MarketMode =>
      let params :=
        {| mo_tokenId := token; mo_side := side trade; mo_amount := usdcAmount;
           mo_price := Pricing.slippagePrice (side trade) (price trade) maxSlippage;
           mo_orderType := marketOrderType |} in
      emit (PlaceMarketOrder attempt params) ;;;
      result <- call (createMarketOrder tradingService attempt params) ;;
      ret (result, false)
  end.

(** The loop [for (attempt = 0; attempt <= retryCount; attempt++)]
    from [attempt] on, with [remaining = retryCount - attempt]. *)
Fixpoint attempts (place : nat -> M (OrderResult * bool))
    (remaining attempt : nat) : M OrderResult :=
  outcome <- place attempt ;;
  let '(result, broke) := outcome in
  if broke then ret result
  else if success result || Nat.eqb remaining 0 then ret result
  else
    emit (Sleep retryDelay) ;;;
    match remaining with
    | O => ret result
    | S remaining' => attempts place remaining' (S attempt)
    end.

(** Lines 1504-1601 *)
Definition execute (trade : SmartMoneyTrade) (token : string)
    (copySize usdcAmount : Q) : M OrderResult :=
  if dryRun then
    ret {| success := true; orderId := Some "dry_run"%string; errorMsg := None |}
  else
    attempts (placeOnce trade token copySize usdcAmount) retryCount 0.

(** Lines 1604-1611 *)
Definition updateStats (result : OrderResult) (usdcAmount : Q) : M unit :=
  let viaManager :=
    match opt_orderManager options, orderMode with
    | Some _, LimitMode => Nat.eqb splitCount 1
    | _, _ => false
    end in
  if negb viaManager then
    if success result then update (executed usdcAmount) else update failed
  else ret tt.

(** The [try] block, lines 1385-1613 *)
Definition pipeline (trade : SmartMoneyTrade) : M unit :=
  filters trade ;;;
  let '(copySize0, copyValue0) :=
    copySizing (size trade) (price trade) sizeScale maxSizePerTrade in
  (if JsMath.ltb copyValue0 MIN_ORDER_SIZE then skip else ret tt) ;;;
  (if JsMath.gtb delay 0 then emit (Sleep delay) else ret tt) ;;;
  match tokenId trade with
  | Some token =>
      if negb (JsString.truthy (tokenId trade)) then skip
      else
        sizing <- fullPositionOverride trade token (copySize0, copyValue0) ;;
        let '(copySize, copyValue) := sizing in
        let usdcAmount := copyValue in
        balancePreCheck trade usdcAmount ;;;
        preOrderCheck trade ;;;
        result <- execute trade token copySize usdcAmount ;;
        updateStats result usdcAmount ;;;
        match opt_onTrade options with
        | Some onTrade => emit (NotifyTrade result) ;;; call (onTrade trade result)
        | None => ret tt
        end
  | None => skip
  end.

(** The [catch] block, lines 1614-1617 *)
Definition onFailure (error : Exn) : M unit :=
  update failed ;;;
  match opt_onError options with
  | Some onError => emit (NotifyError error) ;;; call (onError error)
  | None => ret tt
  end.

(** The handler passed to [subscribeSmartMoneyTrades] *)
Definition handler (trade : SmartMoneyTrade) : M unit :=
  update detected ;;;
  tryCatch (pipeline trade) onFailure.

(** The promise the (async) handler returns. *)
Inductive Settled : Type :=
| Fulfilled
| Rejected (reason : Exn).

Definition runHandler (trade : SmartMoneyTrade) (r : Run) : Run * Settled :=
  match handler trade r with
  | (r', Raised e) => (r', Rejected e)
  | (r', _) => (r', Fulfilled)
  end.

End Handler.

End CopyTrading.

(** ** Sample data used to instantiate the theorems *)

Module Samples.

(** A decidable test for duplicate-free lists of strings. *)
Fixpoint nodupb (l : list string) : bool :=
  match l with
  | [] => true
  | x :: r => negb (JsSet.has x r) && nodupb r
  end.

(** Pairwise distinct two-character strings, for [n < 65536]. *)
Definition sampleHash (n : nat) : string :=
  String (ascii_of_nat (n / 256)) (String (ascii_of_nat (n mod 256)) EmptyString).

Definition sampleHashes (n : nat) : list string := map sampleHash (seq 0 n).

Local Open Scope string_scope.

Definition routers : JsSet.t := ["0xrouter"].
Definition selector : string := "0x2287e350".

Definition order (side : OrderSide.t) : DecodedOrder :=
  {| o_maker := "0xaaa"; o_signer := "0xaaa"; o_tokenId := "123";
     o_side := side; o_makerAmount := 50000000; o_takerAmount := 100000000 |}.

Definition decoded : DecodedMatchOrders :=
  {| takerOrder := order OrderSide.BUY; makerOrders := [] |}.

Definition decoder (input : string) : option DecodedMatchOrders := Some decoded.

Definition traders (d : DecodedMatchOrders) : list string :=
  o_maker (takerOrder d) :: map o_maker (makerOrders d).

Definition service : Service :=
  {| pollIntervalId := Some 1;
     lastCheckTimestamp := 1000;
     seenTxHashes := [];
     tradeHandlers := [0; 1];
     targetWallets := ["0xaaa"];
     mempoolWs := Some 2;
     mempoolTargetAddresses := ["0xaaa"];
     smartMoneySet := [];
     invoked := [];
     released := [] |}.

Definition pendingTx (hash : option string) : PendingTx :=
  {| tx_to := Some "0xROUTER"; tx_input := Some "0x2287e350ff"; tx_hash := hash |}.

Definition message (hash : option string) : RpcMessage :=
  {| msg_id := None; msg_result := None; msg_params_result := Some (pendingTx hash) |}.

Definition activity (hash : string) (time : Z) : Activity :=
  {| a_proxyWallet := Some "0xAAA"; a_name := None; a_conditionId := None;
     a_slug := None; a_side := BUY; a_size := 100%Q; a_price := (1 # 2)%Q;
     a_asset := Some "123"; a_outcome := None;
     a_transactionHash := hash; a_timestamp := time |}.

Definition options (minTradeSize : option Q) : CopyTrading.Options :=
  {| CopyTrading.opt_sizeScale := None;
     CopyTrading.opt_maxSizePerTrade := None;
     CopyTrading.opt_maxSlippage := None;
     CopyTrading.opt_orderType := None;
     CopyTrading.opt_minTradeSize := minTradeSize;
     CopyTrading.opt_sideFilter := None;
     CopyTrading.opt_delay := None;
     CopyTrading.opt_dryRun := None;
     CopyTrading.opt_orderMode := None;
     CopyTrading.opt_limitPriceOffset := None;
     CopyTrading.opt_splitCount := None;
     CopyTrading.opt_splitSpread := None;
     CopyTrading.opt_retryCount := None;
     CopyTrading.opt_retryDelay := None;
     CopyTrading.opt_priceRange := None;
     CopyTrading.opt_sellFullPosition := false;
     CopyTrading.opt_tradeFilter := None;
     CopyTrading.opt_preOrderCheck := None;
     CopyTrading.opt_orderManager := None;
     CopyTrading.opt_onOrderPlaced := None;
     CopyTrading.opt_onTrade := None;
     CopyTrading.opt_onError := Some (fun _ => Ok tt) |}.

Definition filled : CopyTrading.OrderResult :=
  {| CopyTrading.success := true; CopyTrading.orderId := Some "order-1";
     CopyTrading.errorMsg := None |}.

(** An exchange client: the answer of the balance query and of the
    market order; limit and batch orders are filled. *)
Definition exchange (balance : Res Q) (market : Res CopyTrading.OrderResult)
    : CopyTrading.TradingService :=
  {| CopyTrading.getBalanceAllowance := fun _ _ => balance;
     CopyTrading.createMarketOrder := fun _ _ => market;
     CopyTrading.createLimitOrder := fun _ _ => Ok filled;
     CopyTrading.createBatchOrders := fun _ _ => Ok filled |}.

Definition trade (side : Side) (size price : Q) : SmartMoneyTrade :=
  {| traderAddress := "0xaaa"; traderName := None; conditionId := None;
     marketSlug := None; side := side; size := size; price := price;
     tokenId := Some "123"; outcome := None; txHash := Some "0xhash";
     timestamp := 7%Z; isSmartMoney := false; detectedAt := Some 8%Z;
     detectionSource := Some Polling |}.




Definition freshStats : CopyTrading.Stats :=
  {| CopyTrading.tradesDetected := 0; CopyTrading.tradesExecuted := 0;
     CopyTrading.tradesSkipped := 0; CopyTrading.tradesFailed := 0;
     CopyTrading.totalUsdcSpent := 0%Q; CopyTrading.filteredByPrice := 0 |}.

Definition freshRun : CopyTrading.Run :=
  {| CopyTrading.stats := freshStats; CopyTrading.effects := [] |}.

End Samples.

(** ** Starting and stopping the detectors, subscribing *)

Module Session.

Inductive DetectionMode : Type := ModePolling | ModeMempool | ModeDual.

(** The options of [subscribeSmartMoneyTrades], line 1225. *)
Record SubscribeOptions : Type := {
  so_filterAddresses : option (list string);
  so_minSize : option Q;
  so_smartMoneyOnly : option bool;
  so_detectionMode : option DetectionMode
}.

(** The service with the two fields the detectors are started from:
    [pollInterval] (line 788) and [config.mempoolWssUrl] (line 809). *)
Record Manager : Type := {
  service : Service;
  pollInterval : Z;
  mempoolWssUrl : string
}.

Definition onService (f : Service -> Service) (m : Manager) : Manager :=
  {| service := f (service m);
     pollInterval := pollInterval m;
     mempoolWssUrl := mempoolWssUrl m |}.

(** Lines 902-908: the interval for a number of wallets. *)
Definition pollIntervalFor (wallets : nat) : Z :=
  if wallets <=? 10 then 5000%Z
  else if wallets <=? 30 then 7000%Z
  else 10000%Z.

(** [startPolling()], line 896; [timer] is what [setInterval] returns. *)
Definition startPolling (timer : nat) (m : Manager) : Manager :=
  match pollIntervalId (service m) with
  | Some _ => m
  | None =>
      {| service :=
           {| pollIntervalId := Some timer;
              lastCheckTimestamp := lastCheckTimestamp (service m);
              seenTxHashes := seenTxHashes (service m);
              tradeHandlers := tradeHandlers (service m);
              targetWallets := targetWallets (service m);
              mempoolWs := mempoolWs (service m);
              mempoolTargetAddresses := mempoolTargetAddresses (service m);
              smartMoneySet := smartMoneySet (service m);
              invoked := invoked (service m);
              released := released (service m) |};
         pollInterval := pollIntervalFor (length (targetWallets (service m)));
         mempoolWssUrl := mempoolWssUrl m |}
  end.

(** Lines 977-979: the tracked wallets, lowercased, join the set. *)
Definition syncTargets (wallets : list string) (targets : JsSet.t) : JsSet.t :=
  fold_left (fun acc addr => JsSet.add (JsString.toLowerCase addr) acc) wallets targets.

(** [startMempoolMonitor()], line 965; [socket] is the new WebSocket. *)
Definition startMempoolMonitor (socket : nat) (m : Manager) : Manager :=
  match mempoolWs (service m) with
  | Some _ => m
  | None =>
      if String.eqb (mempoolWssUrl m) EmptyString then m
      else
        onService
          (fun s =>
             {| pollIntervalId := pollIntervalId s;
                lastCheckTimestamp := lastCheckTimestamp s;
                seenTxHashes := seenTxHashes s;
                tradeHandlers := tradeHandlers s;
                targetWallets := targetWallets s;
                mempoolWs := Some socket;
                mempoolTargetAddresses :=
                  syncTargets (targetWallets s) (mempoolTargetAddresses s);
                smartMoneySet := smartMoneySet s;
                invoked := invoked s;
                released := released s |}) m
  end.

(** [[...new Set(arr)]]: the first occurrences, in order. *)
Definition unique (arr : list string) : list string :=
  fold_left (fun acc a => JsSet.add a acc) arr JsSet.empty.

(** Line 1263 *)
Definition mergeTargets (current filterAddresses : list string) : list string :=
  unique (current ++ map JsString.toLowerCase filterAddresses).

(** [this.tradeHandlers.add(filteredHandler)] *)
Definition addHandler (h : HandlerId) (s : Service) : Service :=
  {| pollIntervalId := pollIntervalId s;
     lastCheckTimestamp := lastCheckTimestamp s;
     seenTxHashes := seenTxHashes s;
     tradeHandlers :=
       if existsb (Nat.eqb h) (tradeHandlers s) then tradeHandlers s
       else tradeHandlers s ++ [h];
     targetWallets := targetWallets s;
     mempoolWs := mempoolWs s;
     mempoolTargetAddresses := mempoolTargetAddresses s;
     smartMoneySet := smartMoneySet s;
     invoked := invoked s;
     released := released s |}.

Definition setTargetWallets (wallets : list string) (s : Service) : Service :=
  {| pollIntervalId := pollIntervalId s;
     lastCheckTimestamp := lastCheckTimestamp s;
     seenTxHashes := seenTxHashes s;
     tradeHandlers := tradeHandlers s;
     targetWallets := wallets;
     mempoolWs := mempoolWs s;
     mempoolTargetAddresses := mempoolTargetAddresses s;
     smartMoneySet := smartMoneySet s;
     invoked := invoked s;
     released := released s |}.

(** [subscribeSmartMoneyTrades(onTrade, options)], line 1223, for the
    handler [h]; [timer] and [socket] are the timer and the socket a
    detector would be started with.  The call that fills the smart
    money cache runs later, on its own. *)
Definition subscribe (h : HandlerId) (timer socket : nat) (o : SubscribeOptions)
    (m : Manager) : Manager :=
  let m1 := onService (addHandler h) m in
  let m2 :=
    match so_filterAddresses o with
    | Some (first :: rest) =>
        onService
          (fun s => setTargetWallets (mergeTargets (targetWallets s) (first :: rest)) s)
          m1
    | _ => m1
    end in
  match so_detectionMode o with
  | Some ModeDual => startPolling timer (startMempoolMonitor socket m2)
  | Some ModeMempool => startMempoolMonitor socket m2
  | _ => startPolling timer m2
  end.

(** The [unsubscribe] of the subscriber whose handler is [h]. *)
Definition unsubscribe (h : HandlerId) (m : Manager) : Manager :=
  onService (Subscription.unsubscribe h) m.




Section Events.

(** The imports from utils/calldata-decoder.ts. *)
Variable ROUTER_ADDRESSES : JsSet.t.
Variable MATCH_ORDERS_SELECTOR : string.
Variable decodeMatchOrdersCalldata : string -> option DecodedMatchOrders.
Variable extractTraderAddresses : DecodedMatchOrders -> list string.



End Events.

(** Nothing runs and nothing is tracked. *)
Definition idle (s : Service) : Prop :=
  tradeHandlers s = [] /\ pollIntervalId s = None /\ mempoolWs s = None /\
  targetWallets s = [] /\ mempoolTargetAddresses s = JsSet.empty /\
  seenTxHashes s = JsSet.empty.

(** A service as its constructor leaves it, lines 777-811. *)
Definition newManager (now : Z) (url : string) : Manager :=
  {| service :=
       {| pollIntervalId := None;
          lastCheckTimestamp := now;
          seenTxHashes := JsSet.empty;
          tradeHandlers := [];
          targetWallets := [];
          mempoolWs := None;
          mempoolTargetAddresses := JsSet.empty;
          smartMoneySet := JsSet.empty;
          invoked := [];
          released := [] |};
     pollInterval := 5000%Z;
     mempoolWssUrl := url |}.

(** The filters of [filteredHandler], lines 1233-1253: whether
    [onTrade] is called. *)
Definition passesFilter (o : SubscribeOptions) (trade : SmartMoneyTrade) : bool :=
  (match so_filterAddresses o with
   | Some (first :: rest) =>
       JsString.includes (JsString.toLowerCase (traderAddress trade))
         (map JsString.toLowerCase (first :: rest))
   | _ => true
   end)
  && negb (match so_minSize o with
           | Some minSize => negb (Qeq_bool minSize 0) && JsMath.ltb (size trade) minSize
           | None => false
           end)
  && negb (match so_smartMoneyOnly o with
           | Some true => negb (isSmartMoney trade)
           | _ => false
           end).

End Session.

(** The trades of one polling tick as the handlers see them: each trade
    goes to every handler, in registration order. *)
Definition batch (handlers : list HandlerId) (trades : list SmartMoneyTrade)
    : list (HandlerId * SmartMoneyTrade) :=
  flat_map (fun t => map (fun h => (h, t)) handlers) trades.

(** [t] is not older than [u]. *)
Definition newerTrade (t u : SmartMoneyTrade) : Prop := (timestamp u <= timestamp t)%Z.

(** ** The handler seen from outside: counters and effects *)

Module HandlerLogic.

Import CopyTrading.

(** What a piece of the handler does to the counters, by the way it
    ends: falling through, [return], or a throw. *)
Definition outcome {A} (N Rt E : Stats -> Stats -> Prop) (m : M A) : Prop :=
  forall r,
    match m r with
    | (r', Next _) => N (stats r) (stats r')
    | (r', Returned) => Rt (stats r) (stats r')
    | (r', Raised _) => E (stats r) (stats r')
    end.

Definition Same (s s' : Stats) : Prop := s' = s.

(** The counters after a [return]: untouched, or one skip, which the
    price filter also counts. *)
Definition Left (s s' : Stats) : Prop :=
  s' = s \/ s' = skipped s \/ s' = priceFiltered (skipped s).

(** The counters after the order step, lines 1604-1611. *)
Definition Settle (s s' : Stats) : Prop :=
  s' = s \/ (exists usdcAmount, s' = executed usdcAmount s) \/ s' = failed s.

(** The effects a piece of the handler adds, counted by kind. *)
Definition count (p : Effect -> bool) (l : list Effect) : nat :=
  length (filter p l).

Definition emitsAtMost {A} (p : Effect -> bool) (n : nat) (m : M A) : Prop :=
  forall r, exists added,
    effects (fst (m r)) = effects r ++ added /\ count p added <= n.

Definition isSleep (e : Effect) : bool :=
  match e with Sleep _ => true | _ => false end.

Definition isBalanceQuery (e : Effect) : bool :=
  match e with BalanceQuery _ _ => true | _ => false end.

Definition isNotifyTrade (e : Effect) : bool :=
  match e with NotifyTrade _ => true | _ => false end.

Definition isNotifyError (e : Effect) : bool :=
  match e with NotifyError _ => true | _ => false end.

(** The argument of [createMarketOrder], lines 1586-1592. *)
Definition marketParams (options : Options) (trade : SmartMoneyTrade)
    (token : string) (usdcAmount : Q) : MarketOrderParams :=
  {| mo_tokenId := token; mo_side := side trade; mo_amount := usdcAmount;
     mo_price := Pricing.slippagePrice (side trade) (price trade) (maxSlippage options);
     mo_orderType := marketOrderType options |}.

(** The argument of [createSplitOrders], lines 1556-1565. *)
Definition splitParams (options : Options) (trade : SmartMoneyTrade)
    (token : string) (copySize : Q) : SplitPlanner.SplitParams :=
  {| SplitPlanner.sp_tokenId := token;
     SplitPlanner.sp_side := side trade;
     SplitPlanner.sp_basePrice := price trade;
     SplitPlanner.sp_totalSize := copySize;
     SplitPlanner.sp_splitCount := splitCount options;
     SplitPlanner.sp_splitSpread := splitSpread options;
     SplitPlanner.sp_limitPriceOffset := limitPriceOffset options;
     SplitPlanner.sp_orderType := Some (limitOrderType options) |}.

(** The effects of a retry loop from attempt [start] on, whose first
    [j] attempts failed and whose next attempt ended it. *)
Definition retryTrace (retryDelay : Q) (place : nat -> Effect) (start j : nat)
    : list Effect :=
  flat_map (fun k => [place k; Sleep retryDelay]) (seq start j) ++ [place (start + j)].

(** The target list of [startAutoCopyTrading], lines 1329-1343.
    [topAddresses] is the address column of [getSmartMoneyList(topN)]
    when [topN] is given and positive. *)
Definition buildTargets (targetAddresses topAddresses : option (list string))
    : Res (list string) :=
  let given :=
    match targetAddresses with
    | Some (first :: rest) => map JsString.toLowerCase (first :: rest)
    | _ => []
    end in
  let merged :=
    match topAddresses with
    | Some top => Session.unique (given ++ top)
    | None => given
    end in
  match merged with
  | [] => Throw (Thrown "No target addresses. Use targetAddresses or topN.")
  | _ => Ok merged
  end.

(** Addresses that [toLowerCase] leaves as they are. *)
Definition lowercased (l : list string) : Prop :=
  Forall (fun a => JsString.toLowerCase a = a) l.

(** The options [startAutoCopyTrading] subscribes with, line 1619. *)
Definition sessionOptions (options : Options) (targetAddresses : list string)
    (detectionMode : option Session.DetectionMode) : Session.SubscribeOptions :=
  {| Session.so_filterAddresses := Some targetAddresses;
     Session.so_minSize := Some (minTradeSize options);
     Session.so_smartMoneyOnly := None;
     Session.so_detectionMode := detectionMode |}.

(** [filteredHandler], lines 1233-1253, around an [onTrade] that runs
    on the statistics of a copy-trading session. *)
Definition filteredHandler (o : Session.SubscribeOptions)
    (onTrade : SmartMoneyTrade -> Run -> Run * Settled)
    (trade : SmartMoneyTrade) (r : Run) : Run :=
  if Session.passesFilter o trade then fst (onTrade trade r) else r.

(** The handler a copy-trading session registers with the service. *)
Definition copyTradingHandler (options : Options) (tradingService : TradingService)
    (targetAddresses : list string) (detectionMode : option Session.DetectionMode)
    (trade : SmartMoneyTrade) (r : Run) : Run :=
  filteredHandler (sessionOptions options targetAddresses detectionMode)
    (runHandler options tradingService targetAddresses) trade r.

End HandlerLogic.

(** ** Sample sessions used to instantiate the theorems *)

Module Scenarios.

Import CopyTrading.

Definition options (dryRun : option bool) (orderMode : option OrderMode)
    (splitCount retryCount : option nat)
    (onTrade : option (SmartMoneyTrade -> OrderResult -> Res unit)) : Options :=
  {| opt_sizeScale := None;
     opt_maxSizePerTrade := None;
     opt_maxSlippage := None;
     opt_orderType := None;
     opt_minTradeSize := None;
     opt_sideFilter := None;
     opt_delay := None;
     opt_dryRun := dryRun;
     opt_orderMode := orderMode;
     opt_limitPriceOffset := None;
     opt_splitCount := splitCount;
     opt_splitSpread := None;
     opt_retryCount := retryCount;
     opt_retryDelay := None;
     opt_priceRange := None;
     opt_sellFullPosition := false;
     opt_tradeFilter := None;
     opt_preOrderCheck := None;
     opt_orderManager := None;
     opt_onOrderPlaced := None;
     opt_onTrade := onTrade;
     opt_onError := None |}.

Definition rejected : OrderResult :=
  {| success := false; orderId := None;
     errorMsg := Some (Thrown "not enough balance") |}.

(** An exchange client that rejects the first [failures] attempts. *)
Definition flaky (failures : nat) : TradingService :=
  {| getBalanceAllowance := fun _ _ => Ok 1000000000%Q;
     createMarketOrder :=
       fun attempt _ => if attempt <? failures then Ok rejected else Ok Samples.filled;
     createLimitOrder :=
       fun attempt _ => if attempt <? failures then Ok rejected else Ok Samples.filled;
     createBatchOrders :=
       fun attempt _ => if attempt <? failures then Ok rejected else Ok Samples.filled |}.

Definition throwingCallback : SmartMoneyTrade -> OrderResult -> Res unit :=
  fun _ _ => Throw (Thrown "callback").

End Scenarios.

(** ** Wallet analytics *)

Module Analytics.

Local Open Scope Q_scope.

(** [s.includes(sub)] on strings *)
Definition textIncludes (sub s : string) : bool :=
  match String.index 0 sub s with
  | Some _ => true
  | None => false
  end.

(** [arr.reduce((sum, p) => sum + f(p), 0)] *)
Definition sumOf {A} (f : A -> Q) (l : list A) : Q :=
  fold_left (fun sum p => sum + f p) l 0.


(** [arr.sort(cmp)]: a stable sort; [before a b] is [cmp(a, b) <= 0]. *)
Fixpoint insertBy {A} (before : A -> A -> bool) (a : A) (l : list A) : list A :=
  match l with
  | [] => [a]
  | b :: r => if before a b then a :: l else b :: insertBy before a r
  end.

Definition stableSort {A} (before : A -> A -> bool) (l : list A) : list A :=
  fold_right (insertBy before) [] l.

(** The fields of a closed position and of an open position that the
    report reads. *)
Record ClosedPosition : Type := {
  cp_title : string;
  cp_conditionId : string;
  cp_realizedPnl : Q;
  cp_totalBought : Q;
  cp_avgPrice : Q;
  cp_curPrice : Q;
  cp_timestamp : Z
}.


Record PerformanceMetrics : Type := {
  totalPnL : Q;
  realizedPnL : Q;
  unrealizedPnL : Q;
  totalVolume : Q;
  winRate : Q;
  profitFactor : Q;
  avgWin : Q;
  avgLoss : Q;
  maxWin : Q;
  maxLoss : Q;
  totalMarketsTraded : nat;
  winningMarkets : nat;
  losingMarkets : nat
}.

Definition isWin (p : ClosedPosition) : bool := JsMath.gtb (cp_realizedPnl p) 0.
Definition isLoss (p : ClosedPosition) : bool := JsMath.ltb (cp_realizedPnl p) 0.


(** *** Risk and recommendation *)

(** The fields of [TradingPatterns] and of [CategoryStats] that the
    assessment reads. *)
Record TradingPatterns : Type := {
  avgTradesPerDay : Q;
  positionConcentration : Q
}.

Record RiskAssessment : Type := {
  concentrationRisk : string;
  drawdownRisk : string;
  overallRisk : string
}.

(** [assessRisk], line 2392; [topCategoryShare] is
    [categoryDistribution[0]?.percentage || 0]. *)
Definition assessRisk (performance : PerformanceMetrics) (patterns : TradingPatterns)
    (topCategoryShare : Q) : RiskAssessment :=
  let maxLossRatio :=
    maxLoss performance / JsMath.max (Qabs (realizedPnL performance)) 1 in
  {| concentrationRisk :=
       if JsMath.gtb topCategoryShare 70 then "High (>70% in single category)"
       else if JsMath.gtb topCategoryShare 50 then "Medium (50-70% in top category)"
       else "Low (well diversified)";
     drawdownRisk :=
       if JsMath.gtb maxLossRatio (1 # 2) then "High (max loss >50% of total PnL)"
       else if JsMath.gtb maxLossRatio (1 # 4) then "Medium"
       else "Low";
     overallRisk :=
       if JsMath.ltb (winRate performance) (4 # 10)
          || JsMath.ltb (profitFactor performance) 1
       then "HIGH - Unprofitable strategy"
       else if JsMath.ltb (winRate performance) (1 # 2)
               || JsMath.ltb (profitFactor performance) (3 # 2)
       then "MEDIUM - Moderate performance"
       else if JsMath.gtb (positionConcentration patterns) (1 # 2)
       then "MEDIUM - High concentration"
       else "LOW - Solid track record" |}%string.

(** The [tradingFrequency] of [analyzeTradingStyle], lines 2353-2363 *)
Definition tradingFrequency (patterns : TradingPatterns) : string :=
  (if JsMath.gtb (avgTradesPerDay patterns) 10 then "High-frequency (>10 trades/day)"
   else if JsMath.gtb (avgTradesPerDay patterns) 3 then "Active (3-10 trades/day)"
   else if JsMath.gtb (avgTradesPerDay patterns) 1 then "Moderate (1-3 trades/day)"
   else "Low-frequency (<1 trade/day)")%string.

(** [generateRecommendation], line 2437: the verdict and the warnings
    (the reasoning text and the two lists left empty are not modelled). *)
Record CopyRecommendation : Type := {
  verdict : string;
  warnings : list string
}.

Definition generateRecommendation (performance : PerformanceMetrics)
    (risk : RiskAssessment) (frequency : string) : CopyRecommendation :=
  {| verdict :=
       (if negb (JsMath.ltb (winRate performance) (6 # 10))
           && negb (JsMath.ltb (profitFactor performance) (3 # 2))
        then "RECOMMENDED"
        else if negb (JsMath.ltb (winRate performance) (1 # 2))
                && negb (JsMath.ltb (profitFactor performance) (12 # 10))
        then "CAUTIOUSLY RECOMMENDED"
        else if JsMath.gtb (realizedPnL performance) 0
        then "NOT RECOMMENDED"
        else "AVOID")%string;
     warnings :=
       (if textIncludes "HIGH" (overallRisk risk)
        then ["High risk profile detected"%string] else [])
       ++ (if (winningMarkets performance <? losingMarkets performance)%nat
           then ["More losing markets than winning markets"%string] else [])
       ++ (if textIncludes "High-frequency" frequency
           then ["High-frequency trading may incur significant fees when copying"%string]
           else []) |}.

(** *** Pagination of the closed positions *)

Definition PAGE_LIMIT : nat := 50.
Definition MAX_ITERATIONS : nat := 200.

(** The loop of [fetchAllClosedPositions], lines 2540-2555, with
    [remaining] iterations left; the offsets requested are logged. *)
Fixpoint fetchPages (getClosedPositions : nat -> Res (list ClosedPosition))
    (remaining offset : nat) (allPositions : list ClosedPosition)
    (requests : list nat) : Res (list ClosedPosition) * list nat :=
  match remaining with
  | O => (Ok allPositions, requests)
  | S remaining' =>
      match getClosedPositions offset with
      | Throw e => (Throw e, requests ++ [offset])
      | Ok result =>
          if (length result =? 0)%nat then (Ok allPositions, requests ++ [offset])
          else if (length result <? PAGE_LIMIT)%nat
          then (Ok (allPositions ++ result), requests ++ [offset])
          else fetchPages getClosedPositions remaining' (offset + PAGE_LIMIT)
                 (allPositions ++ result) (requests ++ [offset])
      end
  end.

(** [fetchAllClosedPositions], line 2530; [dataApi] is [None] when the
    service has no data client. *)
Definition fetchAllClosedPositions
    (dataApi : option (nat -> Res (list ClosedPosition)))
    : Res (list ClosedPosition) * list nat :=
  match dataApi with
  | None => (Ok [], [])
  | Some getClosedPositions => fetchPages getClosedPositions MAX_ITERATIONS 0 [] []
  end.

(** A data client that serves [data] page by page. *)
Definition pagedClient (data : list ClosedPosition) (offset : nat)
    : Res (list ClosedPosition) :=
  Ok (firstn PAGE_LIMIT (skipn offset data)).

(** *** Best and worst markets *)

Inductive MarketCategory : Type :=
| Crypto | Politics | Sports | Economics | Entertainment | Science | Other.

Definition MarketCategory_eqb (a b : MarketCategory) : bool :=
  match a, b with
  | Crypto, Crypto | Politics, Politics | Sports, Sports | Economics, Economics
  | Entertainment, Entertainment | Science, Science | Other, Other => true
  | _, _ => false
  end.

Inductive MarketOutcome : Type := Win | Lose.

Record MarketStats : Type := {
  ms_market : string;
  ms_conditionId : string;
  ms_category : MarketCategory;
  ms_pnl : Q;
  ms_volume : Q;
  ms_tradeCount : nat;
  ms_outcome : MarketOutcome;
  ms_avgPrice : Q;
  ms_closePrice : Q
}.

(** One group of the category map and one row of the distribution. *)
Record Bucket : Type := {
  b_count : nat;
  b_volume : Q;
  b_pnl : Q
}.


(** [categoryMap.get(category) || { count: 0, volume: 0, pnl: 0 }] *)
Fixpoint mapGet (category : MarketCategory) (m : list (MarketCategory * Bucket))
    : Bucket :=
  match m with
  | [] => {| b_count := 0; b_volume := 0; b_pnl := 0 |}
  | (c, b) :: rest => if MarketCategory_eqb c category then b else mapGet category rest
  end.


(** The orders [getTopMarkets] and [getWorstMarkets] sort by. *)
Definition byProfit (a b : ClosedPosition) : Prop := cp_realizedPnl b <= cp_realizedPnl a.
Definition byLoss (a b : ClosedPosition) : Prop := cp_realizedPnl a <= cp_realizedPnl b.

Definition zeroBucket : Bucket := {| b_count := 0; b_volume := 0; b_pnl := 0 |}.


Section Markets.

(** [categorizeMarket], line 2491: a match of the lowercased title
    against one regular expression per category. *)
Variable categorizeMarket : string -> MarketCategory.

Definition toMarketStats (outcome : MarketOutcome) (p : ClosedPosition) : MarketStats :=
  {| ms_market := cp_title p;
     ms_conditionId := cp_conditionId p;
     ms_category := categorizeMarket (cp_title p);
     ms_pnl := cp_realizedPnl p;
     ms_volume := cp_totalBought p;
     ms_tradeCount := 1;
     ms_outcome := outcome;
     ms_avgPrice := cp_avgPrice p;
     ms_closePrice := cp_curPrice p |}.

(** [getTopMarkets], line 2684 *)
Definition getTopMarkets (positions : list ClosedPosition) (limit : nat)
    : list MarketStats :=
  map (toMarketStats Win)
    (firstn limit
       (stableSort (fun a b => Qle_bool (cp_realizedPnl b - cp_realizedPnl a) 0)
          (filter isWin positions))).

(** [getWorstMarkets], line 2705 *)
Definition getWorstMarkets (positions : list ClosedPosition) (limit : nat)
    : list MarketStats :=
  map (toMarketStats Lose)
    (firstn limit
       (stableSort (fun a b => Qle_bool (cp_realizedPnl a - cp_realizedPnl b) 0)
          (filter isLoss positions))).





End Markets.

(** *** The smart-money list *)

(** An entry of the leaderboard page and a wallet of the list. *)
Record LeaderboardEntry : Type := {
  le_address : string;
  le_userName : option string;
  le_pnl : Q;
  le_volume : Q;
  le_rank : option nat
}.

Record SmartMoneyWallet : Type := {
  w_address : string;
  w_name : option string;
  w_pnl : Q;
  w_volume : Q;
  w_score : Q;
  w_rank : nat
}.

(** The cache of the service: a map from address to wallet in insertion
    order, the address set, and the time it was filled. *)
Record Cache : Type := {
  smartMoneyCache : list (string * SmartMoneyWallet);
  cachedSet : JsSet.t;
  cacheTimestamp : Z
}.

(** [smartMoneyCache.set(address, wallet)] *)
Fixpoint cacheSet (address : string) (wallet : SmartMoneyWallet)
    (m : list (string * SmartMoneyWallet)) : list (string * SmartMoneyWallet) :=
  match m with
  | [] => [(address, wallet)]
  | (a, w) :: rest =>
      if String.eqb a address then (a, wallet) :: rest
      else (a, w) :: cacheSet address wallet rest
  end.

(** [isCacheValid()], line 2835 *)
Definition isCacheValid (cacheTtl now : Z) (c : Cache) : bool :=
  ((now - cacheTimestamp c <? cacheTtl)%Z
   && (0 <? length (smartMoneyCache c))%nat)%bool.

(** The wallet built from entry [i], lines 1159-1166 *)
Definition toWallet (i : nat) (trader : LeaderboardEntry) : SmartMoneyWallet :=
  {| w_address := JsString.toLowerCase (le_address trader);
     w_name := le_userName trader;
     w_pnl := le_pnl trader;
     w_volume := le_volume trader;
     w_score :=
       JsMath.min 100
         (JsMath.round (le_pnl trader / 100000 * 50 + le_volume trader / 1000000 * 50));
     w_rank := match le_rank trader with Some r => r | None => (i + 1)%nat end |}.

(** The entries of a page that the list keeps, with their index. *)
Definition eligible (minPnl : Q) (i : nat) (entries : list LeaderboardEntry)
    : list (nat * LeaderboardEntry) :=
  filter (fun ie => negb (JsMath.ltb (le_pnl (snd ie)) minPnl))
    (combine (seq i (length entries)) entries).

(** The loop of [getSmartMoneyList], lines 1155-1171, from index [i]. *)
Fixpoint collect (minPnl : Q) (entries : list LeaderboardEntry) (i : nat)
    (acc : list SmartMoneyWallet * Cache) : list SmartMoneyWallet * Cache :=
  match entries with
  | [] => acc
  | trader :: rest =>
      if JsMath.ltb (le_pnl trader) minPnl then collect minPnl rest (S i) acc
      else
        let wallet := toWallet i trader in
        let '(smartMoneyList, c) := acc in
        collect minPnl rest (S i)
          (smartMoneyList ++ [wallet],
           {| smartMoneyCache := cacheSet (w_address wallet) wallet (smartMoneyCache c);
              cachedSet := JsSet.add (w_address wallet) (cachedSet c);
              cacheTimestamp := cacheTimestamp c |})
  end.

(** [getSmartMoneyList(limit)], line 1145; [getLeaderboard] is the
    page of the leaderboard for a limit, [now] is [Date.now()]. *)
Definition getSmartMoneyList (minPnl : Q) (cacheTtl : Z)
    (getLeaderboard : nat -> Res (list LeaderboardEntry))
    (limit : nat) (now : Z) (c : Cache)
    : Res (list SmartMoneyWallet) * Cache * list nat :=
  if isCacheValid cacheTtl now c then
    (Ok (map snd (smartMoneyCache c)), c, [])
  else
    match getLeaderboard limit with
    | Throw e => (Throw e, c, [limit])
    | Ok entries =>
        let '(smartMoneyList, c') := collect minPnl entries 0 ([], c) in
        (Ok smartMoneyList,
         {| smartMoneyCache := smartMoneyCache c';
            cachedSet := cachedSet c';
            cacheTimestamp := now |},
         [limit])
    end.

End Analytics.

(** ** The trading guard: kill switch, fund limiter, loss breaker

    core/kill-switch.ts, core/fund-limiter.ts, core/loss-circuit-breaker.ts
    and core/trading-guard.ts.  The clock is passed in: [today] is
    [new Date().toISOString().split('T')[0]].  Of the file system only
    the kill-switch file is modelled; the data files of the limiter and
    of the breaker are written after every change and read once, by the
    constructor. *)

Module Safety.

Local Open Scope Q_scope.

(** [x || d] on an optional number: [d] when absent or 0 *)
Definition orElse (x : option Q) (d : Q) : Q :=
  match x with
  | Some v => if Qeq_bool v 0 then d else v
  | None => d
  end.

(** *** Kill switch *)

(** The kill-switch file (its content when it exists), whether the
    file system lets it be written and removed, the flag of the
    instance and the number of times the switch announced itself (the
    log lines, and the [onTriggered] callback when one is given). *)
Record World : Type := {
  killFile : option string;
  writable : bool;
  isTriggeredFlag : bool;
  announced : nat
}.

(** [isTriggered()], line 77 *)
Definition isTriggered (w : World) : bool :=
  match killFile w with Some _ => true | None => false end.

(** [trigger(reason)], line 89; [stamp] is the text with the time of
    the call. *)
Definition trigger (reason : option string) (stamp : string) (w : World) : World :=
  let message :=
    match reason with
    | Some r => if String.eqb r EmptyString then stamp else r
    | None => stamp
    end in
  if writable w then
    {| killFile := Some message;
       writable := writable w;
       isTriggeredFlag := true;
       announced := S (announced w) |}
  else w.

(** [reset()], line 109 *)
Definition resetSwitch (w : World) : World :=
  match killFile w with
  | Some _ =>
      if writable w then
        {| killFile := None;
           writable := writable w;
           isTriggeredFlag := false;
           announced := announced w |}
      else w
  | None => w
  end.

(** The timer callback of [startBackgroundCheck], lines 47-57 *)
Definition backgroundCheck (w : World) : World :=
  if isTriggered w && negb (isTriggeredFlag w) then
    {| killFile := killFile w;
       writable := writable w;
       isTriggeredFlag := true;
       announced := S (announced w) |}
  else w.

(** [checkAndThrow(operation)], line 124 *)
Definition checkAndThrow (w : World) : Res unit :=
  if isTriggered w then Throw (Thrown "Kill switch is active") else Ok tt.

(** Somebody else touching or removing the file. *)
Definition touch (content : string) (w : World) : World :=
  {| killFile := Some content;
     writable := writable w;
     isTriggeredFlag := isTriggeredFlag w;
     announced := announced w |}.

Definition remove (w : World) : World :=
  {| killFile := None;
     writable := writable w;
     isTriggeredFlag := isTriggeredFlag w;
     announced := announced w |}.

(** *** Fund limiter *)

Record Limits : Type := {
  maxDailyVolume : Q;
  maxTotalPosition : Q;
  maxSingleTrade : Q;
  maxDailyTrades : Q
}.

(** The limits the constructor keeps, lines 46-49 *)
Definition limitsOf (dailyVolume totalPosition singleTrade dailyTrades : option Q)
    : Limits :=
  {| maxDailyVolume := orElse dailyVolume 1000;
     maxTotalPosition := orElse totalPosition 5000;
     maxSingleTrade := orElse singleTrade 100;
     maxDailyTrades := orElse dailyTrades 50 |}.

Record FundData : Type := {
  fd_date : string;
  dailyVolume : Q;
  dailyTrades : Q;
  totalPosition : Q
}.

(** [createFreshData()], line 100 *)
Definition freshFunds (today : string) : FundData :=
  {| fd_date := today; dailyVolume := 0; dailyTrades := 0; totalPosition := 0 |}.

(** [checkAndResetDaily()], line 120 *)
Definition resetFundsDaily (today : string) (d : FundData) : FundData :=
  if String.eqb (fd_date d) today then d
  else {| fd_date := today; dailyVolume := 0; dailyTrades := 0;
          totalPosition := totalPosition d |}.

Inductive LimitType : Type :=
| SingleTrade | DailyVolume | DailyTrades | TotalPosition.

(** The answer of a check: allowed, or the limit that was reached with
    the two numbers handed to [onLimitReached]. *)
Inductive FundVerdict : Type :=
| FundsAllowed
| LimitReached (limitType : LimitType) (current limit : Q).

(** [canTrade(amount)], line 140 *)
Definition canTradeFunds (limits : Limits) (today : string) (amount : Q) (d : FundData)
    : FundData * FundVerdict :=
  let d := resetFundsDaily today d in
  if JsMath.gtb amount (maxSingleTrade limits) then
    (d, LimitReached SingleTrade amount (maxSingleTrade limits))
  else if JsMath.gtb (dailyVolume d + amount) (maxDailyVolume limits) then
    (d, LimitReached DailyVolume (dailyVolume d + amount) (maxDailyVolume limits))
  else if JsMath.gtb (dailyTrades d + 1) (maxDailyTrades limits) then
    (d, LimitReached DailyTrades (dailyTrades d + 1) (maxDailyTrades limits))
  else if JsMath.gtb (totalPosition d + amount) (maxTotalPosition limits) then
    (d, LimitReached TotalPosition (totalPosition d + amount) (maxTotalPosition limits))
  else (d, FundsAllowed).

(** [recordTrade(amount)], line 177 *)
Definition recordFundsTrade (today : string) (amount : Q) (d : FundData) : FundData :=
  let d := resetFundsDaily today d in
  {| fd_date := fd_date d;
     dailyVolume := dailyVolume d + amount;
     dailyTrades := dailyTrades d + 1;
     totalPosition := totalPosition d + amount |}.

(** [recordClose(amount)], line 190 *)
Definition recordFundsClose (amount : Q) (d : FundData) : FundData :=
  {| fd_date := fd_date d;
     dailyVolume := dailyVolume d;
     dailyTrades := dailyTrades d;
     totalPosition := JsMath.max 0 (totalPosition d - amount) |}.

(** *** Loss circuit breaker *)

Record BreakerConfig : Type := {
  maxTotalLoss : Q;
  maxDailyLoss : Q;
  maxDrawdownPercent : Q;
  maxConsecutiveLosses : Q;
  initialCapital : Q
}.

(** The thresholds the constructor keeps, lines 350-354 of
    fund-limiter.ts (the text of loss-circuit-breaker.ts) *)
Definition breakerConfigOf
    (totalLoss dailyLoss drawdownPercent consecutiveLosses capital : option Q)
    : BreakerConfig :=
  {| maxTotalLoss := orElse totalLoss 100;
     maxDailyLoss := orElse dailyLoss 50;
     maxDrawdownPercent := orElse drawdownPercent 20;
     maxConsecutiveLosses := orElse consecutiveLosses 5;
     initialCapital := orElse capital 1000 |}.

Inductive TripReason : Type :=
| MaxTotalLoss | MaxDailyLoss | MaxDrawdown | MaxConsecutiveLosses.

Definition reasonName (r : TripReason) : string :=
  match r with
  | MaxTotalLoss => "max_total_loss"
  | MaxDailyLoss => "max_daily_loss"
  | MaxDrawdown => "max_drawdown"
  | MaxConsecutiveLosses => "max_consecutive_losses"
  end.

Record BreakerData : Type := {
  bd_date : string;
  totalPnL : Q;
  dailyPnL : Q;
  peakCapital : Q;
  currentCapital : Q;
  consecutiveLosses : nat;
  longestLosingRun : nat;
  totalTrades : nat;
  winningTrades : nat;
  losingTrades : nat;
  isTripped : bool;
  tripReason : option TripReason
}.

(** [createFreshData()], line 395; [longestLosingRun] is the data field
    [maxConsecutiveLosses]. *)
Definition freshBreaker (config : BreakerConfig) (today : string) : BreakerData :=
  {| bd_date := today;
     totalPnL := 0;
     dailyPnL := 0;
     peakCapital := initialCapital config;
     currentCapital := initialCapital config;
     consecutiveLosses := 0;
     longestLosingRun := 0;
     totalTrades := 0;
     winningTrades := 0;
     losingTrades := 0;
     isTripped := false;
     tripReason := None |}.

(** [checkAndResetDaily()], line 416: the trip is kept. *)
Definition resetBreakerDaily (today : string) (d : BreakerData) : BreakerData :=
  if String.eqb (bd_date d) today then d
  else {| bd_date := today;
          totalPnL := totalPnL d;
          dailyPnL := 0;
          peakCapital := peakCapital d;
          currentCapital := currentCapital d;
          consecutiveLosses := consecutiveLosses d;
          longestLosingRun := longestLosingRun d;
          totalTrades := totalTrades d;
          winningTrades := winningTrades d;
          losingTrades := losingTrades d;
          isTripped := isTripped d;
          tripReason := tripReason d |}.

(** The statements of [recordTrade] that update the data, lines 444-465 *)
Definition applyTrade (pnl : Q) (d : BreakerData) : BreakerData :=
  let capital := currentCapital d + pnl in
  let lost := JsMath.ltb pnl 0 in
  let run := if lost then S (consecutiveLosses d) else 0%nat in
  {| bd_date := bd_date d;
     totalPnL := totalPnL d + pnl;
     dailyPnL := dailyPnL d + pnl;
     peakCapital := if JsMath.gtb capital (peakCapital d) then capital else peakCapital d;
     currentCapital := capital;
     consecutiveLosses := run;
     longestLosingRun :=
       if lost && (longestLosingRun d <? run)%nat then run else longestLosingRun d;
     totalTrades := S (totalTrades d);
     winningTrades := if lost then winningTrades d else S (winningTrades d);
     losingTrades := if lost then S (losingTrades d) else losingTrades d;
     isTripped := isTripped d;
     tripReason := tripReason d |}.

(** The percentage [checkBreakers] and [getStatus] compute. *)
Definition drawdown (d : BreakerData) : Q :=
  (peakCapital d - currentCapital d) / peakCapital d * 100.

(** The first condition of [checkBreakers], line 475, that holds. *)
Definition breach (config : BreakerConfig) (d : BreakerData) : option TripReason :=
  if Qle_bool (totalPnL d) (- maxTotalLoss config) then Some MaxTotalLoss
  else if Qle_bool (dailyPnL d) (- maxDailyLoss config) then Some MaxDailyLoss
  else if Qle_bool (maxDrawdownPercent config) (drawdown d) then Some MaxDrawdown
  else if Qle_bool (maxConsecutiveLosses config) (JsMath.ofNat (consecutiveLosses d))
  then Some MaxConsecutiveLosses
  else None.

Definition tripped (reason : TripReason) (d : BreakerData) : BreakerData :=
  {| bd_date := bd_date d;
     totalPnL := totalPnL d;
     dailyPnL := dailyPnL d;
     peakCapital := peakCapital d;
     currentCapital := currentCapital d;
     consecutiveLosses := consecutiveLosses d;
     longestLosingRun := longestLosingRun d;
     totalTrades := totalTrades d;
     winningTrades := winningTrades d;
     losingTrades := losingTrades d;
     isTripped := true;
     tripReason := Some reason |}.

(** [checkBreakers()] with [trip], line 519; [killSwitch] tells whether the
    breaker was given a kill switch. *)
Definition checkBreakers (config : BreakerConfig) (killSwitch : bool) (stamp : string)
    (s : BreakerData * World) : BreakerData * World :=
  let '(d, w) := s in
  if isTripped d then s
  else
    match breach config d with
    | None => s
    | Some reason =>
        (tripped reason d,
         if killSwitch
         then trigger (Some ("Circuit breaker: " ++ reasonName reason)%string) stamp w
         else w)
    end.

(** [recordTrade(pnl)] of the breaker, line 435 *)
Definition recordBreakerTrade (config : BreakerConfig) (killSwitch : bool)
    (today stamp : string) (pnl : Q) (s : BreakerData * World) : BreakerData * World :=
  let '(d, w) := s in
  let d := resetBreakerDaily today d in
  if isTripped d then (d, w)
  else checkBreakers config killSwitch stamp (applyTrade pnl d, w).

(** [canTrade()] of the breaker, line 552 *)
Definition canTradeBreaker (today : string) (d : BreakerData)
    : BreakerData * option TripReason * bool :=
  let d := resetBreakerDaily today d in
  (d, tripReason d, negb (isTripped d)).

(** [reset(force)] of the breaker, line 599 *)
Definition resetBreaker (force : bool) (d : BreakerData) : BreakerData :=
  if force then
    {| bd_date := bd_date d;
       totalPnL := totalPnL d;
       dailyPnL := dailyPnL d;
       peakCapital := peakCapital d;
       currentCapital := currentCapital d;
       consecutiveLosses := 0;
       longestLosingRun := longestLosingRun d;
       totalTrades := totalTrades d;
       winningTrades := winningTrades d;
       losingTrades := losingTrades d;
       isTripped := false;
       tripReason := None |}
  else d.


(** *** Trading guard *)

Record GuardConfig : Type := {
  enableKillSwitch : bool;
  enableFundLimiter : bool;
  enableLossBreaker : bool;
  limits : Limits;
  breaker : BreakerConfig
}.

Record Guard : Type := {
  world : World;
  funds : FundData;
  losses : BreakerData;
  blockedCalls : nat
}.

(** What [checkBeforeTrade] answers. *)
Inductive Verdict : Type :=
| Allowed
| BlockedByKillSwitch (message : string)
| BlockedByFundLimiter (limitType : LimitType) (current limit : Q)
| BlockedByLossBreaker (reason : option TripReason).

(** [checkBeforeTrade(amount)], line 149 of trading-guard.ts;
    [blockedCalls] counts the calls of [notifyBlocked]. *)
Definition checkBeforeTrade (config : GuardConfig) (today : string) (amount : Q)
    (g : Guard) : Guard * Verdict :=
  let blocked g :=
    {| world := world g; funds := funds g; losses := losses g;
       blockedCalls := S (blockedCalls g) |} in
  match (if enableKillSwitch config then killFile (world g) else None) with
  | Some content =>
      (blocked g,
       BlockedByKillSwitch
         (if String.eqb content EmptyString then "Manual trigger"%string else content))
  | None =>
      let '(funds1, fundCheck) :=
        if enableFundLimiter config
        then canTradeFunds (limits config) today amount (funds g)
        else (funds g, FundsAllowed) in
      let g1 := {| world := world g; funds := funds1; losses := losses g;
                   blockedCalls := blockedCalls g |} in
      match fundCheck with
      | LimitReached limitType current limit =>
          (blocked g1, BlockedByFundLimiter limitType current limit)
      | FundsAllowed =>
          if enableLossBreaker config then
            let '(losses1, reason, allowed) := canTradeBreaker today (losses g1) in
            let g2 := {| world := world g1; funds := funds g1; losses := losses1;
                         blockedCalls := blockedCalls g1 |} in
            if allowed then (g2, Allowed)
            else (blocked g2, BlockedByLossBreaker reason)
          else (g1, Allowed)
      end
  end.

(** [recordOpen(amount)], line 182 *)
Definition recordOpen (config : GuardConfig) (today : string) (amount : Q) (g : Guard)
    : Guard :=
  if enableFundLimiter config then
    {| world := world g; funds := recordFundsTrade today amount (funds g);
       losses := losses g; blockedCalls := blockedCalls g |}
  else g.

(** [recordClose(amount, pnl)], line 191; the guard hands its kill
    switch to the breaker. *)
Definition recordClose (config : GuardConfig) (today stamp : string) (amount pnl : Q)
    (g : Guard) : Guard :=
  let funds1 :=
    if enableFundLimiter config then recordFundsClose amount (funds g) else funds g in
  let '(losses1, world1) :=
    if enableLossBreaker config
    then recordBreakerTrade (breaker config) true today stamp pnl (losses g, world g)
    else (losses g, world g) in
  {| world := world1; funds := funds1; losses := losses1;
     blockedCalls := blockedCalls g |}.

(** [resetAll(force)], line 306 *)
Definition resetAll (force : bool) (today : string) (g : Guard) : Guard :=
  if force then
    {| world := resetSwitch (world g);
       funds := freshFunds today;
       losses := resetBreaker true (losses g);
       blockedCalls := blockedCalls g |}
  else g.

(** A guard with fresh data and no kill-switch file. *)
Definition freshGuard (config : GuardConfig) (today : string) (writable : bool) : Guard :=
  {| world := {| killFile := None; writable := writable;
                 isTriggeredFlag := false; announced := 0 |};
     funds := freshFunds today;
     losses := freshBreaker (breaker config) today;
     blockedCalls := 0 |}.

(** The calls a strategy makes, after the usage the header of
    trading-guard.ts gives: a check before every trade, [recordOpen]
    when the check allows it, [recordClose] when the position is closed. *)
Inductive GuardCall : Type :=
| Attempt (checkDay recordDay : string) (amount : Q)
| Inquiry (today : string) (amount : Q)
| Close (today stamp : string) (amount pnl : Q)
| ResetAll (force : bool) (today : string)
| TriggerKillSwitch (reason : option string) (stamp : string)
| BackgroundCheck.

Definition guardCall (config : GuardConfig) (g : Guard) (c : GuardCall) : Guard :=
  match c with
  | Attempt checkDay recordDay amount =>
      let '(g1, verdict) := checkBeforeTrade config checkDay amount g in
      match verdict with
      | Allowed => recordOpen config recordDay amount g1
      | _ => g1
      end
  | Inquiry today amount => fst (checkBeforeTrade config today amount g)
  | Close today stamp amount pnl => recordClose config today stamp amount pnl g
  | ResetAll force today => resetAll force today g
  | TriggerKillSwitch reason stamp =>
      {| world := trigger reason stamp (world g); funds := funds g;
         losses := losses g; blockedCalls := blockedCalls g |}
  | BackgroundCheck =>
      {| world := backgroundCheck (world g); funds := funds g;
         losses := losses g; blockedCalls := blockedCalls g |}
  end.

Definition guardCalls (config : GuardConfig) (calls : list GuardCall) (g : Guard)
    : Guard :=
  fold_left (guardCall config) calls g.

(** Amounts are not negative. *)
Definition saneCall (c : GuardCall) : Prop :=
  match c with
  | Attempt _ _ amount => 0 <= amount
  | Close _ _ amount _ => 0 <= amount
  | _ => True
  end.


(** The counters of the fund limiter are inside its limits. *)
Definition withinLimits (limits : Limits) (d : FundData) : Prop :=
  (0 <= dailyVolume d /\ dailyVolume d <= maxDailyVolume limits) /\
  (0 <= dailyTrades d /\ dailyTrades d <= maxDailyTrades limits) /\
  (0 <= totalPosition d /\ totalPosition d <= maxTotalPosition limits).








(** The calls made on a kill switch, and what others do to its file. *)
Inductive SwitchCall : Type :=
| Trigger (reason : option string) (stamp : string)
| ResetSwitch
| TimerTick
| Touch (content : string)
| Remove.

Definition switchCall (w : World) (c : SwitchCall) : World :=
  match c with
  | Trigger reason stamp => trigger reason stamp w
  | ResetSwitch => resetSwitch w
  | TimerTick => backgroundCheck w
  | Touch content => touch content w
  | Remove => remove w
  end.

End Safety.

(** ** Sample guards used to instantiate the theorems *)

Module GuardSamples.

Import Safety.

(** The guard with every default: limits 1000 / 5000 / 100 / 50,
    thresholds 100 / 50 / 20 % / 5 on a capital of 1000. *)
Definition config (killSwitch fundLimiter lossBreaker : bool) : GuardConfig :=
  {| enableKillSwitch := killSwitch;
     enableFundLimiter := fundLimiter;
     enableLossBreaker := lossBreaker;
     limits := limitsOf None None None None;
     breaker := breakerConfigOf None None None None None |}.

Definition day1 : string := "2025-01-01".
Definition day2 : string := "2025-01-02".

Definition guard (writable : bool) : Guard :=
  freshGuard (config true true true) day1 writable.

(** Two trades of 80, the second closed at a loss of 60 the next day. *)
Definition session : list GuardCall :=
  [Attempt day1 day1 80%Q; Attempt day1 day1 80%Q; Close day2 "t" 80%Q (-60)%Q].

End GuardSamples.

(** ** Facts on sets and on the window *)

Section SetFacts.

Import JsSet.

Lemma has_true_iff (x : string) (s : t) : has x s = true <-> In x s.
Proof.
  unfold has. rewrite existsb_exists. split.
  - intros [y [Hy Heq]]. apply String.eqb_eq in Heq. now subst.
  - intros H. exists x. split; [assumption | apply String.eqb_refl].
Qed.

Lemma has_false_iff (x : string) (s : t) : has x s = false <-> ~ In x s.
Proof.
  rewrite <- has_true_iff. destruct (has x s); split; intros; congruence.
Qed.

Lemma delete_not_in (x : string) (s : t) : ~ In x s -> delete x s = s.
Proof.
  unfold delete. induction s as [|y s IH]; simpl; intros H; [reflexivity|].
  destruct (String.eqb_spec y x) as [->|Hne]; simpl.
  - exfalso. apply H. now left.
  - f_equal. apply IH. intros Hin. apply H. now right.
Qed.

Lemma delete_head (x : string) (s : t) :
  ~ In x s -> delete x (x :: s) = s.
Proof.
  intros H. unfold delete. simpl. rewrite String.eqb_refl. simpl.
  now apply delete_not_in.
Qed.

(** Deleting the first [n] elements one after the other drops the
    prefix of length [n], in one pass over the set. *)
Lemma delete_prefix (n : nat) (s : t) :
  NoDup s ->
  fold_left (fun acc h => delete h acc) (firstn n s) s = skipn n s.
Proof.
  revert n. induction s as [|x s IH]; intros n Hnd.
  - now destruct n.
  - destruct n as [|n]; [reflexivity|].
    inversion Hnd as [|? ? Hnotin Hnd']; subst.
    cbn [firstn skipn fold_left]. rewrite delete_head by assumption.
    now apply IH.
Qed.

Lemma add_NoDup (x : string) (s : t) : NoDup s -> NoDup (add x s).
Proof.
  intros H. unfold add. destruct (has x s) eqn:E; [assumption|].
  apply has_false_iff in E.
  apply NoDup_rev in H. rewrite <- (rev_involutive (s ++ [x])).
  apply NoDup_rev. rewrite rev_app_distr. simpl. constructor.
  - now rewrite <- in_rev.
  - assumption.
Qed.

Lemma skipn_NoDup (n : nat) (s : t) : NoDup s -> NoDup (skipn n s).
Proof.
  revert n. induction s as [|x s IH]; intros [|n] H; simpl; auto.
  inversion H; subst. now apply IH.
Qed.

End SetFacts.

Section WindowFacts.

Import JsSet DedupWindow.

Lemma prune_skipn (w : t) :
  NoDup w -> prune w = if CEILING <? length w then skipn EVICT w else w.
Proof.
  intros H. unfold prune, size, slice0, toArray.
  destruct (CEILING <? length w); [now apply delete_prefix | reflexivity].
Qed.

Lemma mark_member (h : string) (w : t) :
  wf w -> has h w = true -> mark h w = w.
Proof.
  intros [Hnd Hlen] Hin. unfold mark, add. rewrite Hin.
  rewrite prune_skipn by assumption.
  destruct (Nat.ltb_spec CEILING (length w)); [lia | reflexivity].
Qed.

Lemma mark_fresh (h : string) (w : t) :
  wf w -> has h w = false ->
  mark h w = if length w <? CEILING then w ++ [h] else skipn EVICT (w ++ [h]).
Proof.
  intros [Hnd Hlen] Hin. unfold mark.
  rewrite prune_skipn by now apply add_NoDup.
  unfold add. rewrite Hin. rewrite length_app. simpl.
  destruct (Nat.ltb_spec CEILING (length w + 1));
    destruct (Nat.ltb_spec (length w) CEILING); try lia; reflexivity.
Qed.

Lemma mark_wf (h : string) (w : t) : wf w -> wf (mark h w).
Proof.
  intros Hwf. destruct (has h w) eqn:E.
  - now rewrite mark_member.
  - rewrite mark_fresh by assumption. destruct Hwf as [Hnd Hlen].
    assert (Hnd' : NoDup (w ++ [h])).
    { pose proof (add_NoDup h w Hnd) as H. unfold add in H. now rewrite E in H. }
    unfold wf, CEILING, EVICT in *.
    destruct (Nat.ltb_spec (length w) 1000).
    + split; [assumption|]. rewrite length_app. simpl. lia.
    + split; [now apply skipn_NoDup|].
      rewrite length_skipn, length_app. simpl. lia.
Qed.

Lemma mark_has (h : string) (w : t) : wf w -> has h (mark h w) = true.
Proof.
  intros Hwf. destruct (has h w) eqn:E.
  - now rewrite mark_member.
  - rewrite mark_fresh by assumption. apply has_true_iff.
    destruct Hwf as [Hnd Hlen]. unfold CEILING, EVICT in *.
    destruct (Nat.ltb_spec (length w) 1000).
    + apply in_or_app. right. now left.
    + assert (Hl : length w = 1000) by lia.
      rewrite skipn_app. apply in_or_app. right.
      rewrite Hl. simpl. now left.
Qed.

Lemma markAll_wf (hs : list string) (w : t) : wf w -> wf (markAll hs w).
Proof.
  revert w. induction hs as [|h hs IH]; intros w Hwf; [assumption|].
  simpl. apply IH. now apply mark_wf.
Qed.

Lemma markAll_app (hs1 hs2 : list string) (w : t) :
  markAll (hs1 ++ hs2) w = markAll hs2 (markAll hs1 w).
Proof. unfold markAll. apply fold_left_app. Qed.

(** Below the ceiling, marking distinct hashes only appends them. *)
Lemma markAll_below (hs : list string) :
  NoDup hs -> length hs <= CEILING -> markAll hs empty = hs.
Proof.
  induction hs as [|h hs IH] using rev_ind; intros Hnd Hlen; [reflexivity|].
  rewrite length_app in Hlen. simpl in Hlen.
  assert (Hnd' : NoDup hs /\ ~ In h hs).
  { apply NoDup_rev in Hnd. rewrite rev_app_distr in Hnd. simpl in Hnd.
    inversion Hnd; subst. split.
    - rewrite <- (rev_involutive hs). now apply NoDup_rev.
    - now rewrite in_rev. }
  destruct Hnd' as [Hnd' Hnotin].
  rewrite markAll_app, IH by (assumption || lia). simpl.
  rewrite mark_fresh.
  - destruct (Nat.ltb_spec (length hs) CEILING); [reflexivity | lia].
  - split; [assumption | lia].
  - now apply has_false_iff.
Qed.

End WindowFacts.

(** ** C3: the window is bounded and evicts the oldest half in one pass *)

Section Retention.

Import JsSet DedupWindow.




End Retention.

(** C3.  After any mark, and so after any sequence of marks from the
    empty window, the window holds at most 1000 hashes and no hash
    twice.  A mark of a new hash that finds 1000 hashes removes the
    500 oldest in insertion order at once; below that it only appends,
    and a mark of a member changes nothing.  After 1001 distinct hashes
    are marked the window is the last 501 of them: its size is at most
    1000, every hash of the most recent half is present and the oldest
    500 are gone. *)
Theorem dedup_window_bounded_eviction :
  (forall (w : JsSet.t) (h : string),
      DedupWindow.wf w ->
      DedupWindow.wf (DedupWindow.mark h w) /\
      JsSet.has h (DedupWindow.mark h w) = true /\
      (JsSet.has h w = true -> DedupWindow.mark h w = w) /\
      (JsSet.has h w = false -> length w < 1000 -> DedupWindow.mark h w = w ++ [h]) /\
      (JsSet.has h w = false -> length w = 1000 ->
       DedupWindow.mark h w = skipn 500 (w ++ [h]) /\
       length (DedupWindow.mark h w) = 501)) /\
  (forall hs : list string,
      NoDup hs -> length hs = 1001 ->
      let w := DedupWindow.markAll hs JsSet.empty in
      w = skipn 500 hs /\
      length w <= 1000 /\
      (forall h, In h (skipn 500 hs) -> JsSet.has h w = true) /\
      (forall h, In h (firstn 500 hs) -> JsSet.has h w = false)) /\
  (forall hs : list string,
      NoDup (DedupWindow.markAll hs JsSet.empty) /\
      length (DedupWindow.markAll hs JsSet.empty) <= 1000).
Proof.
  split; [|split];
    [| | intros hs; apply markAll_wf; split;
         [apply NoDup_nil | unfold DedupWindow.CEILING; simpl; lia]].
  - intros w h Hwf. repeat split.
    + apply mark_wf; assumption.
    + apply mark_wf; assumption.
    + now apply mark_has.
    + intros E. now apply mark_member.
    + intros E Hlt. rewrite mark_fresh by assumption.
      unfold DedupWindow.CEILING.
      destruct (Nat.ltb_spec (length w) 1000); [reflexivity | lia].
    + rewrite mark_fresh by assumption. unfold DedupWindow.CEILING.
      destruct (Nat.ltb_spec (length w) 1000); [lia | reflexivity].
    + rewrite mark_fresh by assumption. unfold DedupWindow.CEILING, DedupWindow.EVICT.
      destruct (Nat.ltb_spec (length w) 1000); [lia|].
      rewrite length_skipn, length_app. simpl. lia.
  - intros hs Hnd Hlen w.
    assert (Hw : w = skipn 500 hs).
    { subst w. destruct (exists_last (l := hs)) as (front & x & ->).
      { intros ->. discriminate. }
      rewrite length_app in Hlen. simpl in Hlen.
      assert (Hfront : NoDup front /\ ~ In x front).
      { apply NoDup_rev in Hnd. rewrite rev_app_distr in Hnd. simpl in Hnd.
        inversion Hnd; subst. split.
        - rewrite <- (rev_involutive front). now apply NoDup_rev.
        - now rewrite in_rev. }
      destruct Hfront as [Hndf Hx].
      rewrite markAll_app, markAll_below by (unfold DedupWindow.CEILING; assumption || lia).
      simpl. rewrite mark_fresh.
      - unfold DedupWindow.CEILING, DedupWindow.EVICT.
        destruct (Nat.ltb_spec (length front) 1000); [lia | reflexivity].
      - split; [assumption | unfold DedupWindow.CEILING; lia].
      - now apply has_false_iff. }
    rewrite Hw. repeat split.
    + rewrite length_skipn. lia.
    + intros h Hin. now apply has_true_iff.
    + intros h Hin. apply has_false_iff. intros Hin2.
      rewrite <- (firstn_skipn 500 hs) in Hnd.
      apply NoDup_app_remove_l in Hnd as Hnd2.
      clear Hnd2. revert Hnd Hin Hin2.
      generalize (firstn 500 hs) (skipn 500 hs). intros l1 l2 Hnd Hin Hin2.
      induction l1 as [|a l1 IH]; [contradiction|].
      simpl in Hnd. inversion Hnd; subst.
      destruct Hin as [->|Hin].
      * apply H1. apply in_or_app. now right.
      * now apply IH.
Qed.

Lemma nodupb_NoDup (l : list string) : Samples.nodupb l = true -> NoDup l.
Proof.
  induction l as [|x r IH]; simpl; intros H; constructor.
  - apply andb_prop in H as [H _]. apply negb_true_iff in H.
    now apply has_false_iff.
  - apply andb_prop in H as [_ H]. now apply IH.
Qed.

Lemma dedup_window_bounded_eviction_witness :
  length (DedupWindow.markAll (Samples.sampleHashes 1001) JsSet.empty) <= 1000 /\
  DedupWindow.mark "0xbb" ["0xaa"%string] = ["0xaa"; "0xbb"]%string.
Proof.
  split.
  - destruct (proj1 (proj2 dedup_window_bounded_eviction) (Samples.sampleHashes 1001))
      as (_ & H & _).
    + apply nodupb_NoDup. vm_compute. reflexivity.
    + vm_compute. reflexivity.
    + exact H.
  - destruct (proj1 dedup_window_bounded_eviction ["0xaa"%string] "0xbb"%string)
      as (_ & _ & _ & H & _).
    + split; [apply NoDup_cons; [simpl; tauto | apply NoDup_nil]
             | unfold DedupWindow.CEILING; simpl; lia].
    + apply H; [reflexivity | simpl; lia].
Defined.

(** ** C1, C10: dedup across the two detectors *)

Section DetectorFacts.

Variable ROUTER_ADDRESSES : JsSet.t.
Variable MATCH_ORDERS_SELECTOR : string.
Variable decodeMatchOrdersCalldata : string -> option DecodedMatchOrders.
Variable extractTraderAddresses : DecodedMatchOrders -> list string.

Let matchSettlement :=
  matchTrackedSettlement ROUTER_ADDRESSES MATCH_ORDERS_SELECTOR
    decodeMatchOrdersCalldata extractTraderAddresses.
Let handleMessage :=
  handleMempoolMessage ROUTER_ADDRESSES MATCH_ORDERS_SELECTOR
    decodeMatchOrdersCalldata extractTraderAddresses.
Let step :=
  deliver ROUTER_ADDRESSES MATCH_ORDERS_SELECTOR
    decodeMatchOrdersCalldata extractTraderAddresses.
Let run :=
  deliverAll ROUTER_ADDRESSES MATCH_ORDERS_SELECTOR
    decodeMatchOrdersCalldata extractTraderAddresses.





(** What a delivery leaves alone. *)
Lemma step_frame (s : Service) (d : Delivery) :
  tradeHandlers (step s d) = tradeHandlers s /\
  mempoolTargetAddresses (step s d) = mempoolTargetAddresses s.
Proof.
  destruct d as [nowMs a | now data]; simpl.
  - unfold PollingDetector.processActivity.
    destruct (JsSet.has _ _); [now split|].
    destruct (PollingDetector.activityToSmartMoneyTrade _ a); now split.
  - unfold handleMempoolMessage.
    destruct (matchTrackedSettlement _ _ _ _ s data) as [[[tx decoded] trader]|];
      [|now split].
    unfold dedupAndDispatch.
    destruct (JsString.truthy (tx_hash tx)); simpl;
      [destruct (JsSet.has _ _)|]; now split.
Qed.










Lemma notify_iter_frame (trade : SmartMoneyTrade) (n : nat) (s : Service) :
  let s' := Nat.iter n (notifyHandlers trade) s in
  mempoolTargetAddresses s' = mempoolTargetAddresses s /\
  smartMoneySet s' = smartMoneySet s /\
  tradeHandlers s' = tradeHandlers s /\
  seenTxHashes s' = seenTxHashes s /\
  invoked s'
  = invoked s ++ concat (repeat (map (fun x => (x, trade)) (tradeHandlers s)) n).
Proof.
  induction n as [|n IH]; simpl.
  - repeat split. now rewrite app_nil_r.
  - destruct IH as (H1 & H2 & H3 & H4 & H5). repeat split; try assumption.
    rewrite H5, H3, <- app_assoc. f_equal.
    clear. induction n as [|n IH]; simpl; [now rewrite app_nil_r|].
    now rewrite <- app_assoc, IH.
Qed.

Lemma match_depends_on_targets (s1 s2 : Service) (data : option RpcMessage) :
  mempoolTargetAddresses s1 = mempoolTargetAddresses s2 ->
  matchSettlement s1 data = matchSettlement s2 data.
Proof.
  intros H. unfold matchSettlement, matchTrackedSettlement. now rewrite H.
Qed.

(** C10.  A decoded settlement message whose transaction has no hash
    and whose traders meet the tracked set is dispatched to every
    registered handler whatever the dedup window holds, and the window
    is left as it was; observed [n] times, it is dispatched [n]
    times. *)
Theorem hashless_pending_tx_always_dispatched :
  forall (s : Service) (now : Z) (data : option RpcMessage) (tx : PendingTx)
         (decoded : DecodedMatchOrders) (trader : string),
    matchSettlement s data = Some (tx, decoded, trader) ->
    tx_hash tx = None ->
    let trade := mempoolTrade s now tx trader (findTargetOrder decoded trader) in
    let batch := map (fun handler => (handler, trade)) (tradeHandlers s) in
    handleMessage data now s = notifyHandlers trade s /\
    txHash trade = None /\
    seenTxHashes (handleMessage data now s) = seenTxHashes s /\
    invoked (handleMessage data now s) = invoked s ++ batch /\
    forall n : nat,
      seenTxHashes (Nat.iter n (handleMessage data now) s) = seenTxHashes s /\
      invoked (Nat.iter n (handleMessage data now) s)
      = invoked s ++ concat (repeat batch n).
Proof.
  intros s now data tx decoded trader Hm Hh trade batch.
  assert (Hone : forall s', mempoolTargetAddresses s' = mempoolTargetAddresses s ->
                            smartMoneySet s' = smartMoneySet s ->
                            handleMessage data now s' = notifyHandlers trade s').
  { intros s' Ht Hs. unfold handleMessage, handleMempoolMessage.
    fold matchSettlement. rewrite (match_depends_on_targets s' s data Ht), Hm.
    unfold dedupAndDispatch. rewrite Hh. simpl.
    subst trade. unfold mempoolTrade. now rewrite Hs. }
  split; [now apply Hone|].
  split; [subst trade; unfold mempoolTrade; destruct (derivePriceSize _); exact Hh|].
  rewrite Hone by reflexivity.
  split; [reflexivity|]. split; [reflexivity|].
  intros n.
  assert (Hiter : Nat.iter n (handleMessage data now) s
                  = Nat.iter n (notifyHandlers trade) s).
  { induction n as [|k IH]; [reflexivity|].
    simpl. rewrite IH.
    destruct (notify_iter_frame trade k s) as (H1 & H2 & _).
    now apply Hone. }
  rewrite Hiter.
  destruct (notify_iter_frame trade n s) as (_ & _ & _ & H4 & H5).
  split; assumption.
Qed.

(** C2.  The trade the mempool detector builds from a decoded order
    scales both amounts by 10^-6; for a BUY order its price is
    makerAmount / takerAmount and its size takerAmount, for a SELL
    order its price is takerAmount / makerAmount and its size
    makerAmount (the divisor being other than zero).  With raw makerAmount 50_000000 and takerAmount
    100_000000, BUY gives price 0.5 and size 100, SELL gives price 2
    and size 50.  Every trade the handler dispatches for a matched
    settlement is built this way from the tracked trader's order. *)
Theorem mempool_price_size_derivation :
  (forall (s : Service) (now : Z) (tx : PendingTx) (trader : string)
          (o : DecodedOrder),
      let makerAmt := (inject_Z (o_makerAmount o) * (1 # 1000000))%Q in
      let takerAmt := (inject_Z (o_takerAmount o) * (1 # 1000000))%Q in
      let trade := mempoolTrade s now tx trader o in
      match o_side o with
      | OrderSide.BUY =>
          side trade = BUY /\ (size trade == takerAmt)%Q /\
          (o_takerAmount o <> 0%Z ->
           (price trade == makerAmt / takerAmt)%Q /\
           (price trade == inject_Z (o_makerAmount o) / inject_Z (o_takerAmount o))%Q)
      | OrderSide.SELL =>
          side trade = SELL /\ (size trade == makerAmt)%Q /\
          (o_makerAmount o <> 0%Z ->
           (price trade == takerAmt / makerAmt)%Q /\
           (price trade == inject_Z (o_takerAmount o) / inject_Z (o_makerAmount o))%Q)
      end) /\
  (forall (s : Service) (now : Z) (tx : PendingTx) (trader maker signer token : string),
      let order := fun flag =>
        {| o_maker := maker; o_signer := signer; o_tokenId := token; o_side := flag;
           o_makerAmount := 50000000; o_takerAmount := 100000000 |} in
      let buy := mempoolTrade s now tx trader (order OrderSide.BUY) in
      let sell := mempoolTrade s now tx trader (order OrderSide.SELL) in
      (price buy == 1 # 2)%Q /\ (size buy == 100)%Q /\
      (price sell == 2)%Q /\ (size sell == 50)%Q) /\
  (forall (s : Service) (now : Z) (data : option RpcMessage) (tx : PendingTx)
          (decoded : DecodedMatchOrders) (trader : string),
      matchSettlement s data = Some (tx, decoded, trader) ->
      handleMessage data now s = s \/
      exists s1,
        handleMessage data now s
        = notifyHandlers
            (mempoolTrade s1 now tx trader (findTargetOrder decoded trader)) s1).
Proof.
  split; [|split].
  - intros s now tx trader o makerAmt takerAmt trade.
    subst trade makerAmt takerAmt. unfold mempoolTrade, derivePriceSize.
    assert (Hnz : forall z : Z, z <> 0%Z -> ~ (inject_Z z == 0)%Q).
    { intros z Hz H. apply Hz. unfold Qeq, inject_Z in H. simpl in H. lia. }
    destruct (o_side o); simpl; (split; [reflexivity|]);
      (split; [unfold Qdiv; reflexivity|]); intros Hz; apply Hnz in Hz;
      (split; [unfold Qdiv; reflexivity | field; exact Hz]).
  - intros s now tx trader maker signer token order buy sell.
    subst buy sell order. unfold mempoolTrade, derivePriceSize. simpl.
    repeat split; reflexivity.
  - intros s now data tx decoded trader Hm.
    unfold handleMessage, handleMempoolMessage. fold matchSettlement. rewrite Hm.
    unfold dedupAndDispatch.
    destruct (JsString.truthy (tx_hash tx) && _); [now left|].
    right. eexists. reflexivity.
Qed.

End DetectorFacts.

Lemma mempool_price_size_derivation_witness :
  (price (mempoolTrade Samples.service 5 (Samples.pendingTx None) "0xaaa"
            (Samples.order OrderSide.SELL)) == 2)%Q /\
  exists s1,
    handleMempoolMessage Samples.routers Samples.selector Samples.decoder
      Samples.traders (Some (Samples.message (Some "0xhash"%string))) 5 Samples.service
    = notifyHandlers
        (mempoolTrade s1 5 (Samples.pendingTx (Some "0xhash"%string)) "0xaaa"
           (findTargetOrder Samples.decoded "0xaaa")) s1.
Proof.
  destruct (mempool_price_size_derivation Samples.routers Samples.selector
              Samples.decoder Samples.traders) as (Hrule & _ & Hdispatch).
  split.
  - pose proof (Hrule Samples.service 5%Z (Samples.pendingTx None) "0xaaa"%string
                  (Samples.order OrderSide.SELL)) as H.
    simpl in H. destruct H as (_ & _ & H).
    destruct H as [H _]; [discriminate|]. rewrite H. reflexivity.
  - destruct (Hdispatch Samples.service 5%Z
                (Some (Samples.message (Some "0xhash"%string)))
                (Samples.pendingTx (Some "0xhash"%string)) Samples.decoded
                "0xaaa"%string eq_refl) as [H | H].
    + exfalso. apply (f_equal invoked) in H. vm_compute in H. discriminate.
    + exact H.
Defined.


Lemma hashless_pending_tx_always_dispatched_witness :
  length (invoked
            (Nat.iter 3
               (handleMempoolMessage Samples.routers Samples.selector Samples.decoder
                  Samples.traders (Some (Samples.message None)) 5)
               Samples.service))
  = 6.
Proof.
  destruct (hashless_pending_tx_always_dispatched Samples.routers Samples.selector
              Samples.decoder Samples.traders Samples.service 5
              (Some (Samples.message None)) (Samples.pendingTx None)
              Samples.decoded "0xaaa"%string eq_refl eq_refl)
    as (_ & _ & _ & _ & H).
  destruct (H 3) as [_ ->]. reflexivity.
Defined.

(** ** Numbers *)

Section NumberFacts.

Local Open Scope Q_scope.

Lemma ltb_lt (a b : Q) : JsMath.ltb a b = true <-> a < b.
Proof.
  unfold JsMath.ltb. rewrite negb_true_iff.
  split.
  - intros H. apply Qnot_le_lt. intros Hle.
    apply Qle_bool_iff in Hle. congruence.
  - intros H. destruct (Qle_bool b a) eqn:E; [|reflexivity].
    apply Qle_bool_iff in E. exfalso. apply (Qlt_not_le _ _ H E).
Qed.

Lemma ltb_ge (a b : Q) : JsMath.ltb a b = false <-> b <= a.
Proof.
  unfold JsMath.ltb. rewrite negb_false_iff. apply Qle_bool_iff.
Qed.


Lemma floor_gt (x : Q) : x < JsMath.floor x + 1.
Proof.
  unfold JsMath.floor. pose proof (Qlt_floor x) as H.
  rewrite inject_Z_plus in H. exact H.
Qed.







End NumberFacts.

(** ** C6: execution prices *)



(** ** C4: the split-order planner *)

Section SplitFacts.

Import SplitPlanner.
Local Open Scope Q_scope.


Lemma ofNat_S (n : nat) : JsMath.ofNat (S n) == JsMath.ofNat n + 1.
Proof.
  unfold JsMath.ofNat. rewrite Nat2Z.inj_succ.
  unfold Z.succ. now rewrite inject_Z_plus.
Qed.









End SplitFacts.

Section SplitBounds.

Import SplitPlanner.
Local Open Scope Q_scope.






End SplitBounds.



(** ** C5, C8: the per-event handler *)

Section HandlerFacts.

Import CopyTrading.

Variable options : Options.
Variable service : TradingService.
Variable targets : list string.

Ltac run_monad :=
  cbv beta iota zeta
      delta [skip bind ret returnNow raise update emit call tryCatch fst snd] in *.

(** A trade that passes the filters leaves the statistics and the
    effects as they were. *)
Lemma filters_pass (trade : SmartMoneyTrade) (r r1 : Run) :
  filters options targets trade r = (r1, Next tt) -> r1 = r.
Proof.
  unfold filters. run_monad.
  destruct (negb (JsString.includes _ _)); [discriminate|].
  destruct (JsMath.ltb _ (minTradeSize options)); [discriminate|].
  destruct (sideFilter options) as [wanted|].
  - destruct (negb (Side_eqb (side trade) wanted)); [discriminate|].
    destruct (opt_priceRange options) as [[lo hi]|].
    + destruct (_ || _); [discriminate|].
      destruct (opt_tradeFilter options) as [f|].
      * destruct (f trade) as [[|]|]; simpl; intros H; try discriminate.
        now injection H as <-.
      * intros H. now injection H as <-.
    + destruct (opt_tradeFilter options) as [f|].
      * destruct (f trade) as [[|]|]; simpl; intros H; try discriminate.
        now injection H as <-.
      * intros H. now injection H as <-.
  - destruct (opt_priceRange options) as [[lo hi]|].
    + destruct (_ || _); [discriminate|].
      destruct (opt_tradeFilter options) as [f|].
      * destruct (f trade) as [[|]|]; simpl; intros H; try discriminate.
        now injection H as <-.
      * intros H. now injection H as <-.
    + destruct (opt_tradeFilter options) as [f|].
      * destruct (f trade) as [[|]|]; simpl; intros H; try discriminate.
        now injection H as <-.
      * intros H. now injection H as <-.
Qed.











End HandlerFacts.

(** C5.  copySize is max(5, detectedSize * sizeScale); when copySize *
    detectedPrice is above maxSizePerTrade, copySize becomes
    maxSizePerTrade / detectedPrice (the price being other than zero)
    and the value of the trade becomes the cap; otherwise both are
    kept.  A trade that passed the filters
    and whose resulting value is below 1 is skipped: the skip counter
    goes up by one, nothing else changes and no order is placed.  With
    detected size 1000, sizeScale 0.1, price 0.6 and maxSizePerTrade 50
    the copy size is 50 / 0.6 = 250/3 and the value 50. *)
Theorem copy_size_rules :
  (forall tradeSize tradePrice sizeScale maxSizePerTrade : Q,
      let raw := Qmax 5 (tradeSize * sizeScale) in
      let sizing := CopyTrading.copySizing tradeSize tradePrice sizeScale maxSizePerTrade in
      (5 <= raw)%Q /\ (tradeSize * sizeScale <= raw)%Q /\
      ((raw == 5)%Q \/ (raw == tradeSize * sizeScale)%Q) /\
      ((maxSizePerTrade < raw * tradePrice)%Q ->
       (snd sizing == maxSizePerTrade)%Q /\
       (~ (tradePrice == 0)%Q ->
        (fst sizing == maxSizePerTrade / tradePrice)%Q /\
        (fst sizing * tradePrice == maxSizePerTrade)%Q)) /\
      ((raw * tradePrice <= maxSizePerTrade)%Q ->
       (fst sizing == raw)%Q /\ (snd sizing == raw * tradePrice)%Q)) /\
  (let sizing := CopyTrading.copySizing 1000 (6 # 10) (1 # 10) 50 in
   (fst sizing == 50 / (6 # 10))%Q /\ (fst sizing == 250 # 3)%Q /\
   (snd sizing == 50)%Q) /\
  (forall (options : CopyTrading.Options) (service : CopyTrading.TradingService)
          (targets : list string) (trade : SmartMoneyTrade) (r : CopyTrading.Run),
      let started := {| CopyTrading.stats := CopyTrading.detected (CopyTrading.stats r);
                        CopyTrading.effects := CopyTrading.effects r |} in
      snd (CopyTrading.filters options targets trade started) = CopyTrading.Next tt ->
      (snd (CopyTrading.copySizing (size trade) (price trade)
              (CopyTrading.sizeScale options) (CopyTrading.maxSizePerTrade options))
       < 1)%Q ->
      let finished := fst (CopyTrading.runHandler options service targets trade r) in
      CopyTrading.runHandler options service targets trade r
      = ({| CopyTrading.stats :=
              CopyTrading.skipped (CopyTrading.detected (CopyTrading.stats r));
            CopyTrading.effects := CopyTrading.effects r |},
         CopyTrading.Fulfilled) /\
      CopyTrading.tradesSkipped (CopyTrading.stats finished)
      = S (CopyTrading.tradesSkipped (CopyTrading.stats r)) /\
      CopyTrading.tradesExecuted (CopyTrading.stats finished)
      = CopyTrading.tradesExecuted (CopyTrading.stats r) /\
      CopyTrading.tradesFailed (CopyTrading.stats finished)
      = CopyTrading.tradesFailed (CopyTrading.stats r) /\
      filter CopyTrading.isOrder (CopyTrading.effects finished)
      = filter CopyTrading.isOrder (CopyTrading.effects r)).
Proof.
  split; [|split].
  - intros tradeSize tradePrice sizeScale maxSizePerTrade raw sizing.
    split; [apply Q.le_max_l|]. split; [apply Q.le_max_r|].
    split.
    { destruct (Q.max_spec 5 (tradeSize * sizeScale)) as [[_ H]|[_ H]];
        [right | left]; exact H. }
    subst sizing. unfold CopyTrading.copySizing, CopyTrading.MIN_SHARES, JsMath.max.
    fold raw. unfold JsMath.gtb.
    destruct (JsMath.ltb maxSizePerTrade (raw * tradePrice)) eqn:E.
    + apply ltb_lt in E. split.
      * intros _. simpl. split; [reflexivity|].
        intros Hp. split; [reflexivity|]. field. exact Hp.
      * intros H. exfalso. apply (Qlt_not_le _ _ E H).
    + apply ltb_ge in E. split.
      * intros H. exfalso. apply (Qlt_not_le _ _ H E).
      * intros _. simpl. split; reflexivity.
  - cbv zeta. repeat split; reflexivity.
  - intros options service targets trade r started Hpass Hlow finished.
    assert (Hrun : CopyTrading.runHandler options service targets trade r
                   = ({| CopyTrading.stats :=
                           CopyTrading.skipped (CopyTrading.detected (CopyTrading.stats r));
                         CopyTrading.effects := CopyTrading.effects r |},
                      CopyTrading.Fulfilled)).
    { unfold CopyTrading.runHandler, CopyTrading.handler, CopyTrading.pipeline.
      unfold CopyTrading.bind at 1. unfold CopyTrading.update at 1.
      fold started. unfold CopyTrading.tryCatch. unfold CopyTrading.bind at 1.
      destruct (CopyTrading.filters options targets trade started) as [r1 flow] eqn:Ef.
      simpl in Hpass. subst flow.
      apply filters_pass in Ef as Hr1. subst r1.
      destruct (CopyTrading.copySizing _ _ _ _) as [copySize copyValue].
      simpl in Hlow. apply ltb_lt in Hlow.
      unfold CopyTrading.bind at 1. unfold CopyTrading.MIN_ORDER_SIZE.
      rewrite Hlow. reflexivity. }
    split; [exact Hrun|]. subst finished. rewrite Hrun. simpl.
    repeat split; reflexivity.
Qed.

Lemma copy_size_rules_witness :
  CopyTrading.tradesSkipped
    (CopyTrading.stats
       (fst (CopyTrading.runHandler
               (Samples.options (Some 1%Q))
               (Samples.exchange (Ok 100000000%Q) (Ok Samples.filled))
               ["0xaaa"%string]
               (Samples.trade BUY 20 (1 # 10))
               Samples.freshRun)))
  = 1.
Proof.
  destruct (proj2 (proj2 copy_size_rules)
              (Samples.options (Some 1%Q))
              (Samples.exchange (Ok 100000000%Q) (Ok Samples.filled))
              ["0xaaa"%string]
              (Samples.trade BUY 20 (1 # 10))
              Samples.freshRun) as (_ & H & _).
  - reflexivity.
  - vm_compute. reflexivity.
  - exact H.
Defined.




(** ** C7: the polling tick *)

Section PollingFacts.

Import PollingDetector.
Local Open Scope Z_scope.

Lemma insertDesc_perm (a : Activity) (l : list Activity) :
  Permutation (insertDesc a l) (a :: l).
Proof.
  induction l as [|b r IH]; simpl; [reflexivity|].
  destruct (a_timestamp b <=? a_timestamp a); [reflexivity|].
  rewrite IH. apply perm_swap.
Qed.

Lemma sort_perm (l : list Activity) : Permutation (sortByTimestampDesc l) l.
Proof.
  induction l as [|a r IH]; simpl; [reflexivity|].
  rewrite insertDesc_perm. now apply perm_skip.
Qed.

Lemma insertDesc_sorted (a : Activity) (l : list Activity) :
  StronglySorted newerFirst l -> StronglySorted newerFirst (insertDesc a l).
Proof.
  induction l as [|b r IH]; intros Hs; simpl.
  - constructor; [constructor | constructor].
  - inversion Hs as [|? ? Hr Hall]; subst.
    destruct (Z.leb_spec (a_timestamp b) (a_timestamp a)) as [Hle|Hgt].
    + constructor; [assumption|]. constructor; [exact Hle|].
      eapply Forall_impl; [|exact Hall].
      intros c Hc. unfold newerFirst in *. lia.
    + constructor; [now apply IH|].
      eapply Permutation_Forall.
      * symmetry. apply insertDesc_perm.
      * constructor; [unfold newerFirst; lia | assumption].
Qed.

Lemma sort_sorted (l : list Activity) :
  StronglySorted newerFirst (sortByTimestampDesc l).
Proof.
  induction l as [|a r IH]; simpl; [constructor|].
  now apply insertDesc_sorted.
Qed.

Lemma processActivity_frame (nowMs : Z) (s : Service) (a : Activity) :
  lastCheckTimestamp (processActivity nowMs s a) = lastCheckTimestamp s /\
  targetWallets (processActivity nowMs s a) = targetWallets s.
Proof.
  unfold processActivity.
  destruct (JsSet.has _ _); [now split|].
  destruct (activityToSmartMoneyTrade _ a); now split.
Qed.




End PollingFacts.




(** ** C9: teardown on the last unsubscribe *)

(** C9.  [unsubscribe] removes the subscriber's handler.  When no
    handler is left, the polling timer (if any) is cleared, the mempool
    socket (if any) is closed, and targetWallets,
    mempoolTargetAddresses and the seen-hash window are emptied.  When a
    handler is left, the timer, the socket, the tracked addresses and
    the window are as before and nothing is released. *)
Theorem unsubscribe_teardown :
  forall (handler : HandlerId) (s : Service),
    let s' := Subscription.unsubscribe handler s in
    tradeHandlers s' = filter (fun h => negb (Nat.eqb h handler)) (tradeHandlers s) /\
    ~ In handler (tradeHandlers s') /\
    (forall other, other <> handler ->
                   (In other (tradeHandlers s') <-> In other (tradeHandlers s))) /\
    (tradeHandlers s' = [] ->
     pollIntervalId s' = None /\
     mempoolWs s' = None /\
     targetWallets s' = [] /\
     mempoolTargetAddresses s' = JsSet.empty /\
     seenTxHashes s' = JsSet.empty /\
     released s'
     = released s
       ++ match pollIntervalId s with Some timer => [ClearInterval timer] | None => [] end
       ++ match mempoolWs s with Some socket => [CloseSocket socket] | None => [] end) /\
    (tradeHandlers s' <> [] ->
     pollIntervalId s' = pollIntervalId s /\
     mempoolWs s' = mempoolWs s /\
     targetWallets s' = targetWallets s /\
     mempoolTargetAddresses s' = mempoolTargetAddresses s /\
     seenTxHashes s' = seenTxHashes s /\
     released s' = released s).
Proof.
  intros handler s s'.
  assert (Hh : tradeHandlers s'
               = filter (fun h => negb (Nat.eqb h handler)) (tradeHandlers s)).
  { subst s'. unfold Subscription.unsubscribe.
    destruct (Nat.eqb _ 0); [|reflexivity].
    unfold Subscription.clearTracking, Subscription.stopMempoolMonitor,
      Subscription.stopPolling.
    simpl. destruct (pollIntervalId s); simpl; destruct (mempoolWs s); reflexivity. }
  split; [exact Hh|].
  split.
  { rewrite Hh, filter_In. intros [_ H]. now rewrite Nat.eqb_refl in H. }
  split.
  { intros other Hne. rewrite Hh, filter_In. split; [tauto|].
    intros H. split; [exact H|].
    apply negb_true_iff. now apply Nat.eqb_neq. }
  split.
  - intros Hempty. rewrite Hh in Hempty. subst s'.
    unfold Subscription.unsubscribe. simpl. rewrite Hempty. simpl.
    unfold Subscription.clearTracking, Subscription.stopMempoolMonitor,
      Subscription.stopPolling. simpl.
    destruct (pollIntervalId s) eqn:E1; simpl; destruct (mempoolWs s) eqn:E2; simpl;
      rewrite ?E1, ?E2, ?app_nil_r, <- ?app_assoc; repeat split; reflexivity.
  - intros Hleft. rewrite Hh in Hleft. subst s'.
    unfold Subscription.unsubscribe. simpl. revert Hleft.
    destruct (filter (fun h => negb (Nat.eqb h handler)) (tradeHandlers s))
      as [|h rest]; [intros Hleft; now contradict Hleft|].
    intros _. simpl. repeat split; reflexivity.
Qed.

Lemma unsubscribe_teardown_witness :
  targetWallets (Subscription.unsubscribe 0 Samples.service) = targetWallets Samples.service /\
  seenTxHashes (Subscription.unsubscribe 1 (Subscription.unsubscribe 0 Samples.service))
  = JsSet.empty.
Proof.
  split.
  - destruct (unsubscribe_teardown 0 Samples.service) as (_ & _ & _ & _ & H).
    destruct H as (_ & _ & H & _); [simpl; discriminate | exact H].
  - destruct (unsubscribe_teardown 1 (Subscription.unsubscribe 0 Samples.service))
      as (_ & _ & _ & H & _).
    destruct H as (_ & _ & _ & _ & H & _); [reflexivity | exact H].
Defined.

(** ** Subscriptions and the life of the detectors *)

Section SessionFacts.

Import Session.

Lemma fold_add_spec (l : list string) (f : string -> string) :
  forall acc : JsSet.t,
    NoDup acc ->
    let result := fold_left (fun a x => JsSet.add (f x) a) l acc in
    NoDup result /\
    (exists added, result = acc ++ added) /\
    (forall x, In x result <-> In x acc \/ In x (map f l)).
Proof.
  induction l as [|y l IH]; intros acc Hnd; simpl.
  - split; [assumption|]. split; [exists []; now rewrite app_nil_r|].
    intros x. tauto.
  - destruct (IH (JsSet.add (f y) acc) (add_NoDup (f y) acc Hnd))
      as (H1 & [added H2] & H3).
    split; [exact H1|]. split.
    + rewrite H2. unfold JsSet.add. destruct (JsSet.has (f y) acc).
      * now exists added.
      * exists ([f y] ++ added). now rewrite <- app_assoc.
    + intros x. rewrite H3. unfold JsSet.add.
      destruct (JsSet.has (f y) acc) eqn:E.
      * apply has_true_iff in E. split; [tauto|].
        intros [H|[<-|H]]; tauto.
      * rewrite in_app_iff. simpl. tauto.
Qed.

Lemma unique_spec (l1 l2 : list string) :
  NoDup l1 ->
  NoDup (unique (l1 ++ l2)) /\
  (exists added, unique (l1 ++ l2) = l1 ++ added) /\
  (forall x, In x (unique (l1 ++ l2)) <-> In x l1 \/ In x l2).
Proof.
  intros Hnd. unfold unique. rewrite fold_left_app.
  assert (H1 : fold_left (fun acc a => JsSet.add a acc) l1 JsSet.empty = l1).
  { pose proof (markAll_below l1) as _.
    clear l2. induction l1 as [|x l1 IH] using rev_ind; [reflexivity|].
    rewrite fold_left_app. simpl.
    assert (Hnd' : NoDup l1 /\ ~ In x l1).
    { apply NoDup_rev in Hnd. rewrite rev_app_distr in Hnd. simpl in Hnd.
      inversion Hnd; subst. split.
      - rewrite <- (rev_involutive l1). now apply NoDup_rev.
      - now rewrite in_rev. }
    destruct Hnd' as [Hnd' Hx]. rewrite IH by assumption.
    unfold JsSet.add. apply has_false_iff in Hx. now rewrite Hx. }
  rewrite H1.
  destruct (fold_add_spec l2 (fun x => x) l1 Hnd) as (Ha & Hb & Hc).
  split; [exact Ha|]. split; [exact Hb|].
  intros x. rewrite (Hc x), map_id. tauto.
Qed.

Lemma pollIntervalFor_mono (n k : nat) :
  n <= k -> (pollIntervalFor n <= pollIntervalFor k)%Z.
Proof.
  intros H. unfold pollIntervalFor.
  destruct (Nat.leb_spec n 10); destruct (Nat.leb_spec k 10);
    destruct (Nat.leb_spec n 30); destruct (Nat.leb_spec k 30); lia.
Qed.

Lemma startPolling_running (timer : nat) (m : Manager) :
  pollIntervalId (service m) <> None -> startPolling timer m = m.
Proof.
  intros H. unfold startPolling. destruct (pollIntervalId (service m)); congruence.
Qed.

Lemma startMempoolMonitor_frame (socket : nat) (m : Manager) :
  pollInterval (startMempoolMonitor socket m) = pollInterval m /\
  pollIntervalId (service (startMempoolMonitor socket m)) = pollIntervalId (service m) /\
  targetWallets (service (startMempoolMonitor socket m)) = targetWallets (service m) /\
  tradeHandlers (service (startMempoolMonitor socket m)) = tradeHandlers (service m) /\
  seenTxHashes (service (startMempoolMonitor socket m)) = seenTxHashes (service m).
Proof.
  unfold startMempoolMonitor. destruct (mempoolWs (service m)); [now repeat split|].
  destruct (String.eqb _ _); now repeat split.
Qed.

Lemma startPolling_frame (timer : nat) (m : Manager) :
  mempoolWs (service (startPolling timer m)) = mempoolWs (service m) /\
  mempoolTargetAddresses (service (startPolling timer m))
  = mempoolTargetAddresses (service m) /\
  targetWallets (service (startPolling timer m)) = targetWallets (service m) /\
  tradeHandlers (service (startPolling timer m)) = tradeHandlers (service m) /\
  seenTxHashes (service (startPolling timer m)) = seenTxHashes (service m).
Proof.
  unfold startPolling. destruct (pollIntervalId (service m)); now repeat split.
Qed.

End SessionFacts.

(** The poll interval is chosen when polling starts: 5000 ms up to 10
    wallets, 7000 ms up to 30, 10000 ms above, never shorter for more
    wallets.  While polling runs, a further subscription keeps the timer
    and the interval whatever addresses it adds. *)
Theorem poll_interval_fixed_at_start :
  (forall n : nat,
      (n <= 10 -> Session.pollIntervalFor n = 5000%Z) /\
      (10 < n -> n <= 30 -> Session.pollIntervalFor n = 7000%Z) /\
      (30 < n -> Session.pollIntervalFor n = 10000%Z)) /\
  (forall n k : nat,
      n <= k -> (Session.pollIntervalFor n <= Session.pollIntervalFor k)%Z) /\
  (forall (m : Session.Manager) (h : HandlerId) (timer socket : nat)
          (o : Session.SubscribeOptions),
      pollIntervalId (Session.service m) <> None ->
      Session.pollInterval (Session.subscribe h timer socket o m)
      = Session.pollInterval m /\
      pollIntervalId (Session.service (Session.subscribe h timer socket o m))
      = pollIntervalId (Session.service m)) /\
  (forall (m : Session.Manager) (h : HandlerId) (timer socket : nat)
          (o : Session.SubscribeOptions),
      pollIntervalId (Session.service m) = None ->
      Session.so_detectionMode o <> Some Session.ModeMempool ->
      let after := Session.subscribe h timer socket o m in
      pollIntervalId (Session.service after) = Some timer /\
      Session.pollInterval after
      = Session.pollIntervalFor (length (targetWallets (Session.service after)))).
Proof.
  split; [|split; [|split]].
  - intros n. unfold Session.pollIntervalFor.
    destruct (Nat.leb_spec n 10); destruct (Nat.leb_spec n 30);
      repeat split; intros; try lia; reflexivity.
  - apply pollIntervalFor_mono.
  - intros m h timer socket o Hrun. unfold Session.subscribe.
    set (m1 := Session.onService (Session.addHandler h) m).
    set (m2 := match Session.so_filterAddresses o with
               | Some (first :: rest) => _
               | _ => m1
               end).
    assert (H2 : pollIntervalId (Session.service m2) = pollIntervalId (Session.service m)
                 /\ Session.pollInterval m2 = Session.pollInterval m).
    { subst m2 m1. destruct (Session.so_filterAddresses o) as [[|first rest]|];
        now split. }
    destruct H2 as [H2 H3].
    destruct (Session.so_detectionMode o) as [[ | | ]|].
    + rewrite startPolling_running by congruence. now split.
    + destruct (startMempoolMonitor_frame socket m2) as (Ha & Hb & _).
      split; congruence.
    + destruct (startMempoolMonitor_frame socket m2) as (Ha & Hb & _).
      rewrite startPolling_running by congruence. split; congruence.
    + rewrite startPolling_running by congruence. now split.
  - intros m h timer socket o Hidle Hmode after. subst after.
    unfold Session.subscribe.
    set (m1 := Session.onService (Session.addHandler h) m).
    set (m2 := match Session.so_filterAddresses o with
               | Some (first :: rest) => _
               | _ => m1
               end).
    assert (H2 : pollIntervalId (Session.service m2) = None).
    { subst m2 m1. destruct (Session.so_filterAddresses o) as [[|first rest]|];
        exact Hidle. }
    assert (Hstart : forall m' : Session.Manager,
               pollIntervalId (Session.service m') = None ->
               pollIntervalId (Session.service (Session.startPolling timer m'))
               = Some timer /\
               Session.pollInterval (Session.startPolling timer m')
               = Session.pollIntervalFor
                   (length (targetWallets
                              (Session.service (Session.startPolling timer m'))))).
    { intros m' H. unfold Session.startPolling. rewrite H. now split. }
    destruct (Session.so_detectionMode o) as [[ | | ]|].
    + now apply Hstart.
    + congruence.
    + apply Hstart. destruct (startMempoolMonitor_frame socket m2) as (_ & Hb & _).
      congruence.
    + now apply Hstart.
Qed.

Lemma poll_interval_fixed_at_start_witness :
  Session.pollInterval
    (Session.subscribe 1 8 9
       {| Session.so_filterAddresses := Some (Samples.sampleHashes 40);
          Session.so_minSize := None; Session.so_smartMoneyOnly := None;
          Session.so_detectionMode := None |}
       (Session.subscribe 0 7 9
          {| Session.so_filterAddresses := Some ["0xAAA"%string];
             Session.so_minSize := None; Session.so_smartMoneyOnly := None;
             Session.so_detectionMode := None |}
          (Session.newManager 1000 EmptyString)))
  = 5000%Z.
Proof.
  destruct (proj1 (proj2 (proj2 poll_interval_fixed_at_start))
              (Session.subscribe 0 7 9
                 {| Session.so_filterAddresses := Some ["0xAAA"%string];
                    Session.so_minSize := None; Session.so_smartMoneyOnly := None;
                    Session.so_detectionMode := None |}
                 (Session.newManager 1000 EmptyString))
              1 8 9
              {| Session.so_filterAddresses := Some (Samples.sampleHashes 40);
                 Session.so_minSize := None; Session.so_smartMoneyOnly := None;
                 Session.so_detectionMode := None |}) as [H _].
  - simpl. discriminate.
  - rewrite H. reflexivity.
Defined.

Lemma subscribe_targets_after :
  forall (m : Session.Manager) (h : HandlerId) (timer socket : nat)
         (o : Session.SubscribeOptions),
    targetWallets (Session.service (Session.subscribe h timer socket o m))
    = match Session.so_filterAddresses o with
      | Some (first :: rest) =>
          Session.mergeTargets (targetWallets (Session.service m)) (first :: rest)
      | _ => targetWallets (Session.service m)
      end.
Proof.
  intros m h timer socket o. unfold Session.subscribe.
  set (m1 := Session.onService (Session.addHandler h) m).
  set (m2 := match Session.so_filterAddresses o with
             | Some (first :: rest) => _
             | _ => m1
             end).
  assert (H2 : targetWallets (Session.service m2)
               = match Session.so_filterAddresses o with
                 | Some (first :: rest) =>
                     Session.mergeTargets (targetWallets (Session.service m))
                       (first :: rest)
                 | _ => targetWallets (Session.service m)
                 end).
  { subst m2 m1. destruct (Session.so_filterAddresses o) as [[|first rest]|];
      reflexivity. }
  rewrite <- H2.
  destruct (Session.so_detectionMode o) as [[ | | ]|].
  - apply startPolling_frame.
  - apply startMempoolMonitor_frame.
  - destruct (startPolling_frame timer (Session.startMempoolMonitor socket m2))
      as (_ & _ & -> & _).
    apply startMempoolMonitor_frame.
  - apply startPolling_frame.
Qed.



(** A subscription with filter addresses adds them, lowercased, to the
    tracked wallets: the wallets tracked before stay where they were,
    the new ones follow, and no wallet is listed twice.  Without filter
    addresses the tracked wallets are unchanged. *)
Theorem subscribe_merges_targets :
  forall (m : Session.Manager) (h : HandlerId) (timer socket : nat)
         (o : Session.SubscribeOptions),
    NoDup (targetWallets (Session.service m)) ->
    let before := targetWallets (Session.service m) in
    let after := targetWallets (Session.service (Session.subscribe h timer socket o m)) in
    let wanted := match Session.so_filterAddresses o with
                  | Some addresses => map JsString.toLowerCase addresses
                  | None => []
                  end in
    NoDup after /\
    (exists added, after = before ++ added) /\
    (forall a, In a after <-> In a before \/ In a wanted) /\
    (wanted = [] -> after = before).
Proof.
  intros m h timer socket o Hnd before after wanted.
  subst wanted after. rewrite subscribe_targets_after. fold before.
  destruct (Session.so_filterAddresses o) as [[|first rest]|].
  - split; [exact Hnd|]. split; [exists []; now rewrite app_nil_r|].
    split; [intros a; simpl; tauto | reflexivity].
  - unfold Session.mergeTargets.
    destruct (unique_spec before (map JsString.toLowerCase (first :: rest)) Hnd)
      as (H1 & H2 & H3).
    split; [exact H1|]. split; [exact H2|]. split; [exact H3|].
    simpl. discriminate.
  - split; [exact Hnd|]. split; [exists []; now rewrite app_nil_r|].
    split; [intros a; simpl; tauto | reflexivity].
Qed.

Lemma subscribe_merges_targets_witness :
  targetWallets
    (Session.service
       (Session.subscribe 1 8 9
          {| Session.so_filterAddresses := Some ["0xBBB"; "0xAAA"]%string;
             Session.so_minSize := None; Session.so_smartMoneyOnly := None;
             Session.so_detectionMode := None |}
          (Session.subscribe 0 7 9
             {| Session.so_filterAddresses := Some ["0xAAA"%string];
                Session.so_minSize := None; Session.so_smartMoneyOnly := None;
                Session.so_detectionMode := None |}
             (Session.newManager 1000 EmptyString))))
  = ["0xaaa"; "0xbbb"]%string.
Proof.
  pose proof (subscribe_merges_targets
                (Session.subscribe 0 7 9
                   {| Session.so_filterAddresses := Some ["0xAAA"%string];
                      Session.so_minSize := None; Session.so_smartMoneyOnly := None;
                      Session.so_detectionMode := None |}
                   (Session.newManager 1000 EmptyString))
                1 8 9
                {| Session.so_filterAddresses := Some ["0xBBB"; "0xAAA"]%string;
                   Session.so_minSize := None; Session.so_smartMoneyOnly := None;
                   Session.so_detectionMode := None |}) as H.
  destruct H as (_ & [added Hadd] & _ & _).
  - simpl. apply NoDup_cons; [simpl; tauto | apply NoDup_nil].
  - rewrite Hadd. vm_compute in Hadd. vm_compute.
    destruct added as [|x [|y rest]]; try discriminate.
    injection Hadd as <-. reflexivity.
Defined.

(** The mempool detector takes its tracked addresses when the socket is
    opened.  While a socket is open a further subscription, whatever
    its mode and addresses, leaves the mempool's tracked set as it was
    and opens no second socket.  With no URL configured a mempool-mode
    subscription opens no socket, tracks nothing and starts no polling
    either.  When the socket is opened every tracked wallet, lowercased,
    is in the mempool's tracked set. *)
Theorem mempool_targets_fixed_at_connect :
  (forall (m : Session.Manager) (h : HandlerId) (timer socket : nat)
          (o : Session.SubscribeOptions),
      mempoolWs (Session.service m) <> None ->
      let after := Session.service (Session.subscribe h timer socket o m) in
      mempoolTargetAddresses after = mempoolTargetAddresses (Session.service m) /\
      mempoolWs after = mempoolWs (Session.service m)) /\
  (forall (m : Session.Manager) (h : HandlerId) (timer socket : nat)
          (o : Session.SubscribeOptions),
      Session.mempoolWssUrl m = EmptyString ->
      Session.so_detectionMode o = Some Session.ModeMempool ->
      let after := Session.service (Session.subscribe h timer socket o m) in
      mempoolWs after = mempoolWs (Session.service m) /\
      pollIntervalId after = pollIntervalId (Session.service m) /\
      mempoolTargetAddresses after = mempoolTargetAddresses (Session.service m)) /\
  (forall (m : Session.Manager) (h : HandlerId) (timer socket : nat)
          (o : Session.SubscribeOptions),
      mempoolWs (Session.service m) = None ->
      Session.mempoolWssUrl m <> EmptyString ->
      Session.so_detectionMode o = Some Session.ModeMempool \/
      Session.so_detectionMode o = Some Session.ModeDual ->
      NoDup (mempoolTargetAddresses (Session.service m)) ->
      let after := Session.service (Session.subscribe h timer socket o m) in
      mempoolWs after = Some socket /\
      NoDup (mempoolTargetAddresses after) /\
      forall wallet, In wallet (targetWallets after) ->
                     In (JsString.toLowerCase wallet) (mempoolTargetAddresses after)).
Proof.
  split; [|split].
  - intros m h timer socket o Hopen after. subst after. unfold Session.subscribe.
    set (m1 := Session.onService (Session.addHandler h) m).
    set (m2 := match Session.so_filterAddresses o with
               | Some (first :: rest) => _
               | _ => m1
               end).
    assert (H2 : mempoolWs (Session.service m2) = mempoolWs (Session.service m) /\
                 mempoolTargetAddresses (Session.service m2)
                 = mempoolTargetAddresses (Session.service m)).
    { subst m2 m1. destruct (Session.so_filterAddresses o) as [[|first rest]|];
        now split. }
    destruct H2 as [H2 H3].
    assert (Hm : Session.startMempoolMonitor socket m2 = m2).
    { unfold Session.startMempoolMonitor. rewrite H2.
      destruct (mempoolWs (Session.service m)); congruence. }
    destruct (Session.so_detectionMode o) as [[ | | ]|]; rewrite ?Hm;
      destruct (startPolling_frame timer m2) as (Ha & Hb & _);
      split; congruence.
  - intros m h timer socket o Hurl Hmode after. subst after.
    unfold Session.subscribe. rewrite Hmode.
    set (m1 := Session.onService (Session.addHandler h) m).
    set (m2 := match Session.so_filterAddresses o with
               | Some (first :: rest) => _
               | _ => m1
               end).
    assert (H2 : mempoolWs (Session.service m2) = mempoolWs (Session.service m) /\
                 mempoolTargetAddresses (Session.service m2)
                 = mempoolTargetAddresses (Session.service m) /\
                 pollIntervalId (Session.service m2) = pollIntervalId (Session.service m) /\
                 Session.mempoolWssUrl m2 = Session.mempoolWssUrl m).
    { subst m2 m1. destruct (Session.so_filterAddresses o) as [[|first rest]|];
        now repeat split. }
    destruct H2 as (H2 & H3 & H4 & H5).
    assert (Hm : Session.startMempoolMonitor socket m2 = m2).
    { unfold Session.startMempoolMonitor. rewrite H5, Hurl. simpl.
      now destruct (mempoolWs (Session.service m2)). }
    rewrite Hm. now repeat split.
  - intros m h timer socket o Hclosed Hurl Hmode Hnd after. subst after.
    unfold Session.subscribe.
    set (m1 := Session.onService (Session.addHandler h) m).
    set (m2 := match Session.so_filterAddresses o with
               | Some (first :: rest) => _
               | _ => m1
               end).
    assert (H2 : mempoolWs (Session.service m2) = None /\
                 mempoolTargetAddresses (Session.service m2)
                 = mempoolTargetAddresses (Session.service m) /\
                 Session.mempoolWssUrl m2 = Session.mempoolWssUrl m).
    { subst m2 m1. destruct (Session.so_filterAddresses o) as [[|first rest]|];
        now repeat split. }
    destruct H2 as (H2 & H3 & H5).
    assert (Hm : mempoolWs (Session.service (Session.startMempoolMonitor socket m2))
                 = Some socket /\
                 mempoolTargetAddresses
                   (Session.service (Session.startMempoolMonitor socket m2))
                 = Session.syncTargets (targetWallets (Session.service m2))
                     (mempoolTargetAddresses (Session.service m))).
    { unfold Session.startMempoolMonitor. rewrite H2, H5.
      destruct (String.eqb_spec (Session.mempoolWssUrl m) EmptyString) as [E|_];
        [contradiction|]. simpl. rewrite H3. now split. }
    destruct Hm as [Hm1 Hm2].
    destruct (fold_add_spec (targetWallets (Session.service m2)) JsString.toLowerCase
                (mempoolTargetAddresses (Session.service m)) Hnd) as (Ha & _ & Hc).
    fold (Session.syncTargets (targetWallets (Session.service m2))
            (mempoolTargetAddresses (Session.service m))) in Ha, Hc.
    destruct (startMempoolMonitor_frame socket m2) as (_ & _ & Hw & _).
    destruct Hmode as [Hmode|Hmode]; rewrite Hmode.
    + split; [exact Hm1|]. rewrite Hm2. split; [exact Ha|].
      intros wallet Hin. apply Hc. right. apply in_map. now rewrite <- Hw.
    + destruct (startPolling_frame timer (Session.startMempoolMonitor socket m2))
        as (Hs1 & Hs2 & Hs3 & _).
      rewrite Hs1, Hs2, Hs3. split; [exact Hm1|]. rewrite Hm2. split; [exact Ha|].
      intros wallet Hin. apply Hc. right. apply in_map. now rewrite <- Hw.
Qed.

Lemma mempool_targets_fixed_at_connect_witness :
  mempoolTargetAddresses
    (Session.service
       (Session.subscribe 1 8 10
          {| Session.so_filterAddresses := Some ["0xBBB"%string];
             Session.so_minSize := None; Session.so_smartMoneyOnly := None;
             Session.so_detectionMode := Some Session.ModeMempool |}
          (Session.subscribe 0 7 9
             {| Session.so_filterAddresses := Some ["0xAAA"%string];
                Session.so_minSize := None; Session.so_smartMoneyOnly := None;
                Session.so_detectionMode := Some Session.ModeMempool |}
             (Session.newManager 1000 "wss://node"))))
  = ["0xaaa"%string].
Proof.
  destruct (proj1 mempool_targets_fixed_at_connect
              (Session.subscribe 0 7 9
                 {| Session.so_filterAddresses := Some ["0xAAA"%string];
                    Session.so_minSize := None; Session.so_smartMoneyOnly := None;
                    Session.so_detectionMode := Some Session.ModeMempool |}
                 (Session.newManager 1000 "wss://node"))
              1 8 10
              {| Session.so_filterAddresses := Some ["0xBBB"%string];
                 Session.so_minSize := None; Session.so_smartMoneyOnly := None;
                 Session.so_detectionMode := Some Session.ModeMempool |}) as [H _].
  - simpl. discriminate.
  - rewrite H. reflexivity.
Defined.

(** ** What the detectors dispatch *)

Section DispatchFacts.

Variable ROUTER_ADDRESSES : JsSet.t.
Variable MATCH_ORDERS_SELECTOR : string.
Variable decodeMatchOrdersCalldata : string -> option DecodedMatchOrders.
Variable extractTraderAddresses : DecodedMatchOrders -> list string.

Let matchSettlement :=
  matchTrackedSettlement ROUTER_ADDRESSES MATCH_ORDERS_SELECTOR
    decodeMatchOrdersCalldata extractTraderAddresses.
Let handleMessage :=
  handleMempoolMessage ROUTER_ADDRESSES MATCH_ORDERS_SELECTOR
    decodeMatchOrdersCalldata extractTraderAddresses.
Let run :=
  deliverAll ROUTER_ADDRESSES MATCH_ORDERS_SELECTOR
    decodeMatchOrdersCalldata extractTraderAddresses.

(** What a matched settlement is made of. *)
Lemma match_sound (s : Service) (data : option RpcMessage) (tx : PendingTx)
    (decoded : DecodedMatchOrders) (trader : string) :
  matchSettlement s data = Some (tx, decoded, trader) ->
  exists msg to input,
    data = Some msg /\ msg_params_result msg = Some tx /\
    tx_to tx = Some to /\ JsSet.has (JsString.toLowerCase to) ROUTER_ADDRESSES = true /\
    tx_input tx = Some input /\ String.prefix MATCH_ORDERS_SELECTOR input = true /\
    decodeMatchOrdersCalldata input = Some decoded /\
    In trader (extractTraderAddresses decoded) /\
    JsSet.has trader (mempoolTargetAddresses s) = true /\
    trader <> EmptyString.
Proof.
  unfold matchSettlement, matchTrackedSettlement.
  destruct data as [msg|]; [|discriminate].
  destruct (match msg_id msg with Some 1%Z => _ | _ => false end); [discriminate|].
  destruct (msg_params_result msg) as [tx'|] eqn:Em; [|discriminate].
  destruct (tx_to tx') as [to|] eqn:Eto; [|discriminate].
  destruct (negb (JsString.truthy (Some to))); [discriminate|].
  destruct (JsSet.has (JsString.toLowerCase to) ROUTER_ADDRESSES) eqn:Er;
    [|discriminate].
  simpl. destruct (tx_input tx') as [input|] eqn:Ein; [|discriminate].
  destruct (negb (JsString.truthy (Some input))); [discriminate|].
  destruct (String.prefix MATCH_ORDERS_SELECTOR input) eqn:Ep; [|discriminate].
  simpl. destruct (decodeMatchOrdersCalldata input) as [decoded'|] eqn:Ed;
    [|discriminate].
  destruct (find _ (extractTraderAddresses decoded')) as [t|] eqn:Ef; [|discriminate].
  destruct (String.eqb_spec t EmptyString) as [E|Hne]; [discriminate|].
  cbn [JsString.truthy negb]. destruct (String.eqb_spec t EmptyString); [contradiction|].
  simpl. intros H. injection H as <- <- <-.
  apply find_some in Ef as [Hin Hhas].
  exists msg, to, input. repeat split; try reflexivity; assumption.
Qed.


(** Without a tracked address no message changes anything. *)
Lemma handleMessage_untracked (s : Service) (data : option RpcMessage) (now : Z) :
  mempoolTargetAddresses s = [] -> handleMessage data now s = s.
Proof.
  intros Hm. unfold handleMessage, handleMempoolMessage.
  destruct (matchTrackedSettlement _ _ _ _ s data) as [[[tx decoded] trader]|] eqn:E;
    [|reflexivity].
  apply match_sound in E as (msg & to & input & _ & _ & _ & _ & _ & _ & _ & _ & Hhas & _).
  rewrite Hm in Hhas. discriminate.
Qed.

Lemma findTargetOrder_owner (decoded : DecodedMatchOrders) (trader : string) :
  let owns := fun o => String.eqb (o_maker o) trader || String.eqb (o_signer o) trader in
  (owns (takerOrder decoded) = true -> findTargetOrder decoded trader = takerOrder decoded) /\
  (existsb owns (takerOrder decoded :: makerOrders decoded) = true ->
   owns (findTargetOrder decoded trader) = true) /\
  (existsb owns (takerOrder decoded :: makerOrders decoded) = false ->
   findTargetOrder decoded trader = takerOrder decoded).
Proof.
  intros owns. unfold findTargetOrder. subst owns. cbv beta.
  rewrite <- negb_orb.
  destruct (String.eqb (o_maker (takerOrder decoded)) trader
            || String.eqb (o_signer (takerOrder decoded)) trader) eqn:Et; simpl.
  - repeat split; intros; try reflexivity; try assumption; try discriminate.
  - split; [discriminate|].
    destruct (find _ (makerOrders decoded)) as [o|] eqn:Ef.
    + apply find_some in Ef as [Hin Ho]. split; [intros _; exact Ho|].
      intros Hnone. exfalso.
      assert (Hex : existsb (fun o0 => String.eqb (o_maker o0) trader
                                       || String.eqb (o_signer o0) trader)
                      (makerOrders decoded) = true).
      { apply existsb_exists. now exists o. }
      simpl in Hnone. rewrite ?Et in Hnone. simpl in Hnone. congruence.
    + split; [|reflexivity]. intros Hex. exfalso.
      simpl in Hex. rewrite ?Et in Hex. simpl in Hex.
      apply existsb_exists in Hex as (o & Hin & Ho).
      apply (find_none _ _ Ef) in Hin. congruence.
Qed.

End DispatchFacts.

(** Every change the mempool handler makes is the dispatch of one trade
    of a tracked trader: the transaction goes to a router and starts
    with the selector, the trader is among the decoded traders and in
    the mempool's tracked set, and the trade, handed to every registered
    handler, names that trader, the transaction's hash, the detection
    time and the source 'mempool'.  Its token, side, price and size are
    those of the trader's own order when the taker order or a maker
    order is theirs (the taker order first); when none is, they are
    those of the taker order. *)
Theorem mempool_dispatches_only_tracked :
  forall (ROUTER_ADDRESSES : JsSet.t) (MATCH_ORDERS_SELECTOR : string)
         (decodeMatchOrdersCalldata : string -> option DecodedMatchOrders)
         (extractTraderAddresses : DecodedMatchOrders -> list string)
         (s : Service) (data : option RpcMessage) (now : Z),
    let s' := handleMempoolMessage ROUTER_ADDRESSES MATCH_ORDERS_SELECTOR
                decodeMatchOrdersCalldata extractTraderAddresses data now s in
    s' = s \/
    exists msg tx to input decoded trader trade,
      data = Some msg /\ msg_params_result msg = Some tx /\
      tx_to tx = Some to /\
      JsSet.has (JsString.toLowerCase to) ROUTER_ADDRESSES = true /\
      tx_input tx = Some input /\
      String.prefix MATCH_ORDERS_SELECTOR input = true /\
      decodeMatchOrdersCalldata input = Some decoded /\
      In trader (extractTraderAddresses decoded) /\
      JsSet.has trader (mempoolTargetAddresses s) = true /\
      invoked s' = invoked s ++ map (fun h => (h, trade)) (tradeHandlers s) /\
      traderAddress trade = trader /\
      txHash trade = tx_hash tx /\
      timestamp trade = now /\ detectedAt trade = Some now /\
      detectionSource trade = Some Mempool /\
      (let order := findTargetOrder decoded trader in
       let owns := fun o => String.eqb (o_maker o) trader
                            || String.eqb (o_signer o) trader in
       tokenId trade = Some (o_tokenId order) /\
       (price trade, size trade) = derivePriceSize order /\
       (existsb owns (takerOrder decoded :: makerOrders decoded) = true ->
        owns order = true) /\
       (owns (takerOrder decoded) = true -> order = takerOrder decoded) /\
       (existsb owns (takerOrder decoded :: makerOrders decoded) = false ->
        order = takerOrder decoded)) /\
      tradeHandlers s' = tradeHandlers s /\
      targetWallets s' = targetWallets s /\
      mempoolTargetAddresses s' = mempoolTargetAddresses s /\
      pollIntervalId s' = pollIntervalId s /\ mempoolWs s' = mempoolWs s /\
      lastCheckTimestamp s' = lastCheckTimestamp s.
Proof.
  intros R S dec ext s data now s'. subst s'. unfold handleMempoolMessage.
  destruct (matchTrackedSettlement R S dec ext s data) as [[[tx decoded] trader]|] eqn:Hm;
    [|now left].
  destruct (match_sound R S dec ext s data tx decoded trader Hm)
    as (msg & to & input & H1 & H2 & H3 & H4 & H5 & H6 & H7 & H8 & H9 & _).
  unfold dedupAndDispatch.
  destruct (JsString.truthy (tx_hash tx) && _); [now left|].
  right.
  destruct (findTargetOrder_owner decoded trader) as (Ho1 & Ho2 & Ho3).
  set (s1 := if JsString.truthy (tx_hash tx) then _ else s).
  exists msg, tx, to, input, decoded, trader,
    (mempoolTrade s1 now tx trader (findTargetOrder decoded trader)).
  assert (Hs1 : tradeHandlers s1 = tradeHandlers s /\ invoked s1 = invoked s /\
                targetWallets s1 = targetWallets s /\
                mempoolTargetAddresses s1 = mempoolTargetAddresses s /\
                pollIntervalId s1 = pollIntervalId s /\ mempoolWs s1 = mempoolWs s /\
                lastCheckTimestamp s1 = lastCheckTimestamp s).
  { subst s1. destruct (JsString.truthy (tx_hash tx)); now repeat split. }
  destruct Hs1 as (Ha & Hb & Hc & Hd & He & Hf & Hg).
  unfold mempoolTrade. destruct (derivePriceSize (findTargetOrder decoded trader))
    as [p sz] eqn:Eps.
  simpl. rewrite Ha, Hb.
  repeat split; try assumption; try reflexivity.
Qed.

(** Once the tracked sets are empty and no handler is registered (after
    the last unsubscribe or a disconnect), the detectors' input is
    inert: a mempool message leaves the service as it is, a polling
    tick issues no request and leaves it as it is, and whatever is still
    delivered calls no handler. *)
Theorem idle_service_ignores_input :
  forall (ROUTER_ADDRESSES : JsSet.t) (MATCH_ORDERS_SELECTOR : string)
         (decodeMatchOrdersCalldata : string -> option DecodedMatchOrders)
         (extractTraderAddresses : DecodedMatchOrders -> list string)
         (s : Service),
    Session.idle s ->
    (forall data now,
        handleMempoolMessage ROUTER_ADDRESSES MATCH_ORDERS_SELECTOR
          decodeMatchOrdersCalldata extractTraderAddresses data now s = s) /\
    (forall getActivity now nowMs,
        PollingDetector.pollTick getActivity now nowMs s = s /\
        snd (fst (PollingDetector.pollTargetWallets getActivity now s)) = []) /\
    (forall deliveries,
        invoked (deliverAll ROUTER_ADDRESSES MATCH_ORDERS_SELECTOR
                   decodeMatchOrdersCalldata extractTraderAddresses deliveries s)
        = invoked s).
Proof.
  intros R S dec ext s (Hh & _ & _ & Hw & Hm & _).
  split; [|split].
  - intros data now. now apply handleMessage_untracked.
  - intros getActivity now nowMs.
    unfold PollingDetector.pollTick, PollingDetector.pollTargetWallets.
    rewrite Hw. now split.
  - intros deliveries. unfold deliverAll. revert s Hh Hw Hm.
    induction deliveries as [|d ds IH]; intros s Hh Hw Hm; [reflexivity|].
    simpl.
    destruct d as [nowMs a | now data]; cbn [deliver].
    + destruct (step_frame R S dec ext s (FromPolling nowMs a)) as [Hf1 Hf2].
      cbn [deliver] in Hf1, Hf2.
      destruct (processActivity_frame nowMs s a) as [_ Hf3].
      rewrite IH; [|congruence|congruence|congruence].
      unfold PollingDetector.processActivity.
      destruct (JsSet.has _ _); [reflexivity|].
      destruct (PollingDetector.activityToSmartMoneyTrade _ a); [|reflexivity].
      simpl. rewrite Hh. simpl. now rewrite app_nil_r.
    + rewrite (handleMessage_untracked R S dec ext s data now Hm).
      now apply IH.
Qed.

Lemma idle_service_ignores_input_witness :
  invoked
    (deliverAll Samples.routers Samples.selector Samples.decoder Samples.traders
       [FromMempool 5 (Some (Samples.message (Some "0xhash"%string)));
        FromPolling 6 (Samples.activity "0xhash" 7)]
       (Session.service (Session.newManager 1000 "wss://node")))
  = [].
Proof.
  destruct (idle_service_ignores_input Samples.routers Samples.selector
              Samples.decoder Samples.traders
              (Session.service (Session.newManager 1000 "wss://node")))
    as (_ & _ & H).
  - now repeat split.
  - rewrite H. reflexivity.
Defined.

Section TickOrder.

Import PollingDetector.

Lemma activity_trade_fields (s : Service) (a : Activity) (t : SmartMoneyTrade) :
  activityToSmartMoneyTrade s a = Some t ->
  exists wallet,
    a_proxyWallet a = Some wallet /\
    traderAddress t = JsString.toLowerCase wallet /\
    txHash t = Some (a_transactionHash a) /\
    timestamp t = a_timestamp a /\
    size t = a_size a /\ price t = a_price a /\ side t = a_side a.
Proof.
  unfold activityToSmartMoneyTrade.
  destruct (a_proxyWallet a) as [wallet|]; [|discriminate].
  cbn [option_map].
  destruct (JsString.truthy _); [|discriminate].
  intros H. injection H as <-. exists wallet. now repeat split.
Qed.

Lemma processAll_trades (nowMs : Z) (l : list Activity) (s : Service) :
  StronglySorted newerFirst l ->
  exists trades,
    invoked (fold_left (processActivity nowMs) l s)
    = invoked s ++ batch (tradeHandlers s) trades /\
    StronglySorted newerTrade trades /\
    Forall (fun t =>
              detectionSource t = Some Polling /\ detectedAt t = Some nowMs /\
              exists a wallet,
                In a l /\ a_proxyWallet a = Some wallet /\
                traderAddress t = JsString.toLowerCase wallet /\
                txHash t = Some (a_transactionHash a) /\
                timestamp t = a_timestamp a /\
                size t = a_size a /\ price t = a_price a /\ side t = a_side a)
           trades.
Proof.
  revert s. induction l as [|a r IH]; intros s Hs.
  - exists []. simpl. rewrite app_nil_r. repeat split; constructor.
  - inversion Hs as [|? ? Hr Hall]; subst.
    simpl fold_left.
    destruct (IH (processActivity nowMs s a) Hr) as (trades & Hinv & Hsorted & Hall').
    assert (Hweak : Forall (fun t =>
              detectionSource t = Some Polling /\ detectedAt t = Some nowMs /\
              exists a0 wallet,
                In a0 (a :: r) /\ a_proxyWallet a0 = Some wallet /\
                traderAddress t = JsString.toLowerCase wallet /\
                txHash t = Some (a_transactionHash a0) /\
                timestamp t = a_timestamp a0 /\
                size t = a_size a0 /\ price t = a_price a0 /\ side t = a_side a0)
           trades).
    { eapply Forall_impl; [|exact Hall'].
      intros t (H1 & H2 & a0 & w & Hin & H). repeat split; try assumption.
      exists a0, w. split; [now right | exact H]. }
    rewrite Hinv. unfold processActivity.
    destruct (JsSet.has _ _); [exists trades; now repeat split|].
    destruct (activityToSmartMoneyTrade _ a) as [trade|] eqn:Et;
      [|exists trades; now repeat split].
    apply activity_trade_fields in Et as (wallet & Hw & Hf).
    exists (stampPolling nowMs trade :: trades). split; [|split].
    + unfold batch. simpl. rewrite <- app_assoc. reflexivity.
    + constructor; [assumption|].
      eapply Forall_impl; [|exact Hall'].
      intros t (_ & _ & a0 & w & Hin & _ & _ & _ & Ht & _).
      unfold newerTrade. simpl. rewrite Ht.
      destruct Hf as (_ & _ & Hts & _). rewrite Hts.
      rewrite Forall_forall in Hall. exact (Hall a0 Hin).
    + constructor; [|exact Hweak].
      simpl. repeat split.
      exists a, wallet. split; [now left|]. split; [exact Hw|]. exact Hf.
Qed.

End TickOrder.

(** Within one polling tick the handlers are called trade by trade,
    newest trade first, and for each trade in registration order.  Every
    trade called with comes from a record that the query returned for a
    tracked wallet at the tick's start time, carries that record's
    hash, time, size, price and side, the record's wallet in lower case,
    the source 'polling' and the tick's detection time; a wallet whose
    query failed contributes nothing and hides no other wallet's
    trades. *)
Theorem polling_tick_dispatches_newest_first :
  forall (getActivity : string -> Z -> Res (list Activity)) (now nowMs : Z)
         (s : Service),
    let s' := PollingDetector.pollTick getActivity now nowMs s in
    exists trades,
      invoked s' = invoked s ++ batch (tradeHandlers s) trades /\
      StronglySorted newerTrade trades /\
      Forall (fun t =>
                detectionSource t = Some Polling /\ detectedAt t = Some nowMs /\
                exists a wallet tracked activities,
                  In tracked (targetWallets s) /\
                  getActivity tracked (lastCheckTimestamp s) = Ok activities /\
                  In a activities /\
                  a_proxyWallet a = Some wallet /\
                  traderAddress t = JsString.toLowerCase wallet /\
                  txHash t = Some (a_transactionHash a) /\
                  timestamp t = a_timestamp a /\
                  size t = a_size a /\ price t = a_price a /\ side t = a_side a)
             trades.
Proof.
  intros getActivity now nowMs s s'. subst s'.
  unfold PollingDetector.pollTick, PollingDetector.pollTargetWallets.
  destruct (targetWallets s) as [|w ws] eqn:Ew.
  - exists []. simpl. rewrite app_nil_r. repeat split; constructor.
  - destruct (processAll_trades nowMs
                (PollingDetector.sortByTimestampDesc
                   (concat (map (PollingDetector.fetchWallet getActivity
                                   (lastCheckTimestamp s)) (w :: ws))))
                (with_lastCheckTimestamp
                   (Z.max (lastCheckTimestamp s) (now - PollingDetector.OVERLAP_SECONDS)) s)
                (sort_sorted _))
      as (trades & Hinv & Hsorted & Hall).
    exists trades. split; [exact Hinv|]. split; [exact Hsorted|].
    eapply Forall_impl; [|exact Hall].
    intros t (H1 & H2 & a & wallet & Hin & H).
    repeat split; try assumption.
    apply (Permutation_in _ (sort_perm _)) in Hin.
    apply in_concat in Hin as (acts & Hacts & Hin).
    apply in_map_iff in Hacts as (tracked & Hf & Htracked).
    unfold PollingDetector.fetchWallet in Hf.
    destruct (getActivity tracked (lastCheckTimestamp s)) as [activities|e] eqn:Eg.
    + subst acts. exists a, wallet, tracked, activities.
      repeat split; try assumption; apply H.
    + subst acts. destruct Hin.
Qed.

Section LifeCycleFacts.








End LifeCycleFacts.


(** ** The counters of a copy-trading session *)

Section CounterFacts.

Import CopyTrading HandlerLogic.

Variable options : Options.
Variable service : TradingService.
Variable targets : list string.

Lemma outcome_weaken {A} (N Rt E N' Rt' E' : Stats -> Stats -> Prop) (m : M A) :
  (forall s s', N s s' -> N' s s') ->
  (forall s s', Rt s s' -> Rt' s s') ->
  (forall s s', E s s' -> E' s s') ->
  outcome N Rt E m -> outcome N' Rt' E' m.
Proof.
  intros HN HR HE H r. specialize (H r).
  destruct (m r) as [r' [a| |e]]; auto.
Qed.

Lemma outcome_ret {A} (Rt E : Stats -> Stats -> Prop) (a : A) :
  outcome Same Rt E (ret a).
Proof. intros r. reflexivity. Qed.

Lemma outcome_call {A} (Rt : Stats -> Stats -> Prop) (x : Res A) :
  outcome Same Rt Same (call x).
Proof. intros r. destruct x; reflexivity. Qed.

Lemma outcome_emit (Rt E : Stats -> Stats -> Prop) (e : Effect) :
  outcome Same Rt E (emit e).
Proof. intros r. reflexivity. Qed.

Lemma outcome_returnNow {A} (N E : Stats -> Stats -> Prop) :
  outcome N Left E (@returnNow A).
Proof. intros r. now left. Qed.

Lemma outcome_skip {A} (N E : Stats -> Stats -> Prop) :
  outcome N Left E (@skip A).
Proof. intros r. right. now left. Qed.

Lemma outcome_bind {A B} (N Rt E : Stats -> Stats -> Prop) (m : M A) (k : A -> M B) :
  outcome Same Rt E m -> (forall a, outcome N Rt E (k a)) ->
  outcome N Rt E (bind m k).
Proof.
  intros Hm Hk r. unfold bind. specialize (Hm r).
  destruct (m r) as [r' [a| |e]]; try assumption.
  specialize (Hk a r'). unfold Same in Hm. rewrite Hm in Hk. exact Hk.
Qed.

Lemma outcome_try {A} (N Rt E : Stats -> Stats -> Prop) (m : M A) (h : Exn -> M A) :
  outcome N Rt Same m -> (forall e, outcome N Rt E (h e)) ->
  outcome N Rt E (tryCatch m h).
Proof.
  intros Hm Hh r. unfold tryCatch. specialize (Hm r).
  destruct (m r) as [r' [a| |e]]; try assumption.
  specialize (Hh e r'). unfold Same in Hm. rewrite Hm in Hh. exact Hh.
Qed.

Ltac outcome_steps :=
  repeat first
    [ apply outcome_ret
    | apply outcome_emit
    | apply outcome_call
    | apply outcome_skip
    | apply outcome_returnNow
    | apply outcome_bind; [|intros ?]
    | apply outcome_try; [|intros ?] ].

Lemma filters_outcome (trade : SmartMoneyTrade) :
  outcome Same Left Same (filters options targets trade).
Proof.
  unfold filters.
  apply outcome_bind; [destruct (negb _); outcome_steps|intros _].
  apply outcome_bind; [destruct (JsMath.ltb _ _); outcome_steps|intros _].
  apply outcome_bind;
    [destruct (sideFilter options) as [wanted|];
       [destruct (negb _)|]; outcome_steps|intros _].
  apply outcome_bind.
  - destruct (opt_priceRange options) as [[lo hi]|]; [|outcome_steps].
    destruct (_ || _); [|outcome_steps].
    intros r. right. now right.
  - intros _. destruct (opt_tradeFilter options) as [f|]; [|outcome_steps].
    apply outcome_bind; [outcome_steps|intros keep].
    destruct (negb keep); outcome_steps.
Qed.

Lemma fullPositionOverride_outcome (trade : SmartMoneyTrade) (token : string)
    (sizing : Q * Q) :
  outcome Same Left Same (fullPositionOverride options service trade token sizing).
Proof.
  unfold fullPositionOverride.
  destruct (_ && _); [|outcome_steps].
  apply outcome_try; [|intros e; outcome_steps].
  apply outcome_bind; [outcome_steps|intros _].
  apply outcome_bind; [outcome_steps|intros balance].
  destruct (JsMath.ltb _ _); outcome_steps.
Qed.

Lemma balancePreCheck_outcome (trade : SmartMoneyTrade) (usdcAmount : Q) :
  outcome Same Left Same (balancePreCheck options service trade usdcAmount).
Proof.
  unfold balancePreCheck.
  destruct (_ && _); [|outcome_steps].
  apply outcome_try; [|intros e; outcome_steps].
  apply outcome_bind; [outcome_steps|intros _].
  apply outcome_bind; [outcome_steps|intros balance].
  destruct (JsMath.ltb _ _); outcome_steps.
Qed.

Lemma preOrderCheck_outcome (trade : SmartMoneyTrade) :
  outcome Same Left Same (preOrderCheck options trade).
Proof.
  unfold preOrderCheck.
  destruct (opt_preOrderCheck options) as [check|]; [|outcome_steps].
  apply outcome_try; [|intros e; outcome_steps].
  apply outcome_bind; [outcome_steps|intros _].
  apply outcome_bind; [outcome_steps|intros proceed].
  destruct (negb proceed); outcome_steps.
Qed.

Lemma placeOnce_outcome (trade : SmartMoneyTrade) (token : string)
    (copySize usdcAmount : Q) (attempt : nat) :
  outcome Same Left Same
    (placeOnce options service trade token copySize usdcAmount attempt).
Proof.
  unfold placeOnce.
  destruct (orderMode options); [outcome_steps|].
  destruct (opt_orderManager options) as [placeOrder|].
  - destruct (Nat.eqb (splitCount options) 1).
    + apply outcome_bind; [outcome_steps|intros _].
      apply outcome_bind; [outcome_steps|intros handle].
      apply outcome_bind;
        [destruct (opt_onOrderPlaced options); outcome_steps|intros _].
      outcome_steps.
    + destruct (1 <? splitCount options); outcome_steps.
  - destruct (1 <? splitCount options); outcome_steps.
Qed.

Lemma attempts_outcome (place : nat -> M (OrderResult * bool)) :
  (forall attempt, outcome Same Left Same (place attempt)) ->
  forall remaining attempt,
    outcome Same Left Same (attempts options place remaining attempt).
Proof.
  intros Hplace remaining.
  induction remaining as [|n IH]; intros attempt; simpl.
  - apply outcome_bind; [apply Hplace|intros [result broke]].
    destruct broke; [outcome_steps|].
    destruct (success result || true) eqn:E; [outcome_steps|].
    now rewrite orb_true_r in E.
  - apply outcome_bind; [apply Hplace|intros [result broke]].
    destruct broke; [outcome_steps|].
    destruct (success result || false); [outcome_steps|].
    apply outcome_bind; [outcome_steps|intros _]. apply IH.
Qed.

Lemma execute_outcome (trade : SmartMoneyTrade) (token : string)
    (copySize usdcAmount : Q) :
  outcome Same Left Same (execute options service trade token copySize usdcAmount).
Proof.
  unfold execute. destruct (dryRun options); [outcome_steps|].
  apply attempts_outcome. intros attempt. apply placeOnce_outcome.
Qed.

Lemma settle_outcome (trade : SmartMoneyTrade) (result : OrderResult)
    (usdcAmount : Q) :
  outcome Settle Left Settle
    (updateStats options result usdcAmount ;;;
     match opt_onTrade options with
     | Some onTrade => emit (NotifyTrade result) ;;; call (onTrade trade result)
     | None => ret tt
     end).
Proof.
  intros r. unfold updateStats, bind, update, emit, call, ret, raise.
  destruct (negb _); [destruct (success result)|];
    destruct (opt_onTrade options) as [onTrade|];
    try destruct (onTrade trade result) as [[]|e]; simpl;
    unfold Settle; eauto.
Qed.

Lemma pipeline_outcome (trade : SmartMoneyTrade) :
  outcome Settle Left Settle (pipeline options service targets trade).
Proof.
  unfold pipeline.
  assert (Hs : forall s s', Same s s' -> Settle s s') by (intros s s' H; now left).
  apply outcome_bind;
    [eapply outcome_weaken; [| | |apply filters_outcome]; auto|intros _].
  destruct (copySizing _ _ _ _) as [copySize0 copyValue0].
  apply outcome_bind; [destruct (JsMath.ltb _ _); outcome_steps|intros _].
  apply outcome_bind; [destruct (JsMath.gtb _ _); outcome_steps|intros _].
  destruct (tokenId trade) as [token|]; [|outcome_steps].
  destruct (negb _); [outcome_steps|].
  apply outcome_bind;
    [eapply outcome_weaken; [| | |apply fullPositionOverride_outcome]; auto
    |intros [copySize copyValue]].
  apply outcome_bind;
    [eapply outcome_weaken; [| | |apply balancePreCheck_outcome]; auto|intros _].
  apply outcome_bind;
    [eapply outcome_weaken; [| | |apply preOrderCheck_outcome]; auto|intros _].
  apply outcome_bind;
    [eapply outcome_weaken; [| | |apply execute_outcome]; auto|intros result].
  apply settle_outcome.
Qed.

(** The counters after one call of the handler, case by case. *)
Lemma handler_cases (trade : SmartMoneyTrade) (r : Run) :
  let s := detected (stats r) in
  let s' := stats (fst (handler options service targets trade r)) in
  s' = s \/ s' = skipped s \/ s' = priceFiltered (skipped s) \/
  (exists u, s' = executed u s) \/ s' = failed s \/
  (exists u, s' = failed (executed u s)) \/ s' = failed (failed s).
Proof.
  cbv zeta. unfold handler, bind, update.
  cbv beta iota.
  set (r0 := {| stats := detected (stats r); effects := effects r |}).
  pose proof (pipeline_outcome trade r0) as H.
  unfold tryCatch.
  destruct (pipeline options service targets trade r0) as [r1 [[]| |e]]; simpl in *.
  - destruct H as [H|[[u H]|H]]; rewrite H; eauto 10.
  - destruct H as [H|[H|H]]; rewrite H; eauto 10.
  - unfold onFailure, bind, update. cbv beta iota.
    assert (Hf : forall r2 f,
               stats (fst (match opt_onError options with
                           | Some onError =>
                               fun r3 =>
                                 match emit (NotifyError e) r3 with
                                 | (r', Next _) => call (onError e) r'
                                 | (r', Returned) => (r', Returned)
                                 | (r', Raised e0) => (r', Raised e0)
                                 end
                           | None => ret tt
                           end {| stats := f; effects := r2 |})) = f).
    { intros r2 f. destruct (opt_onError options) as [onError|]; [|reflexivity].
      simpl. destruct (onError e); reflexivity. }
    rewrite Hf.
    destruct H as [H|[[u H]|H]]; rewrite H; eauto 10.
Qed.

End CounterFacts.

(** One call of the copy-trading handler counts the trade as detected
    exactly once and never lowers a counter.  It is counted at most once
    as skipped or executed, never both; a skipped trade is not counted
    as failed; the price-filter counter moves only together with the
    skip counter; the amount spent moves only when the trade is counted
    as executed.  The failure counter can move by two, and a trade can
    be counted as executed and as failed at once: the counter is raised
    for a failed order and again when the onTrade callback throws. *)
Theorem handler_counters :
  (forall (options : CopyTrading.Options) (service : CopyTrading.TradingService)
          (targets : list string) (trade : SmartMoneyTrade) (r : CopyTrading.Run),
      let s := CopyTrading.stats r in
      let s' := CopyTrading.stats
                  (fst (CopyTrading.handler options service targets trade r)) in
      let skippedBy := CopyTrading.tradesSkipped s' - CopyTrading.tradesSkipped s in
      let executedBy := CopyTrading.tradesExecuted s' - CopyTrading.tradesExecuted s in
      let failedBy := CopyTrading.tradesFailed s' - CopyTrading.tradesFailed s in
      let filteredBy := CopyTrading.filteredByPrice s' - CopyTrading.filteredByPrice s in
      CopyTrading.tradesDetected s' = S (CopyTrading.tradesDetected s) /\
      CopyTrading.tradesSkipped s <= CopyTrading.tradesSkipped s' /\
      CopyTrading.tradesExecuted s <= CopyTrading.tradesExecuted s' /\
      CopyTrading.tradesFailed s <= CopyTrading.tradesFailed s' /\
      CopyTrading.filteredByPrice s <= CopyTrading.filteredByPrice s' /\
      skippedBy + executedBy <= 1 /\
      failedBy <= 2 /\
      (skippedBy = 1 -> failedBy = 0) /\
      filteredBy <= skippedBy /\
      (executedBy = 0 ->
       CopyTrading.totalUsdcSpent s' = CopyTrading.totalUsdcSpent s)) /\
  (exists options service targets trade r,
      let s := CopyTrading.stats r in
      let s' := CopyTrading.stats
                  (fst (CopyTrading.handler options service targets trade r)) in
      CopyTrading.tradesFailed s' = 2 + CopyTrading.tradesFailed s) /\
  (exists options service targets trade r,
      let s := CopyTrading.stats r in
      let s' := CopyTrading.stats
                  (fst (CopyTrading.handler options service targets trade r)) in
      CopyTrading.tradesExecuted s' = 1 + CopyTrading.tradesExecuted s /\
      CopyTrading.tradesFailed s' = 1 + CopyTrading.tradesFailed s).
Proof.
  split; [|split].
  - intros options service targets trade r. cbv zeta.
    destruct (handler_cases options service targets trade r)
      as [H|[H|[H|[[u H]|[H|[[u H]|H]]]]]];
      rewrite H;
      cbv beta iota delta
        [CopyTrading.detected CopyTrading.skipped CopyTrading.failed
         CopyTrading.priceFiltered CopyTrading.executed
         CopyTrading.tradesDetected CopyTrading.tradesExecuted
         CopyTrading.tradesSkipped CopyTrading.tradesFailed
         CopyTrading.totalUsdcSpent CopyTrading.filteredByPrice];
      destruct (CopyTrading.stats r) as [d e sk f spent fp];
      repeat split; intros; try reflexivity; try lia.
  - exists (Scenarios.options None None None None (Some Scenarios.throwingCallback)),
      (Scenarios.flaky 10), ["0xaaa"%string], (Samples.trade BUY 200 (1 # 2)),
      Samples.freshRun.
    vm_compute. reflexivity.
  - exists (Scenarios.options None None None None (Some Scenarios.throwingCallback)),
      (Scenarios.flaky 0), ["0xaaa"%string], (Samples.trade BUY 200 (1 # 2)),
      Samples.freshRun.
    vm_compute. split; reflexivity.
Qed.

(** ** The effects of one call of the handler *)

Section EffectFacts.

Import CopyTrading HandlerLogic.

Variable options : Options.
Variable service : TradingService.
Variable targets : list string.

(** The kind of effect counted, and what one effect of each
    constructor costs at most. *)
Variable p : Effect -> bool.
Variables bSleep bBalance bCheck bOrder bPlaced bTrade bError : nat.

Let cost (e : Effect) : nat := if p e then 1 else 0.

Hypothesis cost_sleep : forall ms, cost (Sleep ms) <= bSleep.
Hypothesis cost_balance : forall a t, cost (BalanceQuery a t) <= bBalance.
Hypothesis cost_check : cost PreOrderCheck <= bCheck.
Hypothesis cost_market : forall k x, cost (PlaceMarketOrder k x) <= bOrder.
Hypothesis cost_limit : forall k x, cost (PlaceLimitOrder k x) <= bOrder.
Hypothesis cost_batch : forall k x, cost (PlaceBatchOrders k x) <= bOrder.
Hypothesis cost_manager : forall x, cost (ManagerPlaceOrder x) <= bOrder.
Hypothesis cost_placed : forall x, cost (NotifyOrderPlaced x) <= bPlaced.
Hypothesis cost_trade : forall x, cost (NotifyTrade x) <= bTrade.
Hypothesis cost_error : forall x, cost (NotifyError x) <= bError.

Lemma count_app (l1 l2 : list Effect) : count p (l1 ++ l2) = count p l1 + count p l2.
Proof. unfold count. now rewrite filter_app, length_app. Qed.

Lemma atMost_weaken {A} (n n' : nat) (m : M A) :
  n <= n' -> emitsAtMost p n m -> emitsAtMost p n' m.
Proof.
  intros Hle H r. destruct (H r) as (added & Heq & Hc).
  exists added. split; [exact Heq|lia].
Qed.

Lemma atMost_ret {A} (a : A) : emitsAtMost p 0 (ret a).
Proof. intros r. exists []. simpl. now rewrite app_nil_r. Qed.

Lemma atMost_returnNow {A} : emitsAtMost p 0 (@returnNow A).
Proof. intros r. exists []. simpl. now rewrite app_nil_r. Qed.

Lemma atMost_call {A} (x : Res A) : emitsAtMost p 0 (call x).
Proof. intros r. exists []. destruct x; simpl; now rewrite app_nil_r. Qed.

Lemma atMost_update (f : Stats -> Stats) : emitsAtMost p 0 (update f).
Proof. intros r. exists []. simpl. now rewrite app_nil_r. Qed.

Lemma atMost_emit (e : Effect) : emitsAtMost p (cost e) (emit e).
Proof.
  intros r. exists [e]. split; [reflexivity|].
  unfold count, cost. simpl. destruct (p e); simpl; lia.
Qed.

Lemma atMost_bind {A B} (n k : nat) (m : M A) (f : A -> M B) :
  emitsAtMost p n m -> (forall a, emitsAtMost p k (f a)) ->
  emitsAtMost p (n + k) (bind m f).
Proof.
  intros Hm Hf r. unfold bind. destruct (Hm r) as (l1 & H1 & C1).
  destruct (m r) as [r' [a| |e]]; simpl in H1.
  - destruct (Hf a r') as (l2 & H2 & C2).
    exists (l1 ++ l2). rewrite H2, H1, app_assoc, count_app. split; [reflexivity|lia].
  - exists l1. simpl. split; [exact H1|lia].
  - exists l1. simpl. split; [exact H1|lia].
Qed.

Lemma atMost_try {A} (n k : nat) (m : M A) (h : Exn -> M A) :
  emitsAtMost p n m -> (forall e, emitsAtMost p k (h e)) ->
  emitsAtMost p (n + k) (tryCatch m h).
Proof.
  intros Hm Hh r. unfold tryCatch. destruct (Hm r) as (l1 & H1 & C1).
  destruct (m r) as [r' [a| |e]]; simpl in H1.
  - exists l1. simpl. split; [exact H1|lia].
  - exists l1. simpl. split; [exact H1|lia].
  - destruct (Hh e r') as (l2 & H2 & C2).
    exists (l1 ++ l2). rewrite H2, H1, app_assoc, count_app. split; [reflexivity|lia].
Qed.

Lemma atMost_skip {A} : emitsAtMost p 0 (@skip A).
Proof. apply (atMost_bind 0 0); [apply atMost_update|intros _; apply atMost_returnNow]. Qed.

Lemma atMost_emit_le (e : Effect) (n : nat) : cost e <= n -> emitsAtMost p n (emit e).
Proof. intros H. eapply atMost_weaken; [exact H|apply atMost_emit]. Qed.

Ltac silent :=
  repeat first
    [ apply atMost_ret | apply atMost_call | apply atMost_update
    | apply atMost_returnNow | apply atMost_skip
    | apply (atMost_bind 0 0); [|intros ?]
    | apply (atMost_try 0 0); [|intros ?] ].

Lemma filters_silent (trade : SmartMoneyTrade) :
  emitsAtMost p 0 (filters options targets trade).
Proof.
  unfold filters.
  apply (atMost_bind 0 0); [destruct (negb _); silent|intros _].
  apply (atMost_bind 0 0); [destruct (JsMath.ltb _ _); silent|intros _].
  apply (atMost_bind 0 0);
    [destruct (sideFilter options) as [wanted|];
       [destruct (negb _)|]; silent|intros _].
  apply (atMost_bind 0 0).
  - destruct (opt_priceRange options) as [[lo hi]|]; [|silent].
    destruct (_ || _); silent.
  - intros _. destruct (opt_tradeFilter options) as [f|]; [|silent].
    apply (atMost_bind 0 0); [silent|intros keep].
    destruct (negb keep); silent.
Qed.

Lemma fullPositionOverride_budget (trade : SmartMoneyTrade) (token : string)
    (sizing : Q * Q) :
  emitsAtMost p
    (if negb (dryRun options) && Side_eqb (side trade) SELL then bBalance else 0)
    (fullPositionOverride options service trade token sizing).
Proof.
  unfold fullPositionOverride.
  destruct (negb (dryRun options) && Side_eqb (side trade) SELL); simpl;
    [|silent].
  destruct (opt_sellFullPosition options);
    [|eapply atMost_weaken; [|apply atMost_ret]; lia].
  eapply atMost_weaken; [|apply (atMost_try bBalance 0)]; [lia| |intros e; silent].
  eapply atMost_weaken; [|apply (atMost_bind bBalance 0)];
    [lia|apply atMost_emit_le, cost_balance|intros _].
  apply (atMost_bind 0 0); [silent|intros balance].
  destruct (JsMath.ltb _ _); silent.
Qed.

Lemma balancePreCheck_budget (trade : SmartMoneyTrade) (usdcAmount : Q) :
  emitsAtMost p
    (if negb (dryRun options) && Side_eqb (side trade) BUY then bBalance else 0)
    (balancePreCheck options service trade usdcAmount).
Proof.
  unfold balancePreCheck.
  destruct (negb (dryRun options) && Side_eqb (side trade) BUY); [|silent].
  eapply atMost_weaken; [|apply (atMost_try bBalance 0)]; [lia| |intros e; silent].
  eapply atMost_weaken; [|apply (atMost_bind bBalance 0)];
    [lia|apply atMost_emit_le, cost_balance|intros _].
  apply (atMost_bind 0 0); [silent|intros balance].
  destruct (JsMath.ltb _ _); silent.
Qed.

Lemma preOrderCheck_budget (trade : SmartMoneyTrade) :
  emitsAtMost p bCheck (preOrderCheck options trade).
Proof.
  unfold preOrderCheck.
  destruct (opt_preOrderCheck options) as [check|];
    [|eapply atMost_weaken; [|apply atMost_ret]; lia].
  eapply atMost_weaken; [|apply (atMost_try bCheck 0)]; [lia| |intros e; silent].
  eapply atMost_weaken; [|apply (atMost_bind bCheck 0)];
    [lia|apply atMost_emit_le, cost_check|intros _].
  apply (atMost_bind 0 0); [silent|intros proceed].
  destruct (negb proceed); silent.
Qed.

Lemma placeOnce_budget (trade : SmartMoneyTrade) (token : string)
    (copySize usdcAmount : Q) (attempt : nat) :
  emitsAtMost p (bOrder + bPlaced)
    (placeOnce options service trade token copySize usdcAmount attempt).
Proof.
  unfold placeOnce.
  assert (Hdirect : forall e (x : Res OrderResult),
             cost e <= bOrder ->
             emitsAtMost p (bOrder + bPlaced)
               (emit e ;;; result <- call x ;; ret (result, false))).
  { intros e x He.
    eapply atMost_weaken; [|apply (atMost_bind bOrder 0)];
      [lia|apply atMost_emit_le, He|intros _]. silent. }
  assert (Hsplit :
            emitsAtMost p (bOrder + bPlaced)
              (result <-
                 tryCatch
                   (orders <- call (SplitPlanner.createSplitOrders
                                      {| SplitPlanner.sp_tokenId := token;
                                         SplitPlanner.sp_side := side trade;
                                         SplitPlanner.sp_basePrice := price trade;
                                         SplitPlanner.sp_totalSize := copySize;
                                         SplitPlanner.sp_splitCount := splitCount options;
                                         SplitPlanner.sp_splitSpread := splitSpread options;
                                         SplitPlanner.sp_limitPriceOffset :=
                                           limitPriceOffset options;
                                         SplitPlanner.sp_orderType :=
                                           Some (limitOrderType options) |}) ;;
                    emit (PlaceBatchOrders attempt orders) ;;;
                    call (createBatchOrders service attempt orders))
                   (fun error =>
                      ret {| success := false; orderId := None;
                             errorMsg := Some error |}) ;;
               ret (result, false))).
  { eapply atMost_weaken; [|apply (atMost_bind bOrder 0)]; [lia| |intros ?; silent].
    eapply atMost_weaken; [|apply (atMost_try bOrder 0)]; [lia| |intros ?; silent].
    eapply atMost_weaken; [|apply (atMost_bind 0 bOrder)]; [lia|silent|intros orders].
    eapply atMost_weaken; [|apply (atMost_bind bOrder 0)];
      [lia|apply atMost_emit_le, cost_batch|intros _; silent]. }
  destruct (orderMode options); [apply Hdirect, cost_market|].
  destruct (opt_orderManager options) as [placeOrder|].
  - destruct (Nat.eqb (splitCount options) 1).
    + eapply atMost_weaken; [|apply (atMost_bind bOrder bPlaced)];
        [lia|apply atMost_emit_le, cost_manager|intros _].
      apply (atMost_bind 0 bPlaced); [silent|intros handle].
      eapply atMost_weaken; [|apply (atMost_bind bPlaced 0)]; [lia| |intros _; silent].
      destruct (opt_onOrderPlaced options) as [cb|];
        [|eapply atMost_weaken; [|apply atMost_ret]; lia].
      eapply atMost_weaken; [|apply (atMost_bind bPlaced 0)];
        [lia|apply atMost_emit_le, cost_placed|intros _; silent].
    + destruct (1 <? splitCount options); [exact Hsplit|apply Hdirect, cost_limit].
  - destruct (1 <? splitCount options); [exact Hsplit|apply Hdirect, cost_limit].
Qed.

Lemma attempts_budget (place : nat -> M (OrderResult * bool)) (b : nat) :
  (forall attempt, emitsAtMost p b (place attempt)) ->
  forall remaining attempt,
    emitsAtMost p (S remaining * b + remaining * bSleep)
      (attempts options place remaining attempt).
Proof.
  intros Hplace remaining.
  induction remaining as [|n IH]; intros attempt; simpl attempts.
  - eapply atMost_weaken; [|apply (atMost_bind b 0)];
      [lia|apply Hplace|intros [result broke]].
    destruct broke; [silent|].
    destruct (success result || true) eqn:E; [silent|].
    now rewrite orb_true_r in E.
  - eapply atMost_weaken; [|apply (atMost_bind b (bSleep + (S n * b + n * bSleep)))];
      [lia|apply Hplace|intros [result broke]].
    destruct broke; [eapply atMost_weaken; [|apply atMost_ret]; lia|].
    destruct (success result || false);
      [eapply atMost_weaken; [|apply atMost_ret]; lia|].
    apply atMost_bind; [apply atMost_emit_le, cost_sleep|intros _]. apply IH.
Qed.

Lemma execute_budget (trade : SmartMoneyTrade) (token : string)
    (copySize usdcAmount : Q) :
  emitsAtMost p
    (if dryRun options then 0
     else S (retryCount options) * (bOrder + bPlaced) + retryCount options * bSleep)
    (execute options service trade token copySize usdcAmount).
Proof.
  unfold execute. destruct (dryRun options); [silent|].
  apply attempts_budget. intros attempt. apply placeOnce_budget.
Qed.

Lemma pipeline_budget (trade : SmartMoneyTrade) :
  emitsAtMost p
    (bSleep
     + ((if negb (dryRun options) && Side_eqb (side trade) SELL then bBalance else 0)
        + ((if negb (dryRun options) && Side_eqb (side trade) BUY then bBalance else 0)
           + (bCheck
              + ((if dryRun options then 0
                  else S (retryCount options) * (bOrder + bPlaced)
                       + retryCount options * bSleep)
                 + bTrade)))))
    (pipeline options service targets trade).
Proof.
  unfold pipeline.
  apply (atMost_bind 0); [apply filters_silent|intros _].
  destruct (copySizing _ _ _ _) as [copySize0 copyValue0].
  apply (atMost_bind 0); [destruct (JsMath.ltb _ _); silent|intros _].
  apply atMost_bind;
    [destruct (JsMath.gtb _ _);
       [apply atMost_emit_le, cost_sleep
       |eapply atMost_weaken; [|apply atMost_ret]; lia]
    |intros _].
  destruct (tokenId trade) as [token|];
    [|eapply atMost_weaken; [|apply atMost_skip]; lia].
  destruct (negb (JsString.truthy _));
    [eapply atMost_weaken; [|apply atMost_skip]; lia|].
  apply atMost_bind; [apply fullPositionOverride_budget|intros [copySize copyValue]].
  apply atMost_bind; [apply balancePreCheck_budget|intros _].
  apply atMost_bind; [apply preOrderCheck_budget|intros _].
  apply atMost_bind; [apply execute_budget|intros result].
  apply (atMost_bind 0); [unfold updateStats|intros _].
  - destruct (negb _); [destruct (success result)|]; silent.
  - destruct (opt_onTrade options) as [onTrade|];
      [|eapply atMost_weaken; [|apply atMost_ret]; lia].
    eapply atMost_weaken; [|apply (atMost_bind bTrade 0)];
      [lia|apply atMost_emit_le, cost_trade|intros _; silent].
Qed.

Lemma handler_budget (trade : SmartMoneyTrade) :
  emitsAtMost p
    ((bSleep
     + ((if negb (dryRun options) && Side_eqb (side trade) SELL then bBalance else 0)
        + ((if negb (dryRun options) && Side_eqb (side trade) BUY then bBalance else 0)
           + (bCheck
              + ((if dryRun options then 0
                  else S (retryCount options) * (bOrder + bPlaced)
                       + retryCount options * bSleep)
                 + bTrade))))) + bError)
    (handler options service targets trade).
Proof.
  unfold handler.
  apply (atMost_bind 0); [apply atMost_update|intros _].
  apply atMost_try; [apply pipeline_budget|intros e].
  unfold onFailure.
  apply (atMost_bind 0); [apply atMost_update|intros _].
  destruct (opt_onError options) as [onError|];
    [|eapply atMost_weaken; [|apply atMost_ret]; lia].
  eapply atMost_weaken; [|apply (atMost_bind bError 0)];
    [lia|apply atMost_emit_le, cost_error|intros _; silent].
Qed.

End EffectFacts.

(** Whatever the options, the exchange and the callbacks do, one call of
    the handler only adds to the effects, and adds at most
    [retryCount + 1] order placements, [retryCount + 1] waits (the
    configured delay and one wait between two attempts), one balance
    query, one onTrade notification and one onError notification. *)
Theorem handler_effect_budget :
  forall (options : CopyTrading.Options) (service : CopyTrading.TradingService)
         (targets : list string) (trade : SmartMoneyTrade) (r : CopyTrading.Run),
  exists added,
    CopyTrading.effects (fst (CopyTrading.handler options service targets trade r))
    = CopyTrading.effects r ++ added /\
    HandlerLogic.count CopyTrading.isOrder added <= S (CopyTrading.retryCount options) /\
    HandlerLogic.count HandlerLogic.isSleep added <= S (CopyTrading.retryCount options) /\
    HandlerLogic.count HandlerLogic.isBalanceQuery added <= 1 /\
    HandlerLogic.count HandlerLogic.isNotifyTrade added <= 1 /\
    HandlerLogic.count HandlerLogic.isNotifyError added <= 1.
Proof.
  intros options service targets trade r.
  destruct (handler_budget options service targets CopyTrading.isOrder
              0 0 0 1 0 0 0) with (trade := trade) (r := r)
    as (added & Heq & Horder); try (intros; simpl; lia).
  exists added. split; [exact Heq|].
  assert (Hsame : forall l,
             CopyTrading.effects
               (fst (CopyTrading.handler options service targets trade r))
             = CopyTrading.effects r ++ l -> l = added).
  { intros l Hl. rewrite Heq in Hl. now apply app_inv_head in Hl. }
  split; [|split; [|split; [|split]]].
  - destruct (CopyTrading.dryRun options), (side trade); simpl in Horder; lia.
  - destruct (handler_budget options service targets HandlerLogic.isSleep
                1 0 0 0 0 0 0) with (trade := trade) (r := r)
      as (l & Hl & Hc); try (intros; simpl; lia).
    apply Hsame in Hl. subst l.
    destruct (CopyTrading.dryRun options), (side trade); simpl in Hc; lia.
  - destruct (handler_budget options service targets HandlerLogic.isBalanceQuery
                0 1 0 0 0 0 0) with (trade := trade) (r := r)
      as (l & Hl & Hc); try (intros; simpl; lia).
    apply Hsame in Hl. subst l.
    destruct (CopyTrading.dryRun options), (side trade); simpl in Hc; lia.
  - destruct (handler_budget options service targets HandlerLogic.isNotifyTrade
                0 0 0 0 0 1 0) with (trade := trade) (r := r)
      as (l & Hl & Hc); try (intros; simpl; lia).
    apply Hsame in Hl. subst l.
    destruct (CopyTrading.dryRun options), (side trade); simpl in Hc; lia.
  - destruct (handler_budget options service targets HandlerLogic.isNotifyError
                0 0 0 0 0 0 1) with (trade := trade) (r := r)
      as (l & Hl & Hc); try (intros; simpl; lia).
    apply Hsame in Hl. subst l.
    destruct (CopyTrading.dryRun options), (side trade); simpl in Hc; lia.
Qed.

(** In a dry run the handler places no order of any kind and queries no
    balance, whatever the trade and the other options are. *)
Theorem dry_run_places_nothing :
  forall (options : CopyTrading.Options) (service : CopyTrading.TradingService)
         (targets : list string) (trade : SmartMoneyTrade) (r : CopyTrading.Run),
    CopyTrading.dryRun options = true ->
    exists added,
      CopyTrading.effects (fst (CopyTrading.handler options service targets trade r))
      = CopyTrading.effects r ++ added /\
      Forall (fun e => CopyTrading.isOrder e = false /\
                       HandlerLogic.isBalanceQuery e = false) added.
Proof.
  intros options service targets trade r Hdry.
  destruct (handler_budget options service targets
              (fun e => CopyTrading.isOrder e || HandlerLogic.isBalanceQuery e)
              0 1 0 1 0 0 0) with (trade := trade) (r := r)
    as (added & Heq & Hc); try (intros; simpl; lia).
  exists added. split; [exact Heq|].
  rewrite Hdry in Hc. simpl in Hc.
  assert (Hc0 : HandlerLogic.count (fun e => CopyTrading.isOrder e || HandlerLogic.isBalanceQuery e) added = 0) by lia.
  clear Hc. rename Hc0 into Hc.
  unfold HandlerLogic.count in Hc.
  assert (Hnil : filter (fun e => CopyTrading.isOrder e || HandlerLogic.isBalanceQuery e)
                   added = []).
  { destruct (filter _ added); [reflexivity|simpl in Hc; discriminate]. }
  apply Forall_forall. intros e Hin.
  destruct (CopyTrading.isOrder e || HandlerLogic.isBalanceQuery e) eqn:E.
  - assert (Hf : In e (filter (fun e => CopyTrading.isOrder e
                                        || HandlerLogic.isBalanceQuery e) added)).
    { apply filter_In. now split. }
    rewrite Hnil in Hf. destruct Hf.
  - now apply orb_false_iff in E.
Qed.

Lemma dry_run_places_nothing_witness :
  exists added,
    CopyTrading.effects
      (fst (CopyTrading.handler
              (Scenarios.options (Some true) None None None None)
              (Scenarios.flaky 0) ["0xaaa"%string]
              (Samples.trade SELL 200 (1 # 2)) Samples.freshRun))
    = CopyTrading.effects Samples.freshRun ++ added /\
    Forall (fun e => CopyTrading.isOrder e = false /\
                     HandlerLogic.isBalanceQuery e = false) added.
Proof.
  apply (dry_run_places_nothing
           (Scenarios.options (Some true) None None None None)
           (Scenarios.flaky 0) ["0xaaa"%string]
           (Samples.trade SELL 200 (1 # 2)) Samples.freshRun).
  reflexivity.
Defined.

(** ** The retry loop *)

Section RetryFacts.

Import CopyTrading HandlerLogic.

Variable options : Options.

(** A loop body that places one order and hands back what the exchange
    answers. *)
Variable place : nat -> M (OrderResult * bool).
Variable order : nat -> Effect.
Variable answer : nat -> Res OrderResult.

Hypothesis place_direct :
  forall k r,
    place k r
    = ({| stats := stats r; effects := effects r ++ [order k] |},
       match answer k with
       | Ok result => Next (result, false)
       | Throw e => Raised e
       end).

Lemma attempts_trace (j : nat) :
  forall remaining attempt r,
    j <= remaining ->
    (forall k, k < j ->
               exists result, answer (attempt + k) = Ok result /\ success result = false) ->
    let r' := {| stats := stats r;
                 effects := effects r
                            ++ retryTrace (retryDelay options) order attempt j |} in
    (forall result,
        answer (attempt + j) = Ok result ->
        success result = true \/ j = remaining ->
        attempts options place remaining attempt r = (r', Next result)) /\
    (forall e,
        answer (attempt + j) = Throw e ->
        attempts options place remaining attempt r = (r', Raised e)).
Proof.
  induction j as [|j IH]; intros remaining attempt r Hle Hfail; cbv zeta.
  - unfold retryTrace. simpl. rewrite Nat.add_0_r.
    split.
    + intros result Hans Hend.
      destruct remaining as [|n]; simpl; unfold bind; rewrite place_direct, Hans;
        cbv beta iota.
      * now rewrite orb_true_r.
      * destruct Hend as [Hs|Hz]; [|discriminate]. now rewrite Hs.
    + intros e Hans.
      destruct remaining as [|n]; simpl; unfold bind; rewrite place_direct, Hans;
        reflexivity.
  - destruct remaining as [|n]; [lia|].
    destruct (Hfail 0) as (first & Hfirst & Hfs); [lia|].
    rewrite Nat.add_0_r in Hfirst.
    assert (Hrest : forall k, k < j ->
                      exists result, answer (S attempt + k) = Ok result
                                     /\ success result = false).
    { intros k Hk. destruct (Hfail (S k)) as (x & Hx & Hxs); [lia|].
      exists x. split; [|exact Hxs]. now rewrite Nat.add_succ_comm. }
    set (r1 := {| stats := stats r;
                  effects := (effects r ++ [order attempt])
                             ++ [Sleep (retryDelay options)] |}).
    destruct (IH n (S attempt) r1 ltac:(lia) Hrest) as [Hok Hthrow].
    assert (Hstep : attempts options place (S n) attempt r
                    = attempts options place n (S attempt) r1).
    { simpl. unfold bind at 1. rewrite place_direct, Hfirst. cbv beta iota.
      rewrite Hfs. reflexivity. }
    assert (Htrace : effects r1 ++ retryTrace (retryDelay options) order (S attempt) j
                     = effects r ++ retryTrace (retryDelay options) order attempt (S j)).
    { unfold retryTrace, r1. simpl.
      rewrite <- !app_assoc. simpl. now rewrite Nat.add_succ_r. }
    split.
    + intros result Hans Hend. rewrite Hstep.
      rewrite (Hok result).
      * simpl stats. now rewrite Htrace.
      * now rewrite Nat.add_succ_comm.
      * destruct Hend as [Hs|Hz]; [now left|right; lia].
    + intros e Hans. rewrite Hstep.
      rewrite (Hthrow e).
      * simpl stats. now rewrite Htrace.
      * now rewrite Nat.add_succ_comm.
Qed.

End RetryFacts.

Section SplitRetry.

Import CopyTrading HandlerLogic.

Variable options : Options.
Variable place : nat -> M (OrderResult * bool).
Variable result : OrderResult.

Hypothesis place_fails : forall k r, place k r = (r, Next (result, false)).
Hypothesis result_fails : success result = false.

Lemma attempts_all_fail :
  forall remaining attempt r,
    attempts options place remaining attempt r
    = ({| stats := stats r;
          effects := effects r ++ repeat (Sleep (retryDelay options)) remaining |},
       Next result).
Proof.
  induction remaining as [|n IH]; intros attempt r; simpl;
    unfold bind at 1; rewrite place_fails; cbv beta iota; rewrite result_fails.
  - simpl. rewrite app_nil_r. now destruct r.
  - simpl. unfold bind, emit. cbv beta iota. rewrite IH. simpl.
    now rewrite <- app_assoc.
Qed.

End SplitRetry.

(** The retry loop of a market order: when the exchange answers the
    first [j] attempts with a failed result and attempt [j] with a
    successful one, or [j] is the last attempt allowed, the handler
    places exactly the attempts [0 .. j], waits [retryDelay] between two
    of them, and goes on with the answer to attempt [j].  An attempt the
    exchange answers by throwing ends the loop at once: an exception is
    not retried. *)
Theorem market_order_retry_trace :
  forall (options : CopyTrading.Options) (service : CopyTrading.TradingService)
         (trade : SmartMoneyTrade) (token : string) (copySize usdcAmount : Q)
         (r : CopyTrading.Run) (j : nat),
    CopyTrading.dryRun options = false ->
    CopyTrading.orderMode options = CopyTrading.MarketMode ->
    j <= CopyTrading.retryCount options ->
    let params := HandlerLogic.marketParams options trade token usdcAmount in
    (forall k, k < j ->
               exists result,
                 CopyTrading.createMarketOrder service k params = Ok result /\
                 CopyTrading.success result = false) ->
    let r' := {| CopyTrading.stats := CopyTrading.stats r;
                 CopyTrading.effects :=
                   CopyTrading.effects r
                   ++ HandlerLogic.retryTrace (CopyTrading.retryDelay options)
                        (fun k => CopyTrading.PlaceMarketOrder k params) 0 j |} in
    (forall result,
        CopyTrading.createMarketOrder service j params = Ok result ->
        CopyTrading.success result = true \/ j = CopyTrading.retryCount options ->
        CopyTrading.execute options service trade token copySize usdcAmount r
        = (r', CopyTrading.Next result)) /\
    (forall e,
        CopyTrading.createMarketOrder service j params = Throw e ->
        CopyTrading.execute options service trade token copySize usdcAmount r
        = (r', CopyTrading.Raised e)).
Proof.
  intros options service trade token copySize usdcAmount r j Hdry Hmode Hj params
    Hfail r'.
  unfold CopyTrading.execute. rewrite Hdry.
  assert (Hplace : forall k r0,
             CopyTrading.placeOnce options service trade token copySize usdcAmount k r0
             = ({| CopyTrading.stats := CopyTrading.stats r0;
                   CopyTrading.effects :=
                     CopyTrading.effects r0 ++ [CopyTrading.PlaceMarketOrder k params] |},
                match CopyTrading.createMarketOrder service k params with
                | Ok result => CopyTrading.Next (result, false)
                | Throw e => CopyTrading.Raised e
                end)).
  { intros k r0. unfold CopyTrading.placeOnce. rewrite Hmode.
    unfold CopyTrading.bind, CopyTrading.emit, CopyTrading.call. cbv beta iota.
    fold (HandlerLogic.marketParams options trade token usdcAmount). fold params.
    destruct (CopyTrading.createMarketOrder service k params); reflexivity. }
  exact (attempts_trace options
           (CopyTrading.placeOnce options service trade token copySize usdcAmount)
           (fun k => CopyTrading.PlaceMarketOrder k params)
           (fun k => CopyTrading.createMarketOrder service k params)
           Hplace j (CopyTrading.retryCount options) 0 r Hj Hfail).
Qed.

Lemma market_order_retry_trace_witness :
  CopyTrading.effects
    (fst (CopyTrading.execute
            (Scenarios.options None None None None None) (Scenarios.flaky 2)
            (Samples.trade BUY 200 (1 # 2)) "123" 20%Q 10%Q Samples.freshRun))
  = HandlerLogic.retryTrace 1000%Q
      (fun k => CopyTrading.PlaceMarketOrder k
                  (HandlerLogic.marketParams
                     (Scenarios.options None None None None None)
                     (Samples.trade BUY 200 (1 # 2)) "123" 10%Q)) 0 2.
Proof.
  destruct (market_order_retry_trace
              (Scenarios.options None None None None None) (Scenarios.flaky 2)
              (Samples.trade BUY 200 (1 # 2)) "123"%string 20%Q 10%Q
              Samples.freshRun 2) as [Hok _].
  - reflexivity.
  - reflexivity.
  - vm_compute. lia.
  - intros k Hk. exists Scenarios.rejected. split; [|reflexivity].
    destruct k as [|[|k]]; [reflexivity|reflexivity|lia].
  - rewrite (Hok Samples.filled); [reflexivity|reflexivity|now left].
Defined.

(** A split plan the planner rejects is not placed: every attempt
    fails on the same planner error before any order goes out, the
    handler still waits [retryDelay] after each attempt but the last,
    and goes on with a failed result carrying the planner's error.  A
    split count above fifteen is such a plan. *)
Theorem rejected_split_plan_is_retried :
  forall (options : CopyTrading.Options) (service : CopyTrading.TradingService)
         (trade : SmartMoneyTrade) (token : string) (copySize usdcAmount : Q)
         (r : CopyTrading.Run) (e : Exn),
    CopyTrading.dryRun options = false ->
    CopyTrading.orderMode options = CopyTrading.LimitMode ->
    1 < CopyTrading.splitCount options ->
    SplitPlanner.createSplitOrders
      (HandlerLogic.splitParams options trade token copySize) = Throw e ->
    CopyTrading.execute options service trade token copySize usdcAmount r
    = ({| CopyTrading.stats := CopyTrading.stats r;
          CopyTrading.effects :=
            CopyTrading.effects r
            ++ repeat (CopyTrading.Sleep (CopyTrading.retryDelay options))
                 (CopyTrading.retryCount options) |},
       CopyTrading.Next {| CopyTrading.success := false;
                           CopyTrading.orderId := None;
                           CopyTrading.errorMsg := Some e |}) /\
    (SplitPlanner.MAX_SPLIT < CopyTrading.splitCount options ->
     e = SplitCountExceedsMaximum (CopyTrading.splitCount options)).
Proof.
  intros options service trade token copySize usdcAmount r e Hdry Hmode Hsplit Hplan.
  split.
  - unfold CopyTrading.execute. rewrite Hdry.
    apply attempts_all_fail; [|reflexivity].
    intros k r0. unfold CopyTrading.placeOnce. rewrite Hmode.
    assert (Hne : Nat.eqb (CopyTrading.splitCount options) 1 = false)
      by (apply Nat.eqb_neq; lia).
    assert (Hlt : (1 <? CopyTrading.splitCount options) = true)
      by (now apply Nat.ltb_lt).
    unfold HandlerLogic.splitParams in Hplan.
    destruct (CopyTrading.opt_orderManager options) as [placeOrder|];
      rewrite ?Hne, Hlt;
      unfold CopyTrading.bind, CopyTrading.tryCatch, CopyTrading.call;
      rewrite Hplan; reflexivity.
  - intros Hmax. unfold SplitPlanner.createSplitOrders in Hplan.
    unfold HandlerLogic.splitParams in Hplan. cbn [SplitPlanner.sp_splitCount] in Hplan.
    apply Nat.ltb_lt in Hmax. rewrite Hmax in Hplan. congruence.
Qed.

Lemma rejected_split_plan_is_retried_witness :
  CopyTrading.effects
    (fst (CopyTrading.execute
            (Scenarios.options None (Some CopyTrading.LimitMode) (Some 16) (Some 2) None)
            (Scenarios.flaky 0)
            (Samples.trade BUY 200 (1 # 2)) "123" 20%Q 10%Q Samples.freshRun))
  = [CopyTrading.Sleep 1000%Q; CopyTrading.Sleep 1000%Q].
Proof.
  destruct (rejected_split_plan_is_retried
              (Scenarios.options None (Some CopyTrading.LimitMode) (Some 16) (Some 2) None)
              (Scenarios.flaky 0)
              (Samples.trade BUY 200 (1 # 2)) "123"%string 20%Q 10%Q
              Samples.freshRun (SplitCountExceedsMaximum 16)) as [H _].
  - reflexivity.
  - reflexivity.
  - vm_compute. lia.
  - reflexivity.
  - rewrite H. reflexivity.
Defined.

(** ** The subscription filter in front of the handler *)

Section SessionFilterFacts.

Import CopyTrading HandlerLogic.

Lemma lowerAscii_idem (c : ascii) :
  JsString.lowerAscii (JsString.lowerAscii c) = JsString.lowerAscii c.
Proof.
  destruct c as [[] [] [] [] [] [] [] []]; reflexivity.
Qed.

Lemma toLowerCase_idem (s : string) :
  JsString.toLowerCase (JsString.toLowerCase s) = JsString.toLowerCase s.
Proof.
  induction s as [|c s IH]; simpl; [reflexivity|].
  now rewrite lowerAscii_idem, IH.
Qed.

Lemma lowercased_map (l : list string) : lowercased l -> map JsString.toLowerCase l = l.
Proof.
  induction 1 as [|a l Ha Hl IH]; simpl; [reflexivity|]. now rewrite Ha, IH.
Qed.

Lemma buildTargets_lowercased (given top : option (list string)) (targets : list string) :
  match top with Some l => lowercased l | None => True end ->
  buildTargets given top = Ok targets ->
  targets <> [] /\ lowercased targets.
Proof.
  intros Htop. unfold buildTargets.
  set (g := match given with Some (first :: rest) => _ | _ => [] end).
  assert (Hg : lowercased g).
  { subst g. destruct given as [[|first rest]|]; try constructor.
    - apply toLowerCase_idem.
    - apply Forall_forall. intros x Hx. apply in_map_iff in Hx as (y & <- & _).
      apply toLowerCase_idem. }
  set (merged := match top with Some l => _ | None => g end).
  assert (Hm : lowercased merged).
  { subst merged. destruct top as [l|]; [|exact Hg].
    apply Forall_forall. intros x Hx.
    unfold Session.unique in Hx.
    destruct (fold_add_spec (g ++ l) (fun a => a) [] (NoDup_nil _)) as (_ & _ & Hin).
    apply Hin in Hx. destruct Hx as [[]|Hx]. rewrite map_id in Hx.
    apply in_app_or in Hx. unfold lowercased in *. rewrite Forall_forall in Hg, Htop.
    destruct Hx; auto. }
  destruct merged as [|a l]; [discriminate|].
  intros H. injection H as <-. split; [discriminate|exact Hm].
Qed.

Lemma small_trade_value (sz pr lim : Q) :
  (0 <= sz)%Q -> (0 <= pr)%Q -> (pr <= 1)%Q -> (sz < lim)%Q -> (sz * pr < lim)%Q.
Proof. intros H1 H2 H3 H4. nra. Qed.

End SessionFilterFacts.

(** A copy-trading session registers its handler behind the subscription
    filter, with its own target list and [minTradeSize] as the size
    limit.  The target list is never empty and all in lower case.  A
    trade the filter drops leaves the session's counters and effects as
    they are; a trade it lets through is of a target, so that the
    handler's own target check never fires.  The filter compares the
    trade's size, the handler its value: for a target's trade priced
    between 0 and 1 whose size is below [minTradeSize], the handler
    alone would count one detected and one skipped trade, while the
    session counts nothing. *)
Theorem session_filter_precedes_handler :
  forall (options : CopyTrading.Options) (service : CopyTrading.TradingService)
         (given top : option (list string)) (targets : list string)
         (mode : option Session.DetectionMode)
         (trade : SmartMoneyTrade) (r : CopyTrading.Run),
    match top with Some l => HandlerLogic.lowercased l | None => True end ->
    HandlerLogic.buildTargets given top = Ok targets ->
    let o := HandlerLogic.sessionOptions options targets mode in
    let session := HandlerLogic.copyTradingHandler options service targets mode in
    let isTarget :=
      JsString.includes (JsString.toLowerCase (traderAddress trade)) targets in
    targets <> [] /\ HandlerLogic.lowercased targets /\
    (Session.passesFilter o trade = false -> session trade r = r) /\
    (Session.passesFilter o trade = true ->
     isTarget = true /\
     session trade r = fst (CopyTrading.runHandler options service targets trade r)) /\
    (isTarget = true ->
     (0 <= size trade)%Q -> (0 <= price trade)%Q -> (price trade <= 1)%Q ->
     (size trade < CopyTrading.minTradeSize options)%Q ->
     session trade r = r /\
     CopyTrading.handler options service targets trade r
     = ({| CopyTrading.stats :=
             CopyTrading.skipped (CopyTrading.detected (CopyTrading.stats r));
           CopyTrading.effects := CopyTrading.effects r |},
        CopyTrading.Returned)).
Proof.
  intros options service given top targets mode trade r Htop Hbuild o session isTarget.
  destruct (buildTargets_lowercased given top targets Htop Hbuild) as [Hne Hlow].
  split; [exact Hne|]. split; [exact Hlow|].
  assert (Haddr : match Session.so_filterAddresses o with
                  | Some (first :: rest) =>
                      JsString.includes (JsString.toLowerCase (traderAddress trade))
                        (map JsString.toLowerCase (first :: rest))
                  | _ => true
                  end = isTarget).
  { subst o isTarget. cbn [Session.so_filterAddresses HandlerLogic.sessionOptions].
    destruct targets as [|a l]; [contradiction|].
    now rewrite (lowercased_map (a :: l) Hlow). }
  subst session. unfold HandlerLogic.copyTradingHandler, HandlerLogic.filteredHandler.
  fold o.
  split; [|split].
  - intros Hf. now rewrite Hf.
  - intros Hf. rewrite Hf. split; [|reflexivity].
    unfold Session.passesFilter in Hf. rewrite Haddr in Hf.
    destruct isTarget; [reflexivity|discriminate].
  - intros Ht H0 Hp0 Hp1 Hsmall.
    assert (Hdrop : Session.passesFilter o trade = false).
    { unfold Session.passesFilter. rewrite Haddr, Ht.
      subst o. cbn [Session.so_minSize HandlerLogic.sessionOptions].
      assert (Hlt : JsMath.ltb (size trade) (CopyTrading.minTradeSize options) = true)
        by (now apply ltb_lt).
      assert (Hnz : Qeq_bool (CopyTrading.minTradeSize options) 0 = false).
      { destruct (Qeq_bool _ 0) eqn:E; [|reflexivity].
        apply Qeq_bool_eq in E. rewrite E in Hsmall. lra. }
      rewrite Hlt, Hnz. reflexivity. }
    rewrite Hdrop. split; [reflexivity|].
    unfold CopyTrading.handler, CopyTrading.pipeline, CopyTrading.filters.
    unfold CopyTrading.bind at 1. unfold CopyTrading.update at 1. cbv beta iota.
    unfold CopyTrading.tryCatch.
    fold isTarget. rewrite Ht. cbn [negb].
    assert (Hv : JsMath.ltb (size trade * price trade)
                   (CopyTrading.minTradeSize options) = true).
    { apply ltb_lt. now apply small_trade_value. }
    rewrite Hv.
    reflexivity.
Qed.

Lemma session_filter_precedes_handler_witness :
  HandlerLogic.copyTradingHandler (Samples.options None) (Scenarios.flaky 0)
    ["0xaaa"%string] None (Samples.trade BUY 8 (1 # 2)) Samples.freshRun
  = Samples.freshRun /\
  CopyTrading.stats
    (fst (CopyTrading.handler (Samples.options None) (Scenarios.flaky 0)
            ["0xaaa"%string] (Samples.trade BUY 8 (1 # 2)) Samples.freshRun))
  = CopyTrading.skipped (CopyTrading.detected Samples.freshStats).
Proof.
  destruct (session_filter_precedes_handler (Samples.options None) (Scenarios.flaky 0)
              (Some ["0xAAA"%string]) None ["0xaaa"%string] None
              (Samples.trade BUY 8 (1 # 2)) Samples.freshRun I eq_refl)
    as (_ & _ & _ & _ & H).
  destruct H as [H1 H2]; try (vm_compute; congruence); try reflexivity.
  split; [exact H1|]. rewrite H2. reflexivity.
Defined.

(** ** Performance metrics *)

Section MetricsFacts.

Import Analytics.
Local Open Scope Q_scope.

Lemma fold_sum {A} (f : A -> Q) (l : list A) (acc : Q) :
  fold_left (fun sum p => sum + f p) l acc == acc + sumOf f l.
Proof.
  unfold sumOf. revert acc.
  induction l as [|a l IH]; intros acc; simpl; [ring|].
  rewrite IH, (IH (0 + f a)). ring.
Qed.

Lemma sumOf_cons {A} (f : A -> Q) (a : A) (l : list A) :
  sumOf f (a :: l) == f a + sumOf f l.
Proof. unfold sumOf at 1. simpl. rewrite fold_sum. ring. Qed.

Lemma gtb_lt (a b : Q) : JsMath.gtb a b = true <-> b < a.
Proof. unfold JsMath.gtb. apply ltb_lt. Qed.

Lemma gtb_le (a b : Q) : JsMath.gtb a b = false <-> a <= b.
Proof. unfold JsMath.gtb. apply ltb_ge. Qed.



(** The sum over positions whose value is at least [lo] each. *)
Lemma sumOf_lower {A} (f : A -> Q) (l : list A) (lo : Q) :
  Forall (fun p => lo <= f p) l -> lo * JsMath.ofNat (length l) <= sumOf f l.
Proof.
  induction 1 as [|a l Ha Hl IH].
  - unfold sumOf. cbn [fold_left length]. change (JsMath.ofNat 0) with 0. lra.
  - rewrite sumOf_cons. cbn [length]. rewrite ofNat_S. lra.
Qed.


Lemma sumOf_map {A} (f : A -> Q) (l : list A) :
  sumOf (fun x => x) (map f l) == sumOf f l.
Proof.
  induction l as [|a l IH]; [reflexivity|].
  cbn [map]. rewrite !sumOf_cons, IH. reflexivity.
Qed.










Lemma length_pos {A} (l : list A) : (0 <? length l)%nat = true <-> l <> [].
Proof.
  destruct l; simpl; split; intros H; try congruence; try reflexivity.
  discriminate.
Qed.




End MetricsFacts.


(** ** Risk and recommendation *)

Section AdviceFacts.

Import Analytics.

Lemma overallRisk_cases (performance : PerformanceMetrics) (patterns : TradingPatterns)
    (share : Q) :
  let risk := overallRisk (assessRisk performance patterns share) in
  let unprofitable :=
    JsMath.ltb (winRate performance) (4 # 10)
    || JsMath.ltb (profitFactor performance) 1 in
  let moderate :=
    JsMath.ltb (winRate performance) (1 # 2)
    || JsMath.ltb (profitFactor performance) (3 # 2) in
  textIncludes "HIGH" risk = unprofitable /\
  (unprofitable = false -> moderate = false ->
   risk = "LOW - Solid track record"%string \/
   risk = "MEDIUM - High concentration"%string) /\
  (risk = "MEDIUM - High concentration"%string -> unprofitable = false).
Proof.
  cbv zeta. unfold assessRisk. cbn [overallRisk].
  destruct (JsMath.ltb (winRate performance) (4 # 10)
            || JsMath.ltb (profitFactor performance) 1).
  - split; [reflexivity|]. split; [discriminate|discriminate].
  - destruct (JsMath.ltb (winRate performance) (1 # 2)
              || JsMath.ltb (profitFactor performance) (3 # 2)).
    + split; [reflexivity|]. split; [discriminate|reflexivity].
    + destruct (JsMath.gtb (positionConcentration patterns) (1 # 2));
        (split; [reflexivity|]); (split; [|reflexivity]); intros _ _;
        [now right|now left].
Qed.

Lemma frequency_text (patterns : TradingPatterns) :
  textIncludes "High-frequency" (tradingFrequency patterns)
  = JsMath.gtb (avgTradesPerDay patterns) 10.
Proof.
  unfold tradingFrequency.
  destruct (JsMath.gtb (avgTradesPerDay patterns) 10); [reflexivity|].
  destruct (JsMath.gtb (avgTradesPerDay patterns) 3); [reflexivity|].
  destruct (JsMath.gtb (avgTradesPerDay patterns) 1); reflexivity.
Qed.

Lemma warnings_spec (c1 c2 c3 : bool) :
  let ws :=
    (if c1 then ["High risk profile detected"%string] else [])
    ++ (if c2 then ["More losing markets than winning markets"%string] else [])
    ++ (if c3
        then ["High-frequency trading may incur significant fees when copying"%string]
        else []) in
  (In "High risk profile detected"%string ws <-> c1 = true) /\
  (In "More losing markets than winning markets"%string ws <-> c2 = true) /\
  (In "High-frequency trading may incur significant fees when copying"%string ws
   <-> c3 = true) /\
  length ws <= 3.
Proof.
  destruct c1, c2, c3; cbn;
    (split; [|split; [|split; [|lia]]]); split; intros H;
    repeat match goal with
           | H : _ \/ _ |- _ => destruct H
           | H : False |- _ => destruct H
           end;
    try reflexivity; try discriminate; auto 6.
Qed.

End AdviceFacts.

(** The recommendation agrees with the risk assessment made from the
    same metrics.  The warning 'High risk profile detected' is given
    exactly when the win rate is below 0.4 or the profit factor below 1;
    the test reads the risk text for 'HIGH' in capitals, so that
    'MEDIUM - High concentration' does not raise it.  A wallet that is
    recommended, cautiously or not, never carries that warning; a
    recommended one is rated low risk or medium for concentration only;
    a wallet to avoid has no realized profit.  The frequency warning is
    given exactly above ten trades a day, the warning on losing markets
    exactly when they outnumber the winning ones. *)
Theorem recommendation_matches_risk :
  forall (performance : Analytics.PerformanceMetrics)
         (patterns : Analytics.TradingPatterns) (topCategoryShare : Q),
    let risk := Analytics.assessRisk performance patterns topCategoryShare in
    let advice :=
      Analytics.generateRecommendation performance risk
        (Analytics.tradingFrequency patterns) in
    let highRisk := In "High risk profile detected"%string (Analytics.warnings advice) in
    (highRisk <->
     (Analytics.winRate performance < 4 # 10)%Q
     \/ (Analytics.profitFactor performance < 1)%Q) /\
    (Analytics.verdict advice = "RECOMMENDED"%string \/
     Analytics.verdict advice = "CAUTIOUSLY RECOMMENDED"%string -> ~ highRisk) /\
    (Analytics.verdict advice = "RECOMMENDED"%string <->
     (6 # 10 <= Analytics.winRate performance)%Q
     /\ (3 # 2 <= Analytics.profitFactor performance)%Q) /\
    (Analytics.verdict advice = "RECOMMENDED"%string ->
     Analytics.overallRisk risk = "LOW - Solid track record"%string \/
     Analytics.overallRisk risk = "MEDIUM - High concentration"%string) /\
    (Analytics.overallRisk risk = "MEDIUM - High concentration"%string -> ~ highRisk) /\
    (Analytics.verdict advice = "AVOID"%string ->
     (Analytics.realizedPnL performance <= 0)%Q) /\
    (In "High-frequency trading may incur significant fees when copying"%string
        (Analytics.warnings advice) <->
     (10 < Analytics.avgTradesPerDay patterns)%Q) /\
    (In "More losing markets than winning markets"%string (Analytics.warnings advice) <->
     Analytics.winningMarkets performance < Analytics.losingMarkets performance) /\
    length (Analytics.warnings advice) <= 3.
Proof.
  intros performance patterns share. cbv zeta.
  destruct (overallRisk_cases performance patterns share) as (Htext & Hlow & Hmed).
  cbv zeta in Htext, Hlow, Hmed.
  unfold Analytics.generateRecommendation.
  cbn [Analytics.verdict Analytics.warnings].
  rewrite Htext, frequency_text.
  destruct (warnings_spec
              (JsMath.ltb (Analytics.winRate performance) (4 # 10)
               || JsMath.ltb (Analytics.profitFactor performance) 1)
              (Analytics.winningMarkets performance
               <? Analytics.losingMarkets performance)
              (JsMath.gtb (Analytics.avgTradesPerDay patterns) 10))
    as (Hw1 & Hw2 & Hw3 & Hlen).
  cbv zeta in Hw1, Hw2, Hw3, Hlen.
  assert (Hhigh : JsMath.ltb (Analytics.winRate performance) (4 # 10)
                  || JsMath.ltb (Analytics.profitFactor performance) 1 = true
                  <-> (Analytics.winRate performance < 4 # 10)%Q
                      \/ (Analytics.profitFactor performance < 1)%Q).
  { rewrite orb_true_iff, !ltb_lt. reflexivity. }
  assert (Hverdict :
            forall v,
              (if negb (JsMath.ltb (Analytics.winRate performance) (6 # 10))
                  && negb (JsMath.ltb (Analytics.profitFactor performance) (3 # 2))
               then "RECOMMENDED"
               else if negb (JsMath.ltb (Analytics.winRate performance) (1 # 2))
                       && negb (JsMath.ltb (Analytics.profitFactor performance) (12 # 10))
               then "CAUTIOUSLY RECOMMENDED"
               else if JsMath.gtb (Analytics.realizedPnL performance) 0
               then "NOT RECOMMENDED"
               else "AVOID")%string = v ->
              (v = "RECOMMENDED"%string ->
               (6 # 10 <= Analytics.winRate performance)%Q
               /\ (3 # 2 <= Analytics.profitFactor performance)%Q) /\
              ((6 # 10 <= Analytics.winRate performance)%Q
               /\ (3 # 2 <= Analytics.profitFactor performance)%Q ->
               v = "RECOMMENDED"%string) /\
              (v = "CAUTIOUSLY RECOMMENDED"%string ->
               (1 # 2 <= Analytics.winRate performance)%Q
               /\ (12 # 10 <= Analytics.profitFactor performance)%Q) /\
              (v = "AVOID"%string -> (Analytics.realizedPnL performance <= 0)%Q)).
  { intros v Hv.
    destruct (JsMath.ltb (Analytics.winRate performance) (6 # 10)) eqn:E5;
    destruct (JsMath.ltb (Analytics.profitFactor performance) (3 # 2)) eqn:E4;
    destruct (JsMath.ltb (Analytics.winRate performance) (1 # 2)) eqn:E3;
    destruct (JsMath.ltb (Analytics.profitFactor performance) (12 # 10)) eqn:E6;
    destruct (JsMath.gtb (Analytics.realizedPnL performance) 0) eqn:E7;
    cbn in Hv; subst v;
    rewrite ?ltb_lt, ?ltb_ge, ?gtb_lt, ?gtb_le in *;
    (split; [|split; [|split]]); intros H; try discriminate;
    try (destruct H; split; lra); try (split; lra); try lra; try reflexivity. }
  set (v := (if negb _ && negb _ then _ else _)%string) in *.
  destruct (Hverdict v eq_refl) as (Hrec1 & Hrec2 & Hcaut & Havoid).
  split; [now rewrite Hw1|].
  split.
  { intros [Hv|Hv] Hin; apply Hw1, Hhigh in Hin.
    - apply Hrec1 in Hv. lra.
    - apply Hcaut in Hv. lra. }
  split; [split; assumption|].
  split.
  { intros Hv. apply Hrec1 in Hv. apply Hlow.
    - apply orb_false_iff. split; apply ltb_ge; lra.
    - apply orb_false_iff. split; apply ltb_ge; lra. }
  split.
  { intros Hr Hin. apply Hw1 in Hin. apply Hmed in Hr. congruence. }
  split; [exact Havoid|].
  split; [now rewrite Hw3, gtb_lt|].
  split; [now rewrite Hw2, Nat.ltb_lt|].
  exact Hlen.
Qed.

(** ** Pagination of the closed positions *)

Section PaginationFacts.

Import Analytics.

Lemma firstn_more {A} (a b : nat) (l : list A) :
  firstn a l ++ firstn b (skipn a l) = firstn (a + b) l.
Proof.
  revert l. induction a as [|a IH]; intros l; [reflexivity|].
  destruct l as [|x l]; simpl; [now rewrite firstn_nil|].
  now rewrite IH.
Qed.

Lemma page_length (data : list ClosedPosition) (offset : nat) :
  length (firstn PAGE_LIMIT (skipn offset data))
  = Nat.min PAGE_LIMIT (length data - offset).
Proof. now rewrite length_firstn, length_skipn. Qed.

(** The offsets of [n] successive pages from [offset] on. *)
Lemma offsets_step (offset n : nat) :
  offset :: map (fun i => offset + PAGE_LIMIT + PAGE_LIMIT * i) (seq 0 n)
  = map (fun i => offset + PAGE_LIMIT * i) (seq 0 (S n)).
Proof.
  cbn [seq map]. f_equal; [lia|].
  rewrite <- seq_shift, map_map. apply map_ext. intros i. lia.
Qed.

Lemma offsets_one (offset : nat) :
  map (fun i => offset + PAGE_LIMIT * i) (seq 0 1) = [offset].
Proof. cbn [seq map]. now rewrite Nat.mul_0_r, Nat.add_0_r. Qed.

Lemma fetchPages_requests (client : nat -> Res (list ClosedPosition)) :
  forall remaining offset all requests,
  exists n,
    n <= remaining /\
    snd (fetchPages client remaining offset all requests)
    = requests ++ map (fun i => offset + PAGE_LIMIT * i) (seq 0 n).
Proof.
  induction remaining as [|rem IH]; intros offset all requests.
  - exists 0. simpl. now rewrite app_nil_r.
  - simpl. destruct (client offset) as [result|e].
    + destruct (length result =? 0).
      * exists 1. rewrite offsets_one. split; [lia|reflexivity].
      * destruct (length result <? PAGE_LIMIT).
        -- exists 1. rewrite offsets_one. split; [lia|reflexivity].
        -- destruct (IH (offset + PAGE_LIMIT) (all ++ result) (requests ++ [offset]))
             as (n & Hn & Heq).
           exists (S n). split; [lia|].
           rewrite Heq, <- app_assoc. f_equal.
           change ([offset] ++ ?l) with (offset :: l). apply offsets_step.
    + exists 1. rewrite offsets_one. split; [lia|reflexivity].
Qed.

Lemma fetchPages_honest (data : list ClosedPosition) :
  forall remaining offset requests,
    offset <= length data ->
    fetchPages (pagedClient data) remaining offset (firstn offset data) requests
    = (Ok (firstn (offset + PAGE_LIMIT * remaining) data),
       requests
       ++ map (fun i => offset + PAGE_LIMIT * i)
            (seq 0 (Nat.min remaining (S ((length data - offset) / PAGE_LIMIT))))).
Proof.
  induction remaining as [|rem IH]; intros offset requests Hoff.
  - cbn [fetchPages Nat.min seq map]. now rewrite Nat.mul_0_r, Nat.add_0_r, app_nil_r.
  - cbn [fetchPages]. unfold pagedClient at 1. cbv beta iota.
    rewrite page_length.
    pose proof (offsets_one offset) as Hone.
    destruct (Nat.eqb_spec (Nat.min PAGE_LIMIT (length data - offset)) 0) as [Hz|Hnz].
    + assert (Hlen : length data = offset) by (unfold PAGE_LIMIT in Hz; lia).
      rewrite (firstn_all2 (n := offset + PAGE_LIMIT * S rem)) by lia.
      rewrite firstn_all2 by lia.
      replace (length data - offset) with 0 by lia.
      rewrite Nat.Div0.div_0_l.
      replace (Nat.min (S rem) 1) with 1 by lia. now rewrite Hone.
    + destruct (Nat.ltb_spec (Nat.min PAGE_LIMIT (length data - offset)) PAGE_LIMIT)
        as [Hshort|Hfull].
      * rewrite firstn_more.
        rewrite (firstn_all2 (n := offset + PAGE_LIMIT)) by lia.
        rewrite (firstn_all2 (n := offset + PAGE_LIMIT * S rem)) by lia.
        rewrite Nat.div_small by (unfold PAGE_LIMIT in *; lia).
        replace (Nat.min (S rem) 1) with 1 by lia. now rewrite Hone.
      * rewrite firstn_more.
        rewrite (IH (offset + PAGE_LIMIT) (requests ++ [offset])) by lia.
        f_equal; [f_equal; f_equal; unfold PAGE_LIMIT; lia|].
        rewrite <- app_assoc. f_equal.
        change ([offset] ++ ?l) with (offset :: l).
        rewrite offsets_step. f_equal. f_equal.
        replace (length data - offset)
          with ((length data - (offset + PAGE_LIMIT)) + 1 * PAGE_LIMIT) by lia.
        rewrite Nat.div_add by (unfold PAGE_LIMIT; lia).
        lia.
Qed.

End PaginationFacts.

(** Fetching the closed positions asks for pages of 50 at the offsets
    0, 50, 100, ... and never more than 200 of them; without a data
    client it asks for nothing and yields the empty list.  From a client
    that serves a list page by page it yields the first 10000 positions
    of that list, in order, with one request per full page and one
    more, up to the cap. *)
Theorem closed_positions_pagination :
  (forall dataApi,
      exists n,
        n <= Analytics.MAX_ITERATIONS /\
        snd (Analytics.fetchAllClosedPositions dataApi)
        = map (fun i => Analytics.PAGE_LIMIT * i) (seq 0 n)) /\
  Analytics.fetchAllClosedPositions None = (Ok [], []) /\
  (forall data,
      Analytics.fetchAllClosedPositions (Some (Analytics.pagedClient data))
      = (Ok (firstn (Analytics.PAGE_LIMIT * Analytics.MAX_ITERATIONS) data),
         map (fun i => Analytics.PAGE_LIMIT * i)
           (seq 0 (Nat.min Analytics.MAX_ITERATIONS
                     (S (length data / Analytics.PAGE_LIMIT)))))).
Proof.
  split; [|split].
  - intros [client|].
    + destruct (fetchPages_requests client Analytics.MAX_ITERATIONS 0 [] [])
        as (n & Hn & Heq).
      exists n. split; [exact Hn|]. exact Heq.
    + exists 0. split; [lia|reflexivity].
  - reflexivity.
  - intros data. unfold Analytics.fetchAllClosedPositions.
    pose proof (fetchPages_honest data Analytics.MAX_ITERATIONS 0 [] (Nat.le_0_l _)) as H.
    cbn [firstn] in H. rewrite H. rewrite Nat.sub_0_r. reflexivity.
Qed.

(** ** Sorting, best and worst markets *)

Section SortFacts.

Import Analytics.

Variable A : Type.
Variable before : A -> A -> bool.
Variable R : A -> A -> Prop.

Hypothesis before_sound : forall a b, before a b = true -> R a b.
Hypothesis before_total : forall a b, before a b = false -> R b a.
Hypothesis R_trans : forall a b c, R a b -> R b c -> R a c.

Lemma insertBy_perm (a : A) (l : list A) : Permutation (insertBy before a l) (a :: l).
Proof.
  induction l as [|b r IH]; simpl; [reflexivity|].
  destruct (before a b); [reflexivity|].
  rewrite IH. apply perm_swap.
Qed.

Lemma stableSort_perm (l : list A) : Permutation (stableSort before l) l.
Proof.
  induction l as [|a r IH]; simpl; [reflexivity|].
  rewrite insertBy_perm. now apply perm_skip.
Qed.

Lemma insertBy_sorted (a : A) (l : list A) :
  StronglySorted R l -> StronglySorted R (insertBy before a l).
Proof.
  induction l as [|b r IH]; intros Hs; simpl.
  - constructor; constructor.
  - inversion Hs as [|? ? Hr Hall]; subst.
    destruct (before a b) eqn:E.
    + constructor; [assumption|]. constructor; [now apply before_sound|].
      eapply Forall_impl; [|exact Hall].
      intros c Hc. eapply R_trans; [apply before_sound; exact E|exact Hc].
    + constructor; [now apply IH|].
      eapply Permutation_Forall; [symmetry; apply insertBy_perm|].
      constructor; [now apply before_total|assumption].
Qed.

Lemma stableSort_sorted (l : list A) : StronglySorted R (stableSort before l).
Proof.
  induction l as [|a r IH]; simpl; [constructor|].
  now apply insertBy_sorted.
Qed.

Lemma in_firstn (n : nat) (l : list A) (x : A) : In x (firstn n l) -> In x l.
Proof.
  revert n. induction l as [|a l IH]; intros n H; destruct n; simpl in H;
    try contradiction.
  destruct H as [<-|H]; [now left|right; now apply (IH n)].
Qed.

Lemma in_skipn (n : nat) (l : list A) (x : A) : In x (skipn n l) -> In x l.
Proof.
  revert n. induction l as [|a l IH]; intros n H; destruct n; simpl in H;
    try contradiction; try assumption.
  right. now apply (IH n).
Qed.

Lemma sorted_firstn (n : nat) (l : list A) :
  StronglySorted R l -> StronglySorted R (firstn n l).
Proof.
  revert n. induction l as [|a l IH]; intros n Hs; destruct n; simpl;
    try constructor.
  - inversion Hs; subst. now apply IH.
  - inversion Hs as [|? ? _ Hall]; subst.
    apply Forall_forall. intros x Hx. rewrite Forall_forall in Hall.
    apply Hall. now apply (in_firstn n).
Qed.

(** What a sorted prefix leaves out does not come before what it keeps. *)
Lemma sorted_prefix_first (n : nat) (l : list A) :
  StronglySorted R l ->
  forall x y, In x (firstn n l) -> In y (skipn n l) -> R x y.
Proof.
  revert n. induction l as [|a l IH]; intros n Hs x y Hx Hy.
  - rewrite firstn_nil in Hx. destruct Hx.
  - destruct n as [|n]; [destruct Hx|].
    inversion Hs as [|? ? Hl Hall]; subst. simpl in Hx, Hy.
    destruct Hx as [<-|Hx].
    + rewrite Forall_forall in Hall. apply Hall. now apply (in_skipn n).
    + now apply (IH n).
Qed.

End SortFacts.

Section MarketFacts.

Import Analytics.
Local Open Scope Q_scope.

Variable categorizeMarket : string -> MarketCategory.

Lemma qle_bool_false (x y : Q) : Qle_bool x y = false -> y < x.
Proof.
  intros H. apply Qnot_le_lt. intros Hle. apply Qle_bool_iff in Hle. congruence.
Qed.

Lemma winners_sorted (positions : list ClosedPosition) :
  StronglySorted byProfit
    (stableSort (fun a b => Qle_bool (cp_realizedPnl b - cp_realizedPnl a) 0)
       (filter isWin positions)).
Proof.
  apply stableSort_sorted; unfold byProfit.
  - intros a b H. apply Qle_bool_iff in H. lra.
  - intros a b H. apply qle_bool_false in H. lra.
  - intros a b c H1 H2. lra.
Qed.

Lemma losers_sorted (positions : list ClosedPosition) :
  StronglySorted byLoss
    (stableSort (fun a b => Qle_bool (cp_realizedPnl a - cp_realizedPnl b) 0)
       (filter isLoss positions)).
Proof.
  apply stableSort_sorted; unfold byLoss.
  - intros a b H. apply Qle_bool_iff in H. lra.
  - intros a b H. apply qle_bool_false in H. lra.
  - intros a b c H1 H2. lra.
Qed.

Lemma sorted_map {X Y} (f : X -> Y) (R : X -> X -> Prop) (S : Y -> Y -> Prop)
    (l : list X) :
  (forall a b, R a b -> S (f a) (f b)) ->
  StronglySorted R l -> StronglySorted S (map f l).
Proof.
  intros H. induction 1 as [|a l Hl IH Hall]; simpl; constructor; [assumption|].
  rewrite Forall_map. eapply Forall_impl; [|exact Hall]. intros b. apply H.
Qed.

(** A selection: the first [limit] of a sorted permutation of the
    positions that pass [keep]. *)
Lemma selection_spec (keep : ClosedPosition -> bool) (R : ClosedPosition -> ClosedPosition -> Prop)
    (sorted : list ClosedPosition) (positions : list ClosedPosition) (limit : nat) :
  Permutation sorted (filter keep positions) ->
  StronglySorted R sorted ->
  let chosen := firstn limit sorted in
  (length chosen <= limit)%nat /\
  (length chosen = Nat.min limit (length (filter keep positions))) /\
  StronglySorted R chosen /\
  (forall p, In p chosen -> In p positions /\ keep p = true) /\
  (forall p, In p positions -> keep p = true ->
             In p chosen \/ (length chosen = limit /\ forall x, In x chosen -> R x p)).
Proof.
  intros Hperm Hsorted chosen. subst chosen.
  split; [rewrite length_firstn; lia|].
  split; [rewrite length_firstn, (Permutation_length Hperm); reflexivity|].
  split; [now apply sorted_firstn|].
  split.
  - intros p Hp. apply in_firstn in Hp.
    apply (Permutation_in _ Hperm) in Hp. now apply filter_In in Hp.
  - intros p Hp Hk.
    assert (Hin : In p sorted).
    { apply (Permutation_in _ (Permutation_sym Hperm)). apply filter_In. now split. }
    rewrite <- (firstn_skipn limit sorted) in Hin.
    apply in_app_or in Hin as [Hin|Hin]; [now left|right].
    split.
    + rewrite length_firstn.
      assert (Hlen : (limit < length sorted)%nat).
      { destruct (Nat.lt_ge_cases limit (length sorted)) as [H|H]; [exact H|].
        rewrite skipn_all2 in Hin by exact H. destruct Hin. }
      lia.
    + intros x Hx. now apply (sorted_prefix_first _ R limit sorted Hsorted).
Qed.

End MarketFacts.

(** The best markets are the [limit] winning positions with the highest
    profit, highest first; the worst markets are the [limit] losing
    positions with the deepest loss, deepest first.  A position with a
    profit that is left out of the best markets gained no more than any
    market listed, and the list is then full; likewise for the losses.
    A position that broke even appears in neither list. *)
Theorem best_and_worst_markets :
  forall (categorizeMarket : string -> Analytics.MarketCategory)
         (positions : list Analytics.ClosedPosition) (limit : nat),
    let top := Analytics.getTopMarkets categorizeMarket positions limit in
    let worst := Analytics.getWorstMarkets categorizeMarket positions limit in
    let wins := filter Analytics.isWin positions in
    let losses := filter Analytics.isLoss positions in
    length top = Nat.min limit (length wins) /\
    length worst = Nat.min limit (length losses) /\
    StronglySorted (fun a b => (Analytics.ms_pnl b <= Analytics.ms_pnl a)%Q) top /\
    StronglySorted (fun a b => (Analytics.ms_pnl a <= Analytics.ms_pnl b)%Q) worst /\
    Forall (fun m =>
              (0 < Analytics.ms_pnl m)%Q /\
              exists p, In p positions /\
                        m = Analytics.toMarketStats categorizeMarket Analytics.Win p)
           top /\
    Forall (fun m =>
              (Analytics.ms_pnl m < 0)%Q /\
              exists p, In p positions /\
                        m = Analytics.toMarketStats categorizeMarket Analytics.Lose p)
           worst /\
    (forall p,
        In p positions -> (0 < Analytics.cp_realizedPnl p)%Q ->
        In (Analytics.toMarketStats categorizeMarket Analytics.Win p) top \/
        (length top = limit /\
         Forall (fun m => (Analytics.cp_realizedPnl p <= Analytics.ms_pnl m)%Q) top)) /\
    (forall p,
        In p positions -> (Analytics.cp_realizedPnl p < 0)%Q ->
        In (Analytics.toMarketStats categorizeMarket Analytics.Lose p) worst \/
        (length worst = limit /\
         Forall (fun m => (Analytics.ms_pnl m <= Analytics.cp_realizedPnl p)%Q) worst)).
Proof.
  intros categorize positions limit. cbv zeta.
  unfold Analytics.getTopMarkets, Analytics.getWorstMarkets.
  set (sortedWins := Analytics.stableSort _ (filter Analytics.isWin positions)).
  set (sortedLosses := Analytics.stableSort _ (filter Analytics.isLoss positions)).
  destruct (selection_spec Analytics.isWin Analytics.byProfit sortedWins positions limit)
    as (_ & Hlen1 & Hs1 & Hin1 & Hbest1);
    [apply stableSort_perm|apply winners_sorted|].
  destruct (selection_spec Analytics.isLoss Analytics.byLoss sortedLosses positions limit)
    as (_ & Hlen2 & Hs2 & Hin2 & Hbest2);
    [apply stableSort_perm|apply losers_sorted|].
  cbv zeta in *.
  rewrite !length_map.
  split; [exact Hlen1|]. split; [exact Hlen2|].
  split; [eapply sorted_map; [|exact Hs1]; intros a b H; exact H|].
  split; [eapply sorted_map; [|exact Hs2]; intros a b H; exact H|].
  split.
  { rewrite Forall_map. apply Forall_forall. intros p Hp.
    destruct (Hin1 p Hp) as [Hpos Hk]. split.
    - now apply gtb_lt in Hk.
    - now exists p. }
  split.
  { rewrite Forall_map. apply Forall_forall. intros p Hp.
    destruct (Hin2 p Hp) as [Hpos Hk]. split.
    - now apply ltb_lt in Hk.
    - now exists p. }
  split.
  - intros p Hp Hgain.
    destruct (Hbest1 p Hp) as [Hin|[Hfull Hle]]; [now apply gtb_lt| |].
    + left. now apply in_map.
    + right. split; [exact Hfull|].
      rewrite Forall_map. apply Forall_forall. intros x Hx. exact (Hle x Hx).
  - intros p Hp Hloss.
    destruct (Hbest2 p Hp) as [Hin|[Hfull Hle]]; [now apply ltb_lt| |].
    + left. now apply in_map.
    + right. split; [exact Hfull|].
      rewrite Forall_map. apply Forall_forall. intros x Hx. exact (Hle x Hx).
Qed.

(** ** The category distribution *)

Section CategoryFacts.

Import Analytics.
Local Open Scope Q_scope.

Variable categorizeMarket : string -> MarketCategory.

Lemma category_eqb_spec (a b : MarketCategory) :
  MarketCategory_eqb a b = true <-> a = b.
Proof. destruct a, b; simpl; split; intros H; congruence. Qed.




Lemma mapGet_absent (c : MarketCategory) (m : list (MarketCategory * Bucket)) :
  ~ In c (map fst m) -> mapGet c m = zeroBucket.
Proof.
  induction m as [|[k b] m IH]; intros H; simpl; [reflexivity|].
  destruct (MarketCategory_eqb k c) eqn:E.
  - apply category_eqb_spec in E. subst k. exfalso. apply H. now left.
  - apply IH. intros Hin. apply H. now right.
Qed.

















End CategoryFacts.


(** ** The smart-money list *)

Section ListFacts.

Import Analytics.

Variable minPnl : Q.

Lemma add_in (x y : string) (s : JsSet.t) :
  In y (JsSet.add x s) <-> In y s \/ y = x.
Proof.
  unfold JsSet.add. destruct (JsSet.has x s) eqn:E.
  - apply has_true_iff in E. split; [now left|]. intros [H| ->]; assumption.
  - rewrite in_app_iff. simpl. split.
    + intros [H|[H|[]]]; [now left|now right].
    + intros [H| ->]; [now left|right; now left].
Qed.

Lemma cacheSet_keys (a : string) (w : SmartMoneyWallet)
    (m : list (string * SmartMoneyWallet)) (x : string) :
  In x (map fst (cacheSet a w m)) <-> In x (map fst m) \/ x = a.
Proof.
  induction m as [|[k v] m IH]; simpl.
  - split; [intros [H|[]]; now right|intros [[]|H]; now left].
  - destruct (String.eqb_spec k a) as [->|Hne]; simpl.
    + split; [intros [H|H]; [left; now left|left; now right]|].
      intros [[H|H]|H]; [now left|now right|now left].
    + rewrite IH. tauto.
Qed.

Lemma cacheSet_value (a : string) (w : SmartMoneyWallet)
    (m : list (string * SmartMoneyWallet)) :
  In (a, w) (cacheSet a w m).
Proof.
  induction m as [|[k v] m IH]; simpl; [now left|].
  destruct (String.eqb_spec k a) as [->|Hne]; simpl; [now left|now right].
Qed.

Lemma collect_spec (entries : list LeaderboardEntry) :
  forall i acc c,
    let result := collect minPnl entries i (acc, c) in
    fst result = acc ++ map (fun ie => toWallet (fst ie) (snd ie)) (eligible minPnl i entries) /\
    cacheTimestamp (snd result) = cacheTimestamp c /\
    (forall a, In a (cachedSet (snd result)) <->
               In a (cachedSet c)
               \/ In a (map (fun ie => w_address (toWallet (fst ie) (snd ie)))
                          (eligible minPnl i entries))) /\
    (forall a, In a (map fst (smartMoneyCache (snd result))) <->
               In a (map fst (smartMoneyCache c))
               \/ In a (map (fun ie => w_address (toWallet (fst ie) (snd ie)))
                          (eligible minPnl i entries))).
Proof.
  induction entries as [|trader rest IH]; intros i acc c; cbv zeta.
  - simpl. rewrite app_nil_r. repeat split; try tauto; intros [H|[]]; exact H.
  - unfold eligible. cbn [collect length seq combine filter snd].
    destruct (JsMath.ltb (le_pnl trader) minPnl) eqn:E; cbn [negb].
    + apply IH.
    + set (wallet := toWallet i trader).
      set (c1 := {| smartMoneyCache := _; cachedSet := _; cacheTimestamp := _ |}).
      destruct (IH (S i) (acc ++ [wallet]) c1) as (H1 & H2 & H3 & H4).
      cbv zeta in H1, H2, H3, H4. fold (eligible minPnl (S i) rest).
      split; [rewrite H1, <- app_assoc; reflexivity|].
      split; [rewrite H2; reflexivity|].
      split.
      * intros a. rewrite H3. subst c1. cbn [cachedSet map fst snd].
        rewrite add_in. fold wallet. simpl. intuition.
      * intros a. rewrite H4. subst c1. cbn [smartMoneyCache map fst snd].
        rewrite cacheSet_keys. fold wallet. simpl. intuition.
Qed.

Lemma score_bound (i : nat) (trader : LeaderboardEntry) :
  (w_score (toWallet i trader) <= 100)%Q.
Proof. unfold toWallet. cbn [w_score]. apply Q.le_min_l. Qed.

End ListFacts.

(** Refreshing the smart-money list keeps, in page order, the entries
    whose profit is at least [minPnl].  Each wallet carries the entry's
    address in lower case, a score of at most 100 and the entry's rank,
    or its place on the page when the entry has none; each is a member
    of the address set and a key of the cache.  The refresh does not
    empty the address set first: an address of an earlier fill stays a
    member.  While the cache is valid the call makes no request and
    answers with the cached wallets whatever the limit; a failed request
    leaves the cache as it was. *)
Theorem smart_money_list_refresh :
  forall (minPnl : Q) (cacheTtl : Z)
         (getLeaderboard : nat -> Res (list Analytics.LeaderboardEntry))
         (limit : nat) (now : Z) (c : Analytics.Cache),
    let result := Analytics.getSmartMoneyList minPnl cacheTtl getLeaderboard limit now c in
    let c' := snd (fst result) in
    (Analytics.isCacheValid cacheTtl now c = true ->
     result = (Ok (map snd (Analytics.smartMoneyCache c)), c, [])) /\
    (Analytics.isCacheValid cacheTtl now c = false ->
     snd result = [limit] /\
     (forall e, getLeaderboard limit = Throw e -> fst result = (Throw e, c)) /\
     (forall entries,
         getLeaderboard limit = Ok entries ->
         let wallets :=
           map (fun ie => Analytics.toWallet (fst ie) (snd ie))
             (Analytics.eligible minPnl 0 entries) in
         fst (fst result) = Ok wallets /\
         Analytics.cacheTimestamp c' = now /\
         Forall (fun w =>
                   (minPnl <= Analytics.w_pnl w)%Q /\
                   (Analytics.w_score w <= 100)%Q /\
                   JsString.toLowerCase (Analytics.w_address w) = Analytics.w_address w /\
                   JsSet.has (Analytics.w_address w) (Analytics.cachedSet c') = true /\
                   In (Analytics.w_address w) (map fst (Analytics.smartMoneyCache c')))
                wallets /\
         (forall a, JsSet.has a (Analytics.cachedSet c) = true ->
                    JsSet.has a (Analytics.cachedSet c') = true))).
Proof.
  intros minPnl cacheTtl getLeaderboard limit now c. cbv zeta.
  unfold Analytics.getSmartMoneyList.
  destruct (Analytics.isCacheValid cacheTtl now c).
  - split; [reflexivity|discriminate].
  - split; [discriminate|]. intros _.
    destruct (getLeaderboard limit) as [entries|e] eqn:Eg.
    + destruct (collect_spec minPnl entries 0 [] c) as (H1 & H2 & H3 & H4).
      cbv zeta in H1, H2, H3, H4.
      destruct (Analytics.collect minPnl entries 0 ([], c)) as [list c1].
      cbn [fst snd] in *. split; [reflexivity|]. split; [discriminate|].
      intros entries' Heq. injection Heq as <-.
      split; [now rewrite H1|]. split; [reflexivity|].
      split.
      * apply Forall_forall. intros w Hw.
        apply in_map_iff in Hw as ([i trader] & <- & Hin).
        assert (Haddr : In (Analytics.w_address (Analytics.toWallet i trader))
                          (map (fun ie => Analytics.w_address
                                            (Analytics.toWallet (fst ie) (snd ie)))
                               (Analytics.eligible minPnl 0 entries))).
        { apply in_map_iff. now exists (i, trader). }
        unfold Analytics.eligible in Hin. apply filter_In in Hin as [_ Hok].
        cbn [fst snd] in *. apply negb_true_iff, ltb_ge in Hok.
        split; [exact Hok|]. split; [apply score_bound|].
        split; [apply toLowerCase_idem|].
        split; [apply has_true_iff, H3; now right|apply H4; now right].
      * intros a Ha. apply has_true_iff. apply H3. left. now apply has_true_iff.
    + cbn [fst snd]. split; [reflexivity|]. split.
      * intros e' Heq. injection Heq as <-. reflexivity.
      * discriminate.
Qed.

(** ** The fund limiter behind the guard *)

Section FundFacts.

Import Safety.
Local Open Scope Q_scope.

Variable limits : Limits.

Lemma resetFundsDaily_within (today : string) (d : FundData) :
  withinLimits limits d -> withinLimits limits (resetFundsDaily today d).
Proof.
  intros H. unfold resetFundsDaily. destruct (String.eqb _ _); [exact H|].
  destruct H as ((H1 & H2) & (H3 & H4) & H5). unfold withinLimits. simpl.
  destruct H5 as [H5 H6]. repeat split; lra.
Qed.

(** An allowed check leaves room for the trade in every counter. *)
Lemma canTradeFunds_allowed (today : string) (amount : Q) (d d1 : FundData) :
  canTradeFunds limits today amount d = (d1, FundsAllowed) ->
  d1 = resetFundsDaily today d /\
  amount <= maxSingleTrade limits /\
  dailyVolume d1 + amount <= maxDailyVolume limits /\
  dailyTrades d1 + 1 <= maxDailyTrades limits /\
  totalPosition d1 + amount <= maxTotalPosition limits.
Proof.
  unfold canTradeFunds.
  destruct (JsMath.gtb amount _) eqn:E1; [discriminate|].
  destruct (JsMath.gtb (_ + amount) (maxDailyVolume limits)) eqn:E2; [discriminate|].
  destruct (JsMath.gtb (_ + 1) _) eqn:E3; [discriminate|].
  destruct (JsMath.gtb (_ + amount) (maxTotalPosition limits)) eqn:E4; [discriminate|].
  intros H. injection H as <-.
  apply gtb_le in E1, E2, E3, E4. now repeat split.
Qed.

Lemma canTradeFunds_data (today : string) (amount : Q) (d : FundData) :
  fst (canTradeFunds limits today amount d) = resetFundsDaily today d.
Proof.
  unfold canTradeFunds.
  destruct (JsMath.gtb amount _); [reflexivity|].
  destruct (JsMath.gtb (_ + amount) (maxDailyVolume limits)); [reflexivity|].
  destruct (JsMath.gtb (_ + 1) _); [reflexivity|].
  destruct (JsMath.gtb (_ + amount) (maxTotalPosition limits)); reflexivity.
Qed.

Lemma recordFundsTrade_within (today : string) (amount : Q) (d : FundData) :
  withinLimits limits d -> 0 <= amount ->
  dailyVolume d + amount <= maxDailyVolume limits ->
  dailyTrades d + 1 <= maxDailyTrades limits ->
  totalPosition d + amount <= maxTotalPosition limits ->
  withinLimits limits (recordFundsTrade today amount d).
Proof.
  intros ((H1 & H2) & (H3 & H4) & (H5 & H6)) Ha Hv Ht Hp.
  unfold recordFundsTrade, resetFundsDaily, withinLimits.
  destruct (String.eqb _ _); simpl; repeat split; lra.
Qed.

Lemma recordFundsClose_within (amount : Q) (d : FundData) :
  withinLimits limits d -> 0 <= amount ->
  withinLimits limits (recordFundsClose amount d).
Proof.
  intros (H1 & H2 & (H5 & H6)) Ha. unfold recordFundsClose, withinLimits. simpl.
  split; [exact H1|]. split; [exact H2|]. split.
  - apply Q.le_max_l.
  - unfold JsMath.max. apply Q.max_lub; lra.
Qed.

Lemma freshFunds_within (today : string) (d : FundData) :
  withinLimits limits d -> withinLimits limits (freshFunds today).
Proof.
  intros ((H1 & H2) & (H3 & H4) & (H5 & H6)). unfold withinLimits. simpl.
  repeat split; lra.
Qed.

End FundFacts.

Section GuardFundFacts.

Import Safety.
Local Open Scope Q_scope.

Variable config : GuardConfig.

(** What a check does to the funds, and what an allowing check tells. *)
Lemma checkBeforeTrade_funds (today : string) (amount : Q) (g : Guard) :
  let result := checkBeforeTrade config today amount g in
  (funds (fst result) = funds g \/
   funds (fst result) = resetFundsDaily today (funds g)) /\
  (snd result = Allowed -> enableFundLimiter config = true ->
   funds (fst result) = resetFundsDaily today (funds g) /\
   dailyVolume (funds (fst result)) + amount <= maxDailyVolume (limits config) /\
   dailyTrades (funds (fst result)) + 1 <= maxDailyTrades (limits config) /\
   totalPosition (funds (fst result)) + amount <= maxTotalPosition (limits config)).
Proof.
  cbv zeta. unfold checkBeforeTrade.
  destruct (if enableKillSwitch config then killFile (world g) else None) as [content|].
  - simpl. split; [now left|discriminate].
  - destruct (enableFundLimiter config) eqn:Ef.
    + pose proof (canTradeFunds_data (limits config) today amount (funds g)) as Hd.
      destruct (canTradeFunds (limits config) today amount (funds g)) as [f1 v] eqn:Ec.
      simpl in Hd. subst f1.
      destruct v as [|limitType current limit].
      * apply canTradeFunds_allowed in Ec as (_ & _ & Hv & Ht & Hp).
        cbn [losses funds world blockedCalls fst snd].
        destruct (enableLossBreaker config).
        -- destruct (canTradeBreaker today (losses g)) as [[l1 reason] allowed].
           destruct allowed; cbn [fst snd funds]; (split; [now right|]);
             intros; try discriminate; now repeat split.
        -- cbn [fst snd funds]. split; [now right|]. intros; now repeat split.
      * cbn [fst snd funds]. split; [now right|discriminate].
    + cbn [losses funds world blockedCalls fst snd].
      destruct (enableLossBreaker config).
      * destruct (canTradeBreaker today (losses g)) as [[l1 reason] allowed].
        destruct allowed; cbn [fst snd funds]; (split; [now left|]);
          intros; discriminate.
      * cbn [fst snd funds]. split; [now left|]. intros; discriminate.
Qed.

Lemma guardCall_within (g : Guard) (c : GuardCall) :
  withinLimits (limits config) (funds g) -> saneCall c ->
  withinLimits (limits config) (funds (guardCall config g c)).
Proof.
  intros Hin Hsane. destruct c as [day1 day2 amount|today amount|today stamp amount pnl
                                   |force today|reason stamp|]; simpl in *.
  - destruct (checkBeforeTrade_funds day1 amount g) as [Hf Hallowed].
    cbv zeta in Hf, Hallowed.
    destruct (checkBeforeTrade config day1 amount g) as [g1 verdict].
    cbn [fst snd] in *.
    assert (H1 : withinLimits (limits config) (funds g1)).
    { destruct Hf as [-> | ->]; [exact Hin|now apply resetFundsDaily_within]. }
    destruct verdict; try exact H1.
    unfold recordOpen. destruct (enableFundLimiter config) eqn:Ef; [|exact H1].
    destruct (Hallowed eq_refl eq_refl) as (_ & Hv & Ht & Hp).
    cbn [funds]. now apply recordFundsTrade_within.
  - destruct (checkBeforeTrade_funds today amount g) as [Hf _]. cbv zeta in Hf.
    destruct Hf as [-> | ->]; [exact Hin|now apply resetFundsDaily_within].
  - unfold recordClose.
    destruct (if enableLossBreaker config then _ else _) as [l1 w1].
    cbn [funds]. destruct (enableFundLimiter config); [|exact Hin].
    now apply recordFundsClose_within.
  - unfold resetAll. destruct force; [|exact Hin].
    cbn [funds]. now apply (freshFunds_within _ today (funds g)).
  - exact Hin.
  - exact Hin.
Qed.

End GuardFundFacts.

(** A strategy that asks the guard before every trade and records only
    the trades the guard allowed never takes the fund limiter outside
    its limits: after any number of attempts, closes, checks, resets and
    day changes the daily volume, the number of daily trades and the
    total position lie between 0 and their limits.  This holds also
    when the day changes between the check and the recording. *)
Theorem guarded_trading_stays_within_limits :
  forall (config : Safety.GuardConfig) (calls : list Safety.GuardCall)
         (g : Safety.Guard),
    Safety.withinLimits (Safety.limits config) (Safety.funds g) ->
    Forall Safety.saneCall calls ->
    Safety.withinLimits (Safety.limits config)
      (Safety.funds (Safety.guardCalls config calls g)).
Proof.
  intros config calls. unfold Safety.guardCalls.
  induction calls as [|c calls IH]; intros g Hin Hsane; [exact Hin|].
  inversion Hsane as [|? ? Hc Hrest]; subst. simpl.
  apply IH; [|exact Hrest]. now apply guardCall_within.
Qed.

Lemma guarded_trading_stays_within_limits_witness :
  Safety.withinLimits (Safety.limits (GuardSamples.config true true true))
    (Safety.funds
       (Safety.guardCalls (GuardSamples.config true true true)
          GuardSamples.session (GuardSamples.guard true))).
Proof.
  apply (guarded_trading_stays_within_limits (GuardSamples.config true true true)
           GuardSamples.session (GuardSamples.guard true)).
  - unfold Safety.withinLimits. simpl. repeat split; vm_compute; congruence.
  - repeat constructor; simpl; vm_compute; congruence.
Defined.

(** ** The loss circuit breaker *)

Section BreakerFacts.

Import Safety.
Local Open Scope Q_scope.

Variable config : BreakerConfig.
Variable killSwitch : bool.

Lemma resetBreakerDaily_frame (today : string) (d : BreakerData) :
  let d' := resetBreakerDaily today d in
  totalPnL d' = totalPnL d /\ peakCapital d' = peakCapital d /\
  currentCapital d' = currentCapital d /\
  consecutiveLosses d' = consecutiveLosses d /\
  longestLosingRun d' = longestLosingRun d /\
  totalTrades d' = totalTrades d /\ winningTrades d' = winningTrades d /\
  losingTrades d' = losingTrades d /\ isTripped d' = isTripped d /\
  tripReason d' = tripReason d.
Proof.
  cbv zeta. unfold resetBreakerDaily. destruct (String.eqb _ _); now repeat split.
Qed.








End BreakerFacts.

Section BreakerRuns.

Import Safety.
Local Open Scope Q_scope.

Variable config : BreakerConfig.
Variable killSwitch : bool.


End BreakerRuns.



(** ** The guard as a whole *)

Section GuardFacts.

Import Safety.
Local Open Scope Q_scope.

Variable config : GuardConfig.

Lemma checkBeforeTrade_losses (today : string) (amount : Q) (g : Guard) :
  let result := checkBeforeTrade config today amount g in
  (losses (fst result) = losses g \/
   losses (fst result) = resetBreakerDaily today (losses g)) /\
  world (fst result) = world g.
Proof.
  cbv zeta. unfold checkBeforeTrade.
  destruct (if enableKillSwitch config then killFile (world g) else None) as [content|].
  - cbn [fst losses world]. split; [now left|reflexivity].
  - destruct (if enableFundLimiter config then _ else _) as [f1 v].
    cbn [losses funds world blockedCalls].
    destruct v as [|limitType current limit].
    + destruct (enableLossBreaker config).
      * unfold canTradeBreaker.
        destruct (negb (isTripped (resetBreakerDaily today (losses g))));
          cbn [fst losses world]; (split; [now right|reflexivity]).
      * cbn [fst losses world]. split; [now left|reflexivity].
    + cbn [fst losses world]. split; [now left|reflexivity].
Qed.


Lemma canTradeFunds_verdict (today : string) (amount : Q) (d : FundData) :
  let d1 := resetFundsDaily today d in
  snd (canTradeFunds (limits config) today amount d) = FundsAllowed <->
  amount <= maxSingleTrade (limits config) /\
  dailyVolume d1 + amount <= maxDailyVolume (limits config) /\
  dailyTrades d1 + 1 <= maxDailyTrades (limits config) /\
  totalPosition d1 + amount <= maxTotalPosition (limits config).
Proof.
  cbv zeta. unfold canTradeFunds.
  destruct (JsMath.gtb amount _) eqn:E1.
  { cbn [snd]. apply gtb_lt in E1. split; [discriminate|]. intros (H & _). lra. }
  destruct (JsMath.gtb (_ + amount) (maxDailyVolume _)) eqn:E2.
  { cbn [snd]. apply gtb_lt in E2. split; [discriminate|]. intros (_ & H & _). lra. }
  destruct (JsMath.gtb (_ + 1) _) eqn:E3.
  { cbn [snd]. apply gtb_lt in E3. split; [discriminate|]. intros (_ & _ & H & _). lra. }
  destruct (JsMath.gtb (_ + amount) (maxTotalPosition _)) eqn:E4.
  { cbn [snd]. apply gtb_lt in E4. split; [discriminate|]. intros (_ & _ & _ & H). lra. }
  apply gtb_le in E1, E2, E3, E4. cbn [snd]. split; [|reflexivity].
  intros _. now repeat split.
Qed.

Lemma checks_after_switch (today : string) (amount : Q) (g : Guard) :
  let result :=
    let '(funds1, fundCheck) :=
      if enableFundLimiter config
      then canTradeFunds (limits config) today amount (funds g)
      else (funds g, FundsAllowed) in
    let g1 := {| world := world g; funds := funds1; losses := losses g;
                 blockedCalls := blockedCalls g |} in
    match fundCheck with
    | LimitReached limitType current limit =>
        ({| world := world g1; funds := funds g1; losses := losses g1;
            blockedCalls := S (blockedCalls g1) |},
         BlockedByFundLimiter limitType current limit)
    | FundsAllowed =>
        if enableLossBreaker config then
          let '(losses1, reason, allowed) := canTradeBreaker today (losses g1) in
          let g2 := {| world := world g1; funds := funds g1; losses := losses1;
                       blockedCalls := blockedCalls g1 |} in
          if allowed then (g2, Allowed)
          else ({| world := world g2; funds := funds g2; losses := losses g2;
                   blockedCalls := S (blockedCalls g2) |},
                BlockedByLossBreaker reason)
        else (g1, Allowed)
    end in
  let fundsOk :=
    enableFundLimiter config = false \/
    snd (canTradeFunds (limits config) today amount (funds g)) = FundsAllowed in
  let lossesOk := enableLossBreaker config = false \/ isTripped (losses g) = false in
  (false = false -> ~ fundsOk ->
   exists limitType current limit,
     snd result = BlockedByFundLimiter limitType current limit) /\
  (false = false -> fundsOk -> ~ lossesOk ->
   snd result = BlockedByLossBreaker (tripReason (losses g))) /\
  (false = false -> fundsOk -> lossesOk -> snd result = Allowed) /\
  (blockedCalls (fst result)
   = match snd result with
     | Allowed => blockedCalls g
     | _ => S (blockedCalls g)
     end).
Proof.
  cbv zeta.
  destruct (resetBreakerDaily_frame today (losses g))
    as (_ & _ & _ & _ & _ & _ & _ & _ & F9 & F10).
  assert (Hbreaker :
            forall f,
              let tail :=
                if enableLossBreaker config then
                  let '(losses1, reason, allowed) := canTradeBreaker today (losses g) in
                  let g2 := {| world := world g; funds := f; losses := losses1;
                               blockedCalls := blockedCalls g |} in
                  if allowed then (g2, Allowed)
                  else ({| world := world g2; funds := funds g2; losses := losses g2;
                           blockedCalls := S (blockedCalls g2) |},
                        BlockedByLossBreaker reason)
                else ({| world := world g; funds := f; losses := losses g;
                         blockedCalls := blockedCalls g |}, Allowed) in
              (~ (enableLossBreaker config = false \/ isTripped (losses g) = false) ->
               snd tail = BlockedByLossBreaker (tripReason (losses g))) /\
              (enableLossBreaker config = false \/ isTripped (losses g) = false ->
               snd tail = Allowed) /\
              blockedCalls (fst tail)
              = match snd tail with
                | Allowed => blockedCalls g
                | _ => S (blockedCalls g)
                end).
  { intros f. cbv zeta. destruct (enableLossBreaker config).
    - unfold canTradeBreaker. rewrite F9, F10.
      destruct (isTripped (losses g)); cbn [negb fst snd blockedCalls].
      + split; [reflexivity|]. split; [|reflexivity].
        intros [H|H]; discriminate.
      + split; [|split; reflexivity]. intros H. exfalso. apply H. now right.
    - cbn [fst snd blockedCalls]. split; [|split; reflexivity].
      intros H. exfalso. apply H. now left. }
  destruct (enableFundLimiter config).
  - destruct (canTradeFunds (limits config) today amount (funds g)) as [f1 v].
    cbn [snd]. destruct v as [|limitType current limit].
    + cbn [world funds losses blockedCalls].
      destruct (Hbreaker f1) as (H1 & H2 & H3). cbv zeta in H1, H2, H3.
      split; [intros _ H; exfalso; apply H; now right|].
      split; [intros _ _; exact H1|]. split; [intros _ _; exact H2|exact H3].
    + cbn [fst snd world funds losses blockedCalls].
      split; [intros _ _; eauto|].
      split; [intros _ [H|H]; discriminate|].
      split; [intros _ [H|H]; discriminate|reflexivity].
  - cbn [world funds losses blockedCalls].
    destruct (Hbreaker (funds g)) as (H1 & H2 & H3). cbv zeta in H1, H2, H3.
    split; [intros _ H; exfalso; apply H; now left|].
    split; [intros _ _; exact H1|]. split; [intros _ _; exact H2|exact H3].
Qed.

(** The checks in the order the guard makes them. *)
Lemma checkBeforeTrade_verdict (today : string) (amount : Q) (g : Guard) :
  let result := checkBeforeTrade config today amount g in
  let killed := enableKillSwitch config && isTriggered (world g) in
  let fundsOk :=
    enableFundLimiter config = false \/
    snd (canTradeFunds (limits config) today amount (funds g)) = FundsAllowed in
  let lossesOk := enableLossBreaker config = false \/ isTripped (losses g) = false in
  (killed = true ->
   exists message, snd result = BlockedByKillSwitch message) /\
  (killed = false -> ~ fundsOk ->
   exists limitType current limit,
     snd result = BlockedByFundLimiter limitType current limit) /\
  (killed = false -> fundsOk -> ~ lossesOk ->
   snd result = BlockedByLossBreaker (tripReason (losses g))) /\
  (killed = false -> fundsOk -> lossesOk -> snd result = Allowed) /\
  (blockedCalls (fst result)
   = match snd result with
     | Allowed => blockedCalls g
     | _ => S (blockedCalls g)
     end).
Proof.
  cbv zeta. unfold checkBeforeTrade, isTriggered.
  destruct (enableKillSwitch config).
  - destruct (killFile (world g)) as [content|]; cbn [andb].
    + cbn [fst snd blockedCalls]. split; [intros _; eauto|].
      repeat split; intros; try discriminate.
    + split; [discriminate|]. apply checks_after_switch.
  - cbn [andb]. split; [discriminate|]. apply checks_after_switch.
Qed.



End GuardFacts.



(** Resetting all guards without confirmation changes nothing.  With
    confirmation the kill-switch file is removed when the file system
    allows it, the fund limiter starts afresh and the breaker is
    released with its total loss kept; a check made right after is
    allowed exactly when the amount fits the four limits of a fresh
    day, or the fund limiter is disabled.  When the file cannot be
    removed the kill switch keeps refusing. *)
Theorem reset_all_reopens_trading :
  forall (config : Safety.GuardConfig) (g : Safety.Guard) (today : string) (amount : Q),
    let g' := Safety.resetAll true today g in
    let allowed := snd (Safety.checkBeforeTrade config today amount g') in
    Safety.resetAll false today g = g /\
    Safety.funds g' = Safety.freshFunds today /\
    Safety.isTripped (Safety.losses g') = false /\
    Safety.totalPnL (Safety.losses g') = Safety.totalPnL (Safety.losses g) /\
    (Safety.writable (Safety.world g) = true \/ Safety.killFile (Safety.world g) = None ->
     Safety.killFile (Safety.world g') = None /\
     (allowed = Safety.Allowed <->
      Safety.enableFundLimiter config = false \/
      (amount <= Safety.maxSingleTrade (Safety.limits config) /\
       amount <= Safety.maxDailyVolume (Safety.limits config) /\
       1 <= Safety.maxDailyTrades (Safety.limits config) /\
       amount <= Safety.maxTotalPosition (Safety.limits config))%Q)) /\
    (Safety.writable (Safety.world g) = false ->
     Safety.killFile (Safety.world g) <> None ->
     Safety.enableKillSwitch config = true ->
     allowed <> Safety.Allowed).
Proof.
  intros config g today amount. cbv zeta.
  split; [reflexivity|]. split; [reflexivity|]. split; [reflexivity|].
  split; [reflexivity|].
  destruct (checkBeforeTrade_verdict config today amount
              (Safety.resetAll true today g)) as (Hk & Hf & Hl & Ha & _).
  cbv zeta in Hk, Hf, Hl, Ha.
  pose proof (canTradeFunds_verdict config today amount (Safety.freshFunds today))
    as Hfresh.
  cbv zeta in Hfresh. unfold Safety.resetFundsDaily in Hfresh.
  cbn [Safety.freshFunds Safety.fd_date] in Hfresh.
  rewrite String.eqb_refl in Hfresh.
  cbn [Safety.dailyVolume Safety.dailyTrades Safety.totalPosition] in Hfresh.
  cbn [Safety.resetAll Safety.funds Safety.losses Safety.world] in Hk, Hf, Hl, Ha.
  assert (Hlosses : Safety.enableLossBreaker config = false \/
                    Safety.isTripped (Safety.resetBreaker true (Safety.losses g)) = false)
    by now right.
  split.
  - intros Hfs.
    assert (Hfile : Safety.killFile (Safety.resetSwitch (Safety.world g)) = None).
    { unfold Safety.resetSwitch.
      destruct (Safety.killFile (Safety.world g)) eqn:Ek; [|exact Ek].
      destruct Hfs as [Hw|Hn]; [|discriminate]. now rewrite Hw. }
    split; [exact Hfile|].
    assert (Hkilled : Safety.enableKillSwitch config
                      && Safety.isTriggered (Safety.resetSwitch (Safety.world g)) = false).
    { unfold Safety.isTriggered. rewrite Hfile. apply andb_false_r. }
    split.
    + intros Hallowed.
      destruct (Safety.enableFundLimiter config) eqn:Ef; [right|now left].
      destruct (Safety.canTradeFunds (Safety.limits config) today amount
                  (Safety.freshFunds today)) as [f1 v] eqn:Ec.
      destruct v as [|limitType current limit].
      * cbn [snd] in Hfresh. destruct Hfresh as [Hfresh _].
        destruct (Hfresh eq_refl) as (H1 & H2 & H3 & H4).
        cbn [Safety.freshFunds Safety.dailyVolume Safety.dailyTrades
             Safety.totalPosition] in H2, H3, H4.
        repeat split; lra.
      * destruct (Hf Hkilled) as (lt & cur & lim & Hv).
        { cbn [snd]. intros [H|H]; discriminate. }
        cbn [Safety.resetAll] in Hallowed. congruence.
    + intros Hfit. apply (Ha Hkilled); [|exact Hlosses].
      destruct Hfit as [Hoff|(H1 & H2 & H3 & H4)]; [now left|right].
      apply Hfresh.
      cbn [Safety.freshFunds Safety.dailyVolume Safety.dailyTrades Safety.totalPosition].
      repeat split; lra.
  - intros Hw Hfile Hks.
    destruct Hk as (message & Hm).
    + rewrite Hks. unfold Safety.resetSwitch, Safety.isTriggered.
      destruct (Safety.killFile (Safety.world g)) eqn:Ek; [|congruence].
      rewrite Hw, Ek. reflexivity.
    + cbn [Safety.resetAll]. rewrite Hm. discriminate.
Qed.

(** The guard allows a trade exactly when every enabled check passes:
    the kill-switch file is absent, the fund limiter has room for the
    amount, and the loss breaker is not tripped.  The checks are made in
    that order and the first that fails gives the refusal: behind an
    active kill switch the limiter and the breaker are not consulted, so
    that their daily counters are not reset by the call.  A refusal is
    reported once to [onBlocked], an allowed check not at all; the check
    never touches the kill switch. *)
Theorem guard_checks_in_order :
  forall (config : Safety.GuardConfig) (today : string) (amount : Q) (g : Safety.Guard),
    let result := Safety.checkBeforeTrade config today amount g in
    let killed :=
      Safety.enableKillSwitch config && Safety.isTriggered (Safety.world g) in
    let fundsOk :=
      Safety.enableFundLimiter config = false \/
      snd (Safety.canTradeFunds (Safety.limits config) today amount (Safety.funds g))
      = Safety.FundsAllowed in
    let lossesOk :=
      Safety.enableLossBreaker config = false \/
      Safety.isTripped (Safety.losses g) = false in
    (snd result = Safety.Allowed <-> killed = false /\ fundsOk /\ lossesOk) /\
    (killed = true ->
     (exists message, snd result = Safety.BlockedByKillSwitch message) /\
     Safety.funds (fst result) = Safety.funds g /\
     Safety.losses (fst result) = Safety.losses g) /\
    (killed = false -> ~ fundsOk ->
     exists limitType current limit,
       snd result = Safety.BlockedByFundLimiter limitType current limit) /\
    (killed = false -> fundsOk -> ~ lossesOk ->
     snd result = Safety.BlockedByLossBreaker (Safety.tripReason (Safety.losses g))) /\
    Safety.blockedCalls (fst result)
    = (match snd result with
       | Safety.Allowed => Safety.blockedCalls g
       | _ => S (Safety.blockedCalls g)
       end) /\
    Safety.world (fst result) = Safety.world g.
Proof.
  intros config today amount g. cbv zeta.
  destruct (checkBeforeTrade_verdict config today amount g) as (Hk & Hf & Hl & Ha & Hb).
  cbv zeta in Hk, Hf, Hl, Ha, Hb.
  destruct (checkBeforeTrade_losses config today amount g) as [_ Hw]. cbv zeta in Hw.
  assert (Hfdec : forall P : Prop,
             (Safety.enableFundLimiter config = false \/
              snd (Safety.canTradeFunds (Safety.limits config) today amount
                     (Safety.funds g)) = Safety.FundsAllowed -> P) ->
             (~ (Safety.enableFundLimiter config = false \/
                 snd (Safety.canTradeFunds (Safety.limits config) today amount
                        (Safety.funds g)) = Safety.FundsAllowed) -> P) -> P).
  { intros P H1 H2. destruct (Safety.enableFundLimiter config); [|apply H1; now left].
    destruct (snd (Safety.canTradeFunds _ today amount _));
      [apply H1; now right|apply H2; intros [H|H]; discriminate]. }
  assert (Hldec : forall P : Prop,
             (Safety.enableLossBreaker config = false \/
              Safety.isTripped (Safety.losses g) = false -> P) ->
             (~ (Safety.enableLossBreaker config = false \/
                 Safety.isTripped (Safety.losses g) = false) -> P) -> P).
  { intros P H1 H2. destruct (Safety.enableLossBreaker config); [|apply H1; now left].
    destruct (Safety.isTripped (Safety.losses g));
      [apply H2; intros [H|H]; discriminate|apply H1; now right]. }
  split; [|split; [|split; [|split; [|split]]]].
  - split.
    + intros Hallowed.
      destruct (Safety.enableKillSwitch config && Safety.isTriggered (Safety.world g))
        eqn:Ek.
      { destruct (Hk eq_refl) as (m & Hm). congruence. }
      split; [reflexivity|].
      apply Hfdec; [intros Hfo|intros Hfn].
      * split; [exact Hfo|].
        apply Hldec; [auto|intros Hln].
        specialize (Hl eq_refl Hfo Hln). congruence.
      * destruct (Hf eq_refl Hfn) as (lt & cur & lim & Hv). congruence.
    + intros (Hk0 & Hfo & Hlo). now apply Ha.
  - intros Hkilled. split; [now apply Hk|].
    unfold Safety.checkBeforeTrade, Safety.isTriggered in *.
    destruct (Safety.enableKillSwitch config); [|discriminate].
    destruct (Safety.killFile (Safety.world g)); [|discriminate].
    now split.
  - exact Hf.
  - exact Hl.
  - exact Hb.
  - exact Hw.
Qed.

(** ** The kill switch *)

Section SwitchFacts.

Import Safety.

Lemma backgroundCheck_spec (w : World) :
  let w' := backgroundCheck w in
  killFile w' = killFile w /\ writable w' = writable w /\
  isTriggeredFlag w' = (isTriggeredFlag w || isTriggered w) /\
  announced w'
  = (if isTriggered w && negb (isTriggeredFlag w) then S (announced w) else announced w).
Proof.
  cbv zeta. unfold backgroundCheck.
  destruct (isTriggered w) eqn:Et, (isTriggeredFlag w) eqn:Ef; simpl;
    rewrite ?Et, ?Ef; now repeat split.
Qed.

Lemma ticks_spec (n : nat) (w : World) :
  let w' := Nat.iter n backgroundCheck w in
  killFile w' = killFile w /\
  announced w'
  = (if (0 <? n) && isTriggered w && negb (isTriggeredFlag w)
     then S (announced w) else announced w) /\
  isTriggeredFlag w' = (isTriggeredFlag w || ((0 <? n) && isTriggered w)).
Proof.
  induction n as [|n IH]; cbv zeta.
  - simpl. split; [reflexivity|]. split; [reflexivity|]. now rewrite orb_false_r.
  - rewrite Nat.iter_succ. cbv zeta in IH. destruct IH as (H1 & H2 & H3).
    destruct (backgroundCheck_spec (Nat.iter n backgroundCheck w))
      as (B1 & _ & B3 & B4).
    cbv zeta in B1, B3, B4.
    assert (Ht : isTriggered (Nat.iter n backgroundCheck w) = isTriggered w).
    { unfold isTriggered. now rewrite H1. }
    rewrite B1, B3, B4, Ht, H1, H2, H3.
    split; [reflexivity|].
    destruct n as [|n]; cbn [Nat.ltb Nat.leb andb];
      destruct (isTriggered w), (isTriggeredFlag w); simpl; now split.
Qed.

Lemma switchCall_frame (w : World) (c : SwitchCall) :
  writable (switchCall w c) = writable w /\
  announced w <= announced (switchCall w c).
Proof.
  destruct c as [reason stamp| | |content|]; cbn [switchCall].
  - unfold trigger. destruct (writable w) eqn:E; simpl; split; auto.
  - unfold resetSwitch. destruct (killFile w); [|split; auto].
    destruct (writable w) eqn:E; simpl; split; auto.
  - destruct (backgroundCheck_spec w) as (_ & H2 & _ & H4). cbv zeta in H2, H4.
    rewrite H2, H4. split; [reflexivity|].
    destruct (isTriggered w && negb (isTriggeredFlag w)); lia.
  - simpl. split; auto.
  - simpl. split; auto.
Qed.

End SwitchFacts.

(** The kill switch is the existence of its file.  On a file system
    that can be written, a trigger creates the file and a reset removes
    it; on one that cannot, both leave everything as it is, so that a
    trigger that fails does not stop anything.  The background check
    never changes the file and announces a trigger at most once: it
    does so when it first sees a file nobody announced.  It goes by the
    flag of the instance, which only a reset clears: a file removed by
    hand and created again is not announced a second time.  Nothing
    called on the switch lowers the number of announcements or changes
    whether the file system can be written. *)
Theorem kill_switch_follows_file :
  (forall w reason stamp,
      Safety.writable w = true ->
      let w' := Safety.trigger reason stamp w in
      Safety.isTriggered w' = true /\
      Safety.checkAndThrow w' <> Ok tt /\
      Safety.announced w' = S (Safety.announced w) /\
      Safety.isTriggered (Safety.resetSwitch w') = false /\
      Safety.isTriggeredFlag (Safety.resetSwitch w') = false) /\
  (forall w reason stamp,
      Safety.writable w = false ->
      Safety.trigger reason stamp w = w /\ Safety.resetSwitch w = w) /\
  (forall n w,
      let w' := Nat.iter n Safety.backgroundCheck w in
      Safety.killFile w' = Safety.killFile w /\
      Safety.announced w' <= S (Safety.announced w) /\
      (Safety.announced w' = S (Safety.announced w) <->
       0 < n /\ Safety.isTriggered w = true /\ Safety.isTriggeredFlag w = false)) /\
  (forall w content,
      Safety.isTriggeredFlag w = true ->
      let w' := Safety.touch content (Safety.remove w) in
      Safety.isTriggered w' = true /\ Safety.backgroundCheck w' = w') /\
  (forall calls w,
      let w' := fold_left Safety.switchCall calls w in
      Safety.writable w' = Safety.writable w /\
      Safety.announced w <= Safety.announced w').
Proof.
  split; [|split; [|split; [|split]]].
  - intros w reason stamp Hw. cbv zeta. unfold Safety.trigger. rewrite Hw.
    unfold Safety.resetSwitch, Safety.isTriggered, Safety.checkAndThrow.
    cbn [Safety.killFile Safety.writable Safety.announced Safety.isTriggeredFlag].
    repeat split; try reflexivity. discriminate.
  - intros w reason stamp Hw. unfold Safety.trigger, Safety.resetSwitch. rewrite Hw.
    split; [reflexivity|]. destruct (Safety.killFile w); reflexivity.
  - intros n w. cbv zeta.
    destruct (ticks_spec n w) as (H1 & H2 & _). cbv zeta in H1, H2.
    rewrite H1, H2. split; [reflexivity|].
    destruct (Nat.ltb_spec 0 n) as [Hn|Hn];
      destruct (Safety.isTriggered w), (Safety.isTriggeredFlag w); cbn [andb negb];
      (split; [lia|]); split; intros H; try lia;
      try (destruct H as (H0 & H3 & H4); try discriminate; lia);
      now repeat split.
  - intros w content Hflag. cbv zeta. split; [reflexivity|].
    unfold Safety.backgroundCheck, Safety.touch, Safety.remove, Safety.isTriggered.
    cbn [Safety.killFile Safety.isTriggeredFlag]. rewrite Hflag. reflexivity.
  - intros calls. induction calls as [|c calls IH]; intros w; cbv zeta.
    + simpl. split; [reflexivity|lia].
    + simpl. destruct (IH (Safety.switchCall w c)) as [H1 H2]. cbv zeta in H1, H2.
      destruct (switchCall_frame w c) as [H3 H4].
      split; [congruence|lia].
Qed.
